(** * idlewatcher: the evdev activity monitor, embedded in Rocq

    A shallow embedding of [idlewatcher.cpp]: the three-state machine
    (ACTIVE / IDLE / EXTENDED), the debounced activity pulse, the timer
    scheduling, the per-axis dead-zone calibration, the input classifier,
    the device registry, the configuration loader and the event loop.

    Conventions.
    - C++ [int], [long] and [int64_t] values are [Z]; every arithmetic
      operation of the source is followed by the wrap-around of its width.
      Signed overflow is undefined in the source: a statement that depends on
      the value of such an operation carries the hypothesis that it does not
      overflow.
    - A [double] is an IEEE binary64 value of the Standard Library's
      [SpecFloat].
    - The global [RT], the globals [AXIS_DZ_PCT] and [HOOKS_MIRROR] and the
      outside world (clock, system calls issued) form one record [Sys] that a
      small state monad threads through the functions, in the order of the
      source.
    - What the kernel answers (clock readings, [read], [open], [ioctl]) is
      an input of the function that asks for it.
    - The file has three parts: the embedding, the vocabulary of the
      statements with a few sample runs, and the properties. *)

From Stdlib Require Import ZArith Lia Ascii String.
From Stdlib Require Import Floats.SpecFloat.
From stdpp Require Import base numbers list strings sorting.

Local Open Scope Z_scope.

(** ** Machine integers *)

Definition wrap32 (x : Z) : Z := (x + 2147483648) mod 4294967296 - 2147483648.
Definition wrap64 (x : Z) : Z :=
  (x + 9223372036854775808) mod 18446744073709551616 - 9223372036854775808.

Definition in_int32 (x : Z) : Prop := -2147483648 <= x <= 2147483647.
Definition in_int64 (x : Z) : Prop :=
  -9223372036854775808 <= x <= 9223372036854775807.

Definition sub32 (a b : Z) : Z := wrap32 (a - b).
Definition abs32 (a : Z) : Z := wrap32 (Z.abs a).
Definition sub64 (a b : Z) : Z := wrap64 (a - b).
Definition add64 (a b : Z) : Z := wrap64 (a + b).
Definition mul64 (a b : Z) : Z := wrap64 (a * b).

(** ** Constants of the source and of [linux/input-event-codes.h] *)

Definition DEFAULT_IDLE_S : Z := 900.
Definition DEFAULT_EXTENDED_S : Z := 3600.
Definition AXIS_DZ_MIN : Z := 64.
Definition AXIS_DZ_BADSPAN : Z := 128.
Definition DEBOUNCE_MS : Z := 3000.
Definition HOOKS_ROOT : string := "/etc/idlewatcher".
Definition INPUT_DIR : string := "/dev/input".

Definition EV_SYN : Z := 0.
Definition EV_KEY : Z := 1.
Definition EV_REL : Z := 2.
Definition EV_ABS : Z := 3.
Definition ABS_HAT0X : Z := 16.
Definition ABS_HAT3Y : Z := 23.
Definition ABS_MAX : Z := 63.

(** ** Doubles (IEEE binary64, through the Standard Library's [SpecFloat]) *)

Definition prec : Z := 53.
Definition emax : Z := 1024.
Definition double : Type := spec_float.

(** Conversion of an integer to [double], round to nearest even. *)
Definition double_of_Z (z : Z) : double := binary_normalize prec emax z 0 false.
Definition dmul : double -> double -> double := SFmul prec emax.
Definition ddiv : double -> double -> double := SFdiv prec emax.
Definition dltb : double -> double -> bool := SFltb.

(** The literals of the source, each the nearest double of its decimal. *)
Definition DEFAULT_AXIS_DZ_PCT : double :=
  Eval vm_compute in ddiv (double_of_Z 15) (double_of_Z 100).
Definition d_0_90 : double :=
  Eval vm_compute in ddiv (double_of_Z 9) (double_of_Z 10).
Definition d_1_0 : double := Eval vm_compute in double_of_Z 1.
Definition d_0_0 : double := Eval vm_compute in double_of_Z 0.
Definition d_100_0 : double := Eval vm_compute in double_of_Z 100.

(** [std::lround]: the nearest integer, halves away from zero.  The C
    standard leaves the result for NaN and the infinities unspecified; the
    model returns 0 there. *)
Definition lround (x : double) : Z :=
  match x with
  | S754_finite s m e =>
      let mag :=
        if 0 <=? e then Z.pos m * 2 ^ e
        else
          let d := 2 ^ (- e) in
          let q := Z.pos m / d in
          let r := Z.pos m mod d in
          if d <=? 2 * r then q + 1 else q in
      wrap64 (if s then - mag else mag)
  | _ => 0
  end.

(** ** Types and globals *)

Inductive State := ACTIVE | IDLE | EXTENDED.

Definition State_eqb (a b : State) : bool :=
  match a, b with
  | ACTIVE, ACTIVE | IDLE, IDLE | EXTENDED, EXTENDED => true
  | _, _ => false
  end.

(** [struct Dev]: the five per-axis arrays have [ABS_MAX+1] cells. *)
Record Dev := mkDev {
  fd : Z;
  path : string;
  abs_last : list Z;
  abs_seen : list bool;
  abs_min : list Z;
  abs_max : list Z;
  abs_dz : list Z
}.

Definition ABS_CNT : nat := 64.

(** The constructor [Dev()]: every array zeroed. *)
Definition Dev_new : Dev :=
  {| fd := -1; path := EmptyString;
     abs_last := replicate ABS_CNT 0;
     abs_seen := replicate ABS_CNT false;
     abs_min := replicate ABS_CNT 0;
     abs_max := replicate ABS_CNT 0;
     abs_dz := replicate ABS_CNT 0 |}.

(** Array cell read and write at a C index.  An index outside the array is
    undefined behaviour in the source; the kernel never delivers an axis
    code above [ABS_MAX], and the model then reads the default and writes
    nothing. *)
Definition cell {A} `{Inhabited A} (l : list A) (i : Z) : A := l !!! Z.to_nat i.
Definition set_cell {A} (l : list A) (i : Z) (v : A) : list A :=
  <[ Z.to_nat i := v ]> l.

Record Runtime := mkRuntime {
  epfd : Z;
  tfd : Z;
  ifd : Z;
  devices : list Dev;
  last_activity_ms : Z;
  last_pulse_ms : Z;
  state : State;
  idle_s : Z;
  extended_s : Z
}.

(** The initial value of the global [RT]. *)
Definition RT_init : Runtime :=
  {| epfd := -1; tfd := -1; ifd := -1; devices := [];
     last_activity_ms := 0; last_pulse_ms := 0; state := ACTIVE;
     idle_s := DEFAULT_IDLE_S; extended_s := DEFAULT_EXTENDED_S |}.

Definition set_devices (v : list Dev) (r : Runtime) : Runtime :=
  {| epfd := epfd r; tfd := tfd r; ifd := ifd r; devices := v;
     last_activity_ms := last_activity_ms r; last_pulse_ms := last_pulse_ms r;
     state := state r; idle_s := idle_s r; extended_s := extended_s r |}.
Definition set_last_activity_ms (v : Z) (r : Runtime) : Runtime :=
  {| epfd := epfd r; tfd := tfd r; ifd := ifd r; devices := devices r;
     last_activity_ms := v; last_pulse_ms := last_pulse_ms r;
     state := state r; idle_s := idle_s r; extended_s := extended_s r |}.
Definition set_last_pulse_ms (v : Z) (r : Runtime) : Runtime :=
  {| epfd := epfd r; tfd := tfd r; ifd := ifd r; devices := devices r;
     last_activity_ms := last_activity_ms r; last_pulse_ms := v;
     state := state r; idle_s := idle_s r; extended_s := extended_s r |}.
Definition set_state (v : State) (r : Runtime) : Runtime :=
  {| epfd := epfd r; tfd := tfd r; ifd := ifd r; devices := devices r;
     last_activity_ms := last_activity_ms r; last_pulse_ms := last_pulse_ms r;
     state := v; idle_s := idle_s r; extended_s := extended_s r |}.
Definition set_timeouts (i e : Z) (r : Runtime) : Runtime :=
  {| epfd := epfd r; tfd := tfd r; ifd := ifd r; devices := devices r;
     last_activity_ms := last_activity_ms r; last_pulse_ms := last_pulse_ms r;
     state := state r; idle_s := i; extended_s := e |}.
Definition set_fds (e t i : Z) (r : Runtime) : Runtime :=
  {| epfd := e; tfd := t; ifd := i; devices := devices r;
     last_activity_ms := last_activity_ms r; last_pulse_ms := last_pulse_ms r;
     state := state r; idle_s := idle_s r; extended_s := extended_s r |}.

(** ** The outside world *)

(** The system calls the monitor issues, in order. *)
Inductive Effect :=
| WriteState (val : Z)                      (* the digit written to STATE_FILE *)
| RunFolder (dir : string) (arg : string)   (* run_folder(dir, arg) *)
| ArmTimer (sec nsec : Z)                   (* timerfd_settime(RT.tfd, ...) *)
| EpollAdd (f : Z)                          (* epoll_ctl(EPOLL_CTL_ADD, f) *)
| EpollDel (f : Z)                          (* epoll_ctl(EPOLL_CTL_DEL, f) *)
| Close (f : Z).                            (* close(f) *)

(** [clock n] is what the [n]-th call of [now_ms()] returns; [ticks] counts
    the calls made so far.  [out] is the list of system calls issued.
    [pulses] is a history variable: one entry per call of [on_activity],
    the clock reading it took and whether the debounce test let it through. *)
Record World := mkWorld {
  clock : nat -> Z;
  ticks : nat;
  out : list Effect;
  pulses : list (Z * bool)
}.

Record Sys := mkSys {
  RT : Runtime;
  AXIS_DZ_PCT : double;
  HOOKS_MIRROR : string;
  env : World
}.

(** ** The state monad *)

Definition M (A : Type) : Type := Sys -> A * Sys.

Definition ret {A} (a : A) : M A := fun s => (a, s).
Definition bind {A B} (m : M A) (k : A -> M B) : M B :=
  fun s => let (a, s') := m s in k a s'.

Notation "x <- c ;; k" := (bind c (fun x => k))
  (at level 100, c at next level, right associativity).
Notation "c ;;; k" := (bind c (fun _ => k))
  (at level 100, right associativity).

Definition exec {A} (m : M A) (s : Sys) : Sys := snd (m s).
Definition eval {A} (m : M A) (s : Sys) : A := fst (m s).

Definition get_rt : M Runtime := fun s => (RT s, s).
Definition modify_rt (f : Runtime -> Runtime) : M unit :=
  fun s => (tt, {| RT := f (RT s); AXIS_DZ_PCT := AXIS_DZ_PCT s;
                   HOOKS_MIRROR := HOOKS_MIRROR s; env := env s |}).
Definition modify_env (f : World -> World) : M unit :=
  fun s => (tt, {| RT := RT s; AXIS_DZ_PCT := AXIS_DZ_PCT s;
                   HOOKS_MIRROR := HOOKS_MIRROR s; env := f (env s) |}).
Definition emit (e : Effect) : M unit :=
  modify_env (fun w => {| clock := clock w; ticks := ticks w;
                          out := out w ++ [e]; pulses := pulses w |}).
Definition note_pulse (now : Z) (accepted : bool) : M unit :=
  modify_env (fun w => {| clock := clock w; ticks := ticks w; out := out w;
                          pulses := pulses w ++ [(now, accepted)] |}).

(** [now_ms()]: one reading of CLOCK_MONOTONIC_COARSE, in milliseconds. *)
Definition now_ms : M Z :=
  fun s => (clock (env s) (ticks (env s)),
            {| RT := RT s; AXIS_DZ_PCT := AXIS_DZ_PCT s;
               HOOKS_MIRROR := HOOKS_MIRROR s;
               env := {| clock := clock (env s); ticks := S (ticks (env s));
                         out := out (env s); pulses := pulses (env s) |} |}).

(** ** Hooks and state file *)

(** [write_state] is recorded as the digit it writes (the [fopen] may fail,
    silently), and [run_folder] as its two arguments: which scripts the
    folder holds and how they run is outside the monitor. *)
Definition write_state (s : State) : M unit :=
  emit (WriteState (if State_eqb s ACTIVE then 1 else 0)).

Definition run_hook_roots (subdir arg : string) : M unit :=
  emit (RunFolder (HOOKS_ROOT +:+ "/" +:+ subdir) arg) ;;;
  fun s =>
    (if String.eqb (HOOKS_MIRROR s) EmptyString then ret tt
     else emit (RunFolder (HOOKS_MIRROR s +:+ "/" +:+ subdir) arg)) s.

(** ** State machine and timers *)

Definition effective_idle_ms : M Z :=
  now <- now_ms ;;
  rt <- get_rt ;;
  let delta := sub64 now (last_activity_ms rt) in
  ret (if 0 <? delta then delta else 0).

(** [timerfd_settime] is taken to succeed (the process exits otherwise);
    a zero [itimerspec] disarms the timer. *)
Definition arm_timer_ms (ms : Z) : M unit :=
  if 0 <? ms then emit (ArmTimer (Z.quot ms 1000) (wrap64 (Z.rem ms 1000 * 1000000)))
  else emit (ArmTimer 0 0).

Definition schedule_timer : M unit :=
  rt <- get_rt ;;
  let idle_ms := mul64 (idle_s rt) 1000 in
  let ext_ms := mul64 (extended_s rt) 1000 in
  match state rt with
  | EXTENDED => arm_timer_ms 0
  | ACTIVE =>
      eff_since <- effective_idle_ms ;;
      let remain := sub64 idle_ms eff_since in
      arm_timer_ms (if 1 <? remain then remain else 1)
  | IDLE =>
      eff_since <- effective_idle_ms ;;
      let remain := sub64 (add64 idle_ms ext_ms) eff_since in
      arm_timer_ms (if 1 <? remain then remain else 1)
  end.

Definition enter (to : State) : M unit :=
  rt <- get_rt ;;
  if State_eqb to (state rt) then ret tt
  else
    modify_rt (set_state to) ;;;
    write_state to ;;;
    match to with
    | ACTIVE => run_hook_roots "active.d" "active"
    | IDLE => run_hook_roots "idle.d" "idle"
    | EXTENDED => run_hook_roots "extended.d" "extended"
    end.

Definition on_activity : M unit :=
  now <- now_ms ;;
  rt <- get_rt ;;
  if sub64 now (last_pulse_ms rt) <? DEBOUNCE_MS then note_pulse now false
  else
    note_pulse now true ;;;
    modify_rt (set_last_pulse_ms now) ;;;
    modify_rt (set_last_activity_ms now) ;;;
    rt <- get_rt ;;
    (if State_eqb (state rt) ACTIVE then ret tt else enter ACTIVE) ;;;
    schedule_timer.

Definition reevaluate : M unit :=
  eff_since <- effective_idle_ms ;;
  rt <- get_rt ;;
  let idle_ms := mul64 (idle_s rt) 1000 in
  let ext_ms := mul64 (extended_s rt) 1000 in
  match state rt with
  | ACTIVE => if idle_ms <=? eff_since then enter IDLE else ret tt
  | IDLE =>
      if eff_since <? idle_ms then enter ACTIVE
      else if add64 idle_ms ext_ms <=? eff_since then enter EXTENDED
      else ret tt
  | EXTENDED => if eff_since <? idle_ms then enter ACTIVE else ret tt
  end ;;;
  schedule_timer.

(** ** Device discovery *)

Definition is_hat_abs (c : Z) : bool := (ABS_HAT0X <=? c) && (c <=? ABS_HAT3Y).

#[global] Instance Dev_inhabited : Inhabited Dev := populate Dev_new.

Definition with_fd_path (f : Z) (p : string) (d : Dev) : Dev :=
  {| fd := f; path := p; abs_last := abs_last d; abs_seen := abs_seen d;
     abs_min := abs_min d; abs_max := abs_max d; abs_dz := abs_dz d |}.
Definition with_last (l : list Z) (d : Dev) : Dev :=
  {| fd := fd d; path := path d; abs_last := l; abs_seen := abs_seen d;
     abs_min := abs_min d; abs_max := abs_max d; abs_dz := abs_dz d |}.
Definition with_seen (l : list bool) (d : Dev) : Dev :=
  {| fd := fd d; path := path d; abs_last := abs_last d; abs_seen := l;
     abs_min := abs_min d; abs_max := abs_max d; abs_dz := abs_dz d |}.
Definition with_calib (mn mx dz : list Z) (d : Dev) : Dev :=
  {| fd := fd d; path := path d; abs_last := abs_last d; abs_seen := abs_seen d;
     abs_min := mn; abs_max := mx; abs_dz := dz |}.

(** The position of the first element that satisfies [p]; the source
    returns it as an [int], with -1 for none. *)
Fixpoint index_where {A} (p : A -> bool) (l : list A) : option nat :=
  match l with
  | [] => None
  | x :: l' => if p x then Some O else option_map S (index_where p l')
  end.

Definition dev_index_by_fd (f : Z) (ds : list Dev) : option nat :=
  index_where (fun d => fd d =? f) ds.

Definition dev_index_by_path (p : string) (ds : list Dev) : option nat :=
  index_where (fun d => String.eqb (path d) p) ds.

Definition erase_dev (idx : nat) : M unit :=
  rt <- get_rt ;;
  let f := fd (devices rt !!! idx) in
  emit (EpollDel f) ;;;
  emit (Close f) ;;;
  modify_rt (set_devices (delete idx (devices rt))).

Definition del_dev_fd (f : Z) : M unit :=
  rt <- get_rt ;;
  match dev_index_by_fd f (devices rt) with
  | Some idx => erase_dev idx
  | None => ret tt
  end.

Definition del_dev (p : string) : M unit :=
  rt <- get_rt ;;
  match dev_index_by_path p (devices rt) with
  | Some idx => erase_dev idx
  | None => ret tt
  end.

(** What the kernel answers to one [add_dev]: the descriptor [open] returns
    (negative on failure), whether [epoll_ctl(EPOLL_CTL_ADD)] succeeds, and
    for each axis code what [ioctl(EVIOCGABS(code))] reports: [None] when
    the call fails, else the pair (minimum, maximum). *)
Record OpenReply := mkOpenReply {
  open_fd : Z;
  epoll_add_ok : bool;
  absinfo : Z -> option (Z * Z)
}.

(** The lambda [span_of]: a subtraction of two [long]. *)
Definition span_of (mn mx : Z) : Z := sub64 mx mn.

(** The dead-zone of a non-hat axis, from its span. *)
Definition axis_dz (pct : double) (span : Z) : Z :=
  if 0 <? span then
    let dz := wrap32 (lround (dmul (double_of_Z span) pct)) in
    if dz <? AXIS_DZ_MIN then AXIS_DZ_MIN else dz
  else AXIS_DZ_BADSPAN.

(** One turn of the loop of [init_abs_info]. *)
Definition init_axis (pct : double) (reply : Z -> option (Z * Z))
    (d : Dev) (c : Z) : Dev :=
  match reply c with
  | None => d
  | Some (mn, mx) =>
      let dz := if is_hat_abs c then 0 else axis_dz pct (span_of mn mx) in
      with_calib (set_cell (abs_min d) c mn) (set_cell (abs_max d) c mx)
                 (set_cell (abs_dz d) c dz) d
  end.

Definition axis_codes : list Z := map Z.of_nat (seq 0 ABS_CNT).

Definition init_abs_info (pct : double) (reply : Z -> option (Z * Z))
    (d : Dev) : Dev :=
  let cleared := with_calib (replicate ABS_CNT 0) (replicate ABS_CNT 0)
                            (replicate ABS_CNT 0) d in
  fold_left (init_axis pct reply) axis_codes cleared.

Definition add_dev (p : string) (o : OpenReply) : M unit :=
  if open_fd o <? 0 then ret tt
  else
    emit (EpollAdd (open_fd o)) ;;;
    if negb (epoll_add_ok o) then emit (Close (open_fd o))
    else
      fun s =>
        let d := init_abs_info (AXIS_DZ_PCT s) (absinfo o)
                   (with_fd_path (open_fd o) p Dev_new) in
        modify_rt (fun r => set_devices (devices r ++ [d]) r) s.

Definition is_digit (a : ascii) : bool :=
  let n := Z.of_N (N_of_ascii a) in (48 <=? n) && (n <=? 57).

Fixpoint all_digits (s : string) : bool :=
  match s with
  | EmptyString => true
  | String a s' => is_digit a && all_digits s'
  end.

(** [is_event_name]: the word event followed by one digit or more. *)
Definition is_event_name (s : string) : bool :=
  match s with
  | String "e"%char (String "v"%char (String "e"%char
      (String "n"%char (String "t"%char rest)))) =>
      match rest with
      | EmptyString => false
      | _ => all_digits rest
      end
  | _ => false
  end.

Definition starts_with_dot (s : string) : bool :=
  match s with
  | String "."%char _ => true
  | _ => false
  end.

(** [scan_inputs], over the entries [readdir] yields, each with the
    kernel's answer should the entry be opened. *)
Fixpoint scan_inputs (entries : list (string * OpenReply)) : M unit :=
  match entries with
  | [] => ret tt
  | (name, o) :: rest =>
      (if starts_with_dot name then ret tt
       else if negb (is_event_name name) then ret tt
       else add_dev (INPUT_DIR +:+ "/" +:+ name) o) ;;;
      scan_inputs rest
  end.

(** ** Input handling *)

Record input_event := mkEvent {
  type : Z;
  code : Z;
  value : Z
}.

(** What one [read] on a device returns: whole events, EAGAIN, another
    error, or end of file. *)
Inductive ReadResult :=
| RData (evs : list input_event)
| RAgain
| RError
| REof.

Definition get_dev (i : nat) : M Dev := fun s => (devices (RT s) !!! i, s).
Definition set_dev (i : nat) (d : Dev) : M unit :=
  modify_rt (fun r => set_devices (<[ i := d ]> (devices r)) r).

(** The body of the inner [for] loop: one event, the device being
    [RT.devices[i]]; the result is the new value of [pulsed]. *)
Definition handle_event (i : nat) (e : input_event) (pulsed : bool) : M bool :=
  if pulsed then ret true
  else if type e =? EV_SYN then ret false
  else if (type e =? EV_KEY) || (type e =? EV_REL) then
    on_activity ;;; ret true
  else if type e =? EV_ABS then
    dv <- get_dev i ;;
    let c := code e in
    let v := value e in
    if negb (cell (abs_seen dv) c) then
      set_dev i (with_seen (set_cell (abs_seen dv) c true)
                   (with_last (set_cell (abs_last dv) c v) dv)) ;;;
      ret false
    else
      let delta := abs32 (sub32 v (cell (abs_last dv) c)) in
      if is_hat_abs c then
        if negb (delta =? 0) then
          set_dev i (with_last (set_cell (abs_last dv) c v) dv) ;;;
          on_activity ;;; ret true
        else ret false
      else
        let dz := cell (abs_dz dv) c in
        let dz := if dz <=? 0 then AXIS_DZ_MIN else dz in
        if dz <=? delta then
          set_dev i (with_last (set_cell (abs_last dv) c v) dv) ;;;
          on_activity ;;; ret true
        else ret false
  else ret false.

Fixpoint handle_events (i : nat) (evs : list input_event) (pulsed : bool)
    : M bool :=
  match evs with
  | [] => ret pulsed
  | e :: rest => p <- handle_event i e pulsed ;; handle_events i rest p
  end.

(** The outer [for (;;)] loop, over the results the successive [read]
    calls return; a queue that runs out reads as EAGAIN.  The result is
    what was not read. *)
Fixpoint handle_reads (f : Z) (i : nat) (reads : list ReadResult)
    (pulsed : bool) : M (list ReadResult) :=
  match reads with
  | [] => ret []
  | RAgain :: rest => ret rest
  | RError :: rest => del_dev_fd f ;;; ret rest
  | REof :: rest => del_dev_fd f ;;; ret rest
  | RData evs :: rest =>
      p <- handle_events i evs pulsed ;; handle_reads f i rest p
  end.

Definition handle_input (f : Z) (reads : list ReadResult)
    : M (list ReadResult) :=
  rt <- get_rt ;;
  match dev_index_by_fd f (devices rt) with
  | None => ret reads
  | Some i => handle_reads f i reads false
  end.

(** ** Config load *)

Definition LONG_MAX : Z := 9223372036854775807.
Definition LONG_MIN : Z := -9223372036854775808.

Definition char_code (a : ascii) : Z := Z.of_N (N_of_ascii a).

(** [isspace] in the C locale. *)
Definition is_space (a : ascii) : bool :=
  (char_code a =? 32) || ((9 <=? char_code a) && (char_code a <=? 13)).

Fixpoint skip_spaces (s : string) : string :=
  match s with
  | String a r => if is_space a then skip_spaces r else s
  | EmptyString => s
  end.

Fixpoint digits_value (acc : Z) (s : string) : Z :=
  match s with
  | String a r =>
      if is_digit a then digits_value (10 * acc + (char_code a - 48)) r else acc
  | EmptyString => acc
  end.

(** [strtol(s, nullptr, 10)] with a 64-bit [long]: white space, an
    optional sign, the longest run of digits (0 when there is none), the
    result saturated to the range of [long]. *)
Definition strtol (s : string) : Z :=
  let s1 := skip_spaces s in
  let v :=
    match s1 with
    | String "-"%char r => - digits_value 0 r
    | String "+"%char r => digits_value 0 r
    | _ => digits_value 0 s1
    end in
  if v <? LONG_MIN then LONG_MIN else if LONG_MAX <? v then LONG_MAX else v.

Definition parse_pos_int (s : string) : Z :=
  let v := strtol s in
  if (v <? 0) || (12 * 60 * 60 <? v) then -1 else wrap32 v.

(** A C string ends at its first NUL. *)
Fixpoint cstr (s : string) : string :=
  match s with
  | String a r => if char_code a =? 0 then EmptyString else String a (cstr r)
  | EmptyString => EmptyString
  end.

(** The successive results of [fgets(line, 256, f)] on the content of the
    file: a line ends after its newline or when [room] characters are in. *)
Fixpoint fgets_lines (room : nat) (cur : string) (s : string) : list string :=
  match s with
  | EmptyString =>
      match cur with
      | EmptyString => []
      | _ => [cur]
      end
  | String a r =>
      let cur' := cur +:+ String a EmptyString in
      if (char_code a =? 10) || Nat.leb room 1
      then cur' :: fgets_lines 255 EmptyString r
      else fgets_lines (Nat.pred room) cur' r
  end.

Definition is_blank (a : ascii) : bool :=
  (char_code a =? 32) || (char_code a =? 9).

Definition is_trailing (a : ascii) : bool :=
  (char_code a =? 32) || (char_code a =? 9) ||
  (char_code a =? 13) || (char_code a =? 10).

Fixpoint skip_blanks (s : string) : string :=
  match s with
  | String a r => if is_blank a then skip_blanks r else s
  | EmptyString => s
  end.

(** Cut the trailing blanks, carriage returns and newlines. *)
Fixpoint rtrim (s : string) : string :=
  match s with
  | EmptyString => EmptyString
  | String a r =>
      match rtrim r with
      | EmptyString => if is_trailing a then EmptyString else String a EmptyString
      | r' => String a r'
      end
  end.

(** [strchr(p, '=')] followed by the cut at it: what is before, what is
    after. *)
Fixpoint split_eq (s : string) : option (string * string) :=
  match s with
  | EmptyString => None
  | String a r =>
      if char_code a =? 61 then Some (EmptyString, r)
      else match split_eq r with
           | Some (k, v) => Some (String a k, v)
           | None => None
           end
  end.

(** What [read_config_or_defaults] leaves in its two reference parameters
    and in the globals [AXIS_DZ_PCT] and [HOOKS_MIRROR]. *)
Record Config := mkConfig {
  cfg_idle_s : Z;
  cfg_extended_s : Z;
  cfg_axis_dz_pct : double;
  cfg_hooks_mirror : string
}.

Definition cfg_defaults : Config :=
  {| cfg_idle_s := DEFAULT_IDLE_S; cfg_extended_s := DEFAULT_EXTENDED_S;
     cfg_axis_dz_pct := DEFAULT_AXIS_DZ_PCT; cfg_hooks_mirror := EmptyString |}.

(** The sanity clamp of the ABS_Deadzone value. *)
Definition clamp_pct (v : double) : double :=
  let v1 := if dltb d_1_0 v then ddiv v d_100_0 else v in
  let v2 := if dltb v1 d_0_0 then d_0_0 else v1 in
  if dltb d_0_90 v2 then d_0_90 else v2.

Section ConfigLoad.

(** [strtod] of the C library: [None] when no conversion is made (the
    end pointer is left on the start), else the value. *)
Variable strtod : string -> option double.

(** The chain of [strcmp] on a trimmed key and value. *)
Definition cfg_key_value (key val : string) (c : Config) : Config :=
  if String.eqb key "idle" then
    let n := parse_pos_int val in
    if 60 <=? n
    then {| cfg_idle_s := n; cfg_extended_s := cfg_extended_s c;
            cfg_axis_dz_pct := cfg_axis_dz_pct c;
            cfg_hooks_mirror := cfg_hooks_mirror c |}
    else c
  else if String.eqb key "extended" then
    let n := parse_pos_int val in
    if 60 <=? n
    then {| cfg_idle_s := cfg_idle_s c; cfg_extended_s := n;
            cfg_axis_dz_pct := cfg_axis_dz_pct c;
            cfg_hooks_mirror := cfg_hooks_mirror c |}
    else c
  else if String.eqb key "hooks_mirror" then
    match val with
    | EmptyString => c
    | _ => {| cfg_idle_s := cfg_idle_s c; cfg_extended_s := cfg_extended_s c;
              cfg_axis_dz_pct := cfg_axis_dz_pct c; cfg_hooks_mirror := val |}
    end
  else if String.eqb key "ABS_Deadzone" then
    match strtod val with
    | Some v => {| cfg_idle_s := cfg_idle_s c;
                   cfg_extended_s := cfg_extended_s c;
                   cfg_axis_dz_pct := clamp_pct v;
                   cfg_hooks_mirror := cfg_hooks_mirror c |}
    | None => c
    end
  else c.

(** The body of the [while (fgets ...)] loop on one line. *)
Definition cfg_line (c : Config) (line : string) : Config :=
  let p := skip_blanks (cstr line) in
  match p with
  | EmptyString => c
  | String a _ =>
      if (char_code a =? 10) || (char_code a =? 35) || (char_code a =? 91)
      then c
      else
        match split_eq p with
        | None => c
        | Some (k, v) => cfg_key_value (rtrim k) (rtrim (skip_blanks v)) c
        end
  end.

(** The final lines: enforce minimums. *)
Definition enforce_minimums (c : Config) : Config :=
  {| cfg_idle_s := if cfg_idle_s c <? 60 then 60 else cfg_idle_s c;
     cfg_extended_s := if cfg_extended_s c <? 60 then 60 else cfg_extended_s c;
     cfg_axis_dz_pct := cfg_axis_dz_pct c;
     cfg_hooks_mirror := cfg_hooks_mirror c |}.

(** [file] is the content of CONFIG_FILE, [None] when [fopen] fails. *)
Definition read_config_or_defaults (file : option string) : Config :=
  match file with
  | None => cfg_defaults
  | Some content =>
      enforce_minimums
        (fold_left cfg_line (fgets_lines 255 EmptyString content) cfg_defaults)
  end.

End ConfigLoad.

(** ** The main function *)

Definition load_config (c : Config) : M unit :=
  fun s =>
    (tt, {| RT := set_timeouts (cfg_idle_s c) (cfg_extended_s c) (RT s);
            AXIS_DZ_PCT := cfg_axis_dz_pct c;
            HOOKS_MIRROR := cfg_hooks_mirror c;
            env := env s |}).

(** The world a process starts in, and the globals as initialised. *)
Definition World_init (clk : nat -> Z) : World :=
  {| clock := clk; ticks := O; out := []; pulses := [] |}.

Definition Sys_init (clk : nat -> Z) : Sys :=
  {| RT := RT_init; AXIS_DZ_PCT := DEFAULT_AXIS_DZ_PCT;
     HOOKS_MIRROR := EmptyString; env := World_init clk |}.

(** What the start of [main] is given by its environment: the C library's
    [strtod], the content of the config file, the three descriptors that
    [epoll_create1], [timerfd_create] and [inotify_init1] return, and the
    entries of the input directory.  The directory bootstrap is left out,
    and the setup calls are taken to succeed (the process exits
    otherwise). *)
Record Boot := mkBoot {
  boot_strtod : string -> option double;
  boot_config : option string;
  boot_epfd : Z;
  boot_tfd : Z;
  boot_ifd : Z;
  boot_entries : list (string * OpenReply)
}.

Definition main_setup (b : Boot) : M unit :=
  load_config (read_config_or_defaults (boot_strtod b) (boot_config b)) ;;;
  now <- now_ms ;;
  modify_rt (set_last_activity_ms now) ;;;
  write_state ACTIVE ;;;
  modify_rt (set_fds (boot_epfd b) (boot_tfd b) (boot_ifd b)) ;;;
  emit (EpollAdd (boot_tfd b)) ;;;
  emit (EpollAdd (boot_ifd b)) ;;;
  scan_inputs (boot_entries b) ;;;
  schedule_timer.

Definition IN_CREATE : Z := 256.
Definition IN_DELETE : Z := 512.

Record inotify_event := mkInotify {
  mask : Z;
  len : Z;
  name : string
}.

(** What one turn of the loop over the epoll events finds ready: the timer,
    the directory watch (with the records read from it, each with the
    kernel's answer should it lead to an [add_dev]), or another descriptor
    (with what the reads on it return). *)
Inductive Ready :=
| TimerReady
| WatchReady (recs : list (inotify_event * OpenReply))
| DeviceReady (f : Z) (reads : list ReadResult).

Definition watch_record (r : inotify_event * OpenReply) : M unit :=
  let (e, o) := r in
  if negb (len e =? 0) && is_event_name (name e) then
    let full := INPUT_DIR +:+ "/" +:+ name e in
    (if negb (Z.land (mask e) IN_CREATE =? 0) then add_dev full o else ret tt) ;;;
    (if negb (Z.land (mask e) IN_DELETE =? 0) then del_dev full else ret tt)
  else ret tt.

Fixpoint watch_records (recs : list (inotify_event * OpenReply)) : M unit :=
  match recs with
  | [] => ret tt
  | r :: rest => watch_record r ;;; watch_records rest
  end.

Definition dispatch (r : Ready) : M unit :=
  match r with
  | TimerReady => reevaluate
  | WatchReady recs => watch_records recs
  | DeviceReady f reads => handle_input f reads ;;; ret tt
  end.

Fixpoint event_loop (rs : list Ready) : M unit :=
  match rs with
  | [] => ret tt
  | r :: rest => dispatch r ;;; event_loop rest
  end.

(** The clock is CLOCK_MONOTONIC_COARSE: its readings never decrease, and
    they count the milliseconds since boot, far below the range of
    [int64_t]. *)
Definition clock_ok (clk : nat -> Z) : Prop :=
  (forall n, 0 <= clk n < 2 ^ 62) /\ (forall n m, (n <= m)%nat -> clk n <= clk m).

(** The states the monitor can be in between two turns of its loop. *)
Definition reachable (s : Sys) : Prop :=
  exists clk b rs,
    clock_ok clk /\ s = exec (main_setup b ;;; event_loop rs) (Sys_init clk).

(** ** Vocabulary of the statements *)

(** The invariant of the machine.  The clock is as [clock_ok] says; both
    timeouts are within their bounds; the pulse mark is not after the
    activity mark, which is not after the next clock reading; and the state
    is IDLE (EXTENDED) only when the idle timeout (the sum of both timeouts)
    has passed since the activity mark. *)
Definition Inv (s : Sys) : Prop :=
  clock_ok (clock (env s)) /\
  (60 <= idle_s (RT s) <= 43200) /\
  (60 <= extended_s (RT s) <= 43200) /\
  (0 <= last_pulse_ms (RT s) <= last_activity_ms (RT s)) /\
  last_activity_ms (RT s) <= clock (env s) (ticks (env s)) /\
  (state (RT s) = IDLE ->
     idle_s (RT s) * 1000 <= clock (env s) (ticks (env s)) - last_activity_ms (RT s)) /\
  (state (RT s) = EXTENDED ->
     (idle_s (RT s) + extended_s (RT s)) * 1000
       <= clock (env s) (ticks (env s)) - last_activity_ms (RT s)).

(** [s'] has the clock marks, the timeouts and the clock of [s]. *)
Definition same_marks (s s' : Sys) : Prop :=
  last_activity_ms (RT s') = last_activity_ms (RT s) /\
  last_pulse_ms (RT s') = last_pulse_ms (RT s) /\
  idle_s (RT s') = idle_s (RT s) /\
  extended_s (RT s') = extended_s (RT s) /\
  clock (env s') = clock (env s).

(** [s] after one clock reading and one rejected pulse. *)
Definition tick_reject (s : Sys) : Sys :=
  {| RT := RT s; AXIS_DZ_PCT := AXIS_DZ_PCT s; HOOKS_MIRROR := HOOKS_MIRROR s;
     env := {| clock := clock (env s); ticks := S (ticks (env s));
               out := out (env s);
               pulses := pulses (env s) ++ [(clock (env s) (ticks (env s)), false)] |} |}.

(** [s'] differs from [s] in the registry and in the calls issued, at
    most. *)
Definition dev_only (s s' : Sys) : Prop :=
  state (RT s') = state (RT s) /\ same_marks s s' /\
  ticks (env s') = ticks (env s) /\ pulses (env s') = pulses (env s) /\
  AXIS_DZ_PCT s' = AXIS_DZ_PCT s /\ HOOKS_MIRROR s' = HOOKS_MIRROR s.

(** What one read batch does: changes to the registry, around at most one
    call of [on_activity]. *)
Definition batch_shape (s s' : Sys) : Prop :=
  dev_only s s' \/ exists s1, dev_only s s1 /\ dev_only (exec on_activity s1) s'.

(** Both timeouts are within 60 s and 12 h. *)
Definition timeouts_in_range (c : Config) : Prop :=
  (60 <= cfg_idle_s c <= 43200) /\ (60 <= cfg_extended_s c <= 43200).

(** The five arrays of a device have their [ABS_MAX+1] cells. *)
Definition wf_dev (d : Dev) : Prop :=
  length (abs_last d) = ABS_CNT /\ length (abs_seen d) = ABS_CNT /\
  length (abs_min d) = ABS_CNT /\ length (abs_max d) = ABS_CNT /\
  length (abs_dz d) = ABS_CNT.

Definition devs_wf (s : Sys) : Prop := Forall wf_dev (devices (RT s)).

(** The distance of the value of [e] from the value recorded for its axis. *)
Definition axis_delta (dv : Dev) (e : input_event) : Z :=
  Z.abs (value e - cell (abs_last dv) (code e)).

(** The width the classifier compares with: the calibrated one, or the
    floor when the axis has none. *)
Definition effective_dz (dv : Dev) (c : Z) : Z :=
  if cell (abs_dz dv) c <=? 0 then AXIS_DZ_MIN else cell (abs_dz dv) c.

(** An event on an axis seen before counts as activity. *)
Definition abs_qualifies (dv : Dev) (e : input_event) : bool :=
  if is_hat_abs (code e) then negb (axis_delta dv e =? 0)
  else effective_dz dv (code e) <=? axis_delta dv e.

(** The event makes the classifier record its value. *)
Definition abs_records (pulsed : bool) (dv : Dev) (e : input_event) : bool :=
  negb pulsed && (negb (cell (abs_seen dv) (code e)) || abs_qualifies dv e).

(** The device after the first observation of the axis of [e], and after a
    later observation that counts. *)
Definition dev_first_seen (dv : Dev) (e : input_event) : Dev :=
  with_seen (set_cell (abs_seen dv) (code e) true)
    (with_last (set_cell (abs_last dv) (code e) (value e)) dv).
Definition dev_recorded (dv : Dev) (e : input_event) : Dev :=
  with_last (set_cell (abs_last dv) (code e) (value e)) dv.

(** The dead-zone that one turn of the loop stores for its axis. *)
Definition stored_dz (pct : double) (reply : Z -> option (Z * Z)) (c old : Z) : Z :=
  match reply c with
  | None => old
  | Some (mn, mx) => if is_hat_abs c then 0 else axis_dz pct (span_of mn mx)
  end.

(** ** Sample runs *)

(** A clock that gains a thousand seconds from one reading to the next, up
    to a ceiling. *)
Definition demo_clock (n : nat) : Z := Z.min (1000000 * Z.of_nat n) 1000000000000.

(** A stick with two axes of 16 bits and one hat; [open] returns 6. *)
Definition demo_reply : OpenReply :=
  {| open_fd := 6; epoll_add_ok := true;
     absinfo := fun c => if c <? 2 then Some (-32768, 32767)
                         else if c =? 16 then Some (-1, 1) else None |}.

(** A device whose EVIOCGABS calls all fail; [open] returns 7. *)
Definition demo_bare : OpenReply :=
  {| open_fd := 7; epoll_add_ok := true; absinfo := fun _ => None |}.

(** No config file, two device nodes. *)
Definition demo_boot : Boot :=
  {| boot_strtod := fun _ => None; boot_config := None;
     boot_epfd := 3; boot_tfd := 4; boot_ifd := 5;
     boot_entries := [("event0"%string, demo_reply); ("event1"%string, demo_bare)] |}.

Definition demo_key : input_event := {| type := EV_KEY; code := 30; value := 1 |}.
Definition demo_abs (c v : Z) : input_event := {| type := EV_ABS; code := c; value := v |}.

(** After the setup, and after the first expiry of the timer. *)
Definition demo_started : Sys := exec (main_setup demo_boot) (Sys_init demo_clock).
Definition demo_idle : Sys :=
  exec (main_setup demo_boot ;;; event_loop [TimerReady]) (Sys_init demo_clock).

(** The same machine under a clock that starts at 5 s and gains one
    millisecond from one reading to the next. *)
Definition slow_clock (n : nat) : Z := Z.min (5000 + Z.of_nat n) 1000000000000.
Definition demo_slow : Sys := exec (main_setup demo_boot) (Sys_init slow_clock).

(** The sample machine once axis 0 of each device has been seen at 0. *)
Definition demo_seen : Sys :=
  exec (handle_input 6 [RData [demo_abs 0 0]] ;;; handle_input 7 [RData [demo_abs 0 0]])
       demo_started.
Definition demo_dev : Dev := devices (RT demo_seen) !!! 0%nat.

(** Two more batches on the stick: axis 0 at 6000, then at 12000. *)
Definition demo_second : Sys := exec (handle_input 6 [RData [demo_abs 0 6000]]) demo_seen.
Definition demo_third : Sys := exec (handle_input 6 [RData [demo_abs 0 12000]]) demo_second.

(** An axis that reports the whole range of [int], calibrated at 90%. *)
Definition full_range_reply (c : Z) : option (Z * Z) :=
  if c =? 0 then Some (-2147483648, 2147483647) else None.

(** The dead-zone of a calibrated axis that is not a hat, as the
    calibration is described: the rounded share of the span, or the floor
    when that is more; the fallback for a span that is not positive. *)
Definition described_dz (pct : double) (span : Z) : Z :=
  if 0 <? span then Z.max (lround (dmul (double_of_Z span) pct)) AXIS_DZ_MIN
  else AXIS_DZ_BADSPAN.

(** The timeout as it is described: the configured value clamped to the
    range of 60 s to 12 h. *)
Definition described_timeout (v : Z) : Z := Z.max 60 (Z.min v 43200).

(** A second [open] of the stick: descriptor 8, registered, and the same
    with the registration refused. *)
Definition demo_again : OpenReply :=
  {| open_fd := 8; epoll_add_ok := true; absinfo := absinfo demo_reply |}.
Definition demo_refused : OpenReply :=
  {| open_fd := 8; epoll_add_ok := false; absinfo := absinfo demo_reply |}.

Definition newline : string := String "010"%char EmptyString.

(** A C library that converts nothing, for configs without ABS_Deadzone. *)
Definition no_strtod (s : string) : option double := None.

(** A state no run reaches: IDLE, with the activity mark at the reading the
    clock is about to give. *)
Definition demo_stale : Sys :=
  exec (modify_rt (set_last_activity_ms (clock (env demo_idle) (ticks (env demo_idle)))))
       demo_idle.

(** ** Reading the list of issued calls *)

Definition written_state (e : Effect) : option Z :=
  match e with
  | WriteState v => Some v
  | _ => None
  end.

Definition armed_timer (e : Effect) : option (Z * Z) :=
  match e with
  | ArmTimer sec nsec => Some (sec, nsec)
  | _ => None
  end.

(** What the state file holds, and how the timer is set, after the calls
    [o]: the last write, the last setting. *)
Definition state_file (o : list Effect) : option Z := last (omap written_state o).
Definition timer_setting (o : list Effect) : option (Z * Z) := last (omap armed_timer o).

(** The calls of the registry: epoll registrations and [close]. *)
Definition registry_call (e : Effect) : bool :=
  match e with
  | EpollAdd _ | EpollDel _ | Close _ => true
  | _ => false
  end.

(** The digit of a state in the state file and its name for the hooks. *)
Definition state_digit (st : State) : Z := if State_eqb st ACTIVE then 1 else 0.
Definition state_name (st : State) : string :=
  match st with
  | ACTIVE => "active"
  | IDLE => "idle"
  | EXTENDED => "extended"
  end.

(** The calls [enter] issues when it changes the state. *)
Definition enter_calls (mirror : string) (to : State) : list Effect :=
  WriteState (state_digit to)
  :: RunFolder (HOOKS_ROOT +:+ "/" +:+ state_name to +:+ ".d") (state_name to)
  :: (if String.eqb mirror EmptyString then []
      else [RunFolder (mirror +:+ "/" +:+ state_name to +:+ ".d") (state_name to)]).

(** The state after an expiry of the timer, [elapsed] milliseconds after
    the last activity. *)
Definition after_timer (st : State) (idle_ms ext_ms elapsed : Z) : State :=
  match st with
  | ACTIVE => if idle_ms <=? elapsed then IDLE else ACTIVE
  | IDLE => if idle_ms + ext_ms <=? elapsed then EXTENDED else IDLE
  | EXTENDED => EXTENDED
  end.

(** The milliseconds of a timer setting, and the milliseconds the machine
    has to wait in a state. *)
Definition timer_ms (t : Z * Z) : Z := fst t * 1000 + snd t / 1000000.
Definition due_ms (st : State) (idle_ms ext_ms elapsed : Z) : Z :=
  match st with
  | ACTIVE => Z.max 1 (idle_ms - elapsed)
  | IDLE => Z.max 1 (idle_ms + ext_ms - elapsed)
  | EXTENDED => 0
  end.

(** The milliseconds since the last activity, at the next clock reading. *)
Definition elapsed_ms (s : Sys) : Z :=
  clock (env s) (ticks (env s)) - last_activity_ms (RT s).

(** What the outside sees agrees with the machine: the state file holds
    the digit of the state, and the timer is set, to zero exactly in state
    EXTENDED. *)
Definition published (s : Sys) : Prop :=
  state_file (out (env s)) = Some (state_digit (state (RT s))) /\
  exists t, timer_setting (out (env s)) = Some t /\
            (t = (0, 0) <-> state (RT s) = EXTENDED).

(** The part of the invariant that keeps the arithmetic of the timers in
    range. *)
Definition in_bounds (s : Sys) : Prop :=
  clock_ok (clock (env s)) /\
  (60 <= idle_s (RT s) <= 43200) /\
  (60 <= extended_s (RT s) <= 43200) /\
  (0 <= last_activity_ms (RT s) <= clock (env s) (ticks (env s))).

(** [s'] differs from [s] in the registry at most, and the calls issued in
    between are calls of the registry. *)
Definition registry_step (s s' : Sys) : Prop :=
  dev_only s s' /\
  exists k, out (env s') = out (env s) ++ k /\ forallb registry_call k = true.

(** ** Vocabulary of the registry and of the traces *)

(** The path of an event node of the input directory. *)
Definition event_node (p : string) : Prop :=
  exists nm, is_event_name nm = true /\ p = INPUT_DIR +:+ "/" +:+ nm.

(** A device as discovery leaves it: an open descriptor, the path of an
    event node, no dead-zone on a hat, and on every axis a dead-zone of
    zero (nothing reported, or a hat) or of the floor at least. *)
Definition sound_dev (d : Dev) : Prop :=
  0 <= fd d /\ event_node (path d) /\
  forall c, 0 <= c <= ABS_MAX ->
    (is_hat_abs c = true -> cell (abs_dz d) c = 0) /\
    (cell (abs_dz d) c = 0 \/ AXIS_DZ_MIN <= cell (abs_dz d) c).

Definition devs_sound (s : Sys) : Prop := Forall sound_dev (devices (RT s)).

(** The entries of the registry that have the path [p], and the others. *)
Definition with_path (p : string) (ds : list Dev) : list Dev :=
  List.filter (fun d => String.eqb (path d) p) ds.
Definition without_path (p : string) (ds : list Dev) : list Dev :=
  List.filter (fun d => negb (String.eqb (path d) p)) ds.

(** The calls that tell the outside of a change of state: the write of the
    state file and the runs of the hook folders. *)
Definition state_call (e : Effect) : bool :=
  match e with
  | WriteState _ | RunFolder _ _ => true
  | _ => false
  end.

(** One read batch, with the calls it issues: steps of the registry around
    at most one call of [on_activity]. *)
Definition batch_trace (s s' : Sys) : Prop :=
  registry_step s s' \/
  exists s1, registry_step s s1 /\ registry_step (exec on_activity s1) s'.

(** The history of the pulses is as the debounce leaves it: no accepted
    pulse is after the pulse mark or within [DEBOUNCE_MS] of the start of
    the clock, and two accepted pulses are [DEBOUNCE_MS] apart at least. *)
Definition pulses_spaced (s : Sys) : Prop :=
  (forall i t, pulses (env s) !! i = Some (t, true) ->
     DEBOUNCE_MS <= t <= last_pulse_ms (RT s)) /\
  (forall i j ti tj, (i < j)%nat ->
     pulses (env s) !! i = Some (ti, true) -> pulses (env s) !! j = Some (tj, true) ->
     DEBOUNCE_MS <= tj - ti).

(** The dead-zone fraction is not below 0 and not above 0.90. *)
Definition pct_in_range (p : double) : Prop :=
  dltb p d_0_0 = false /\ dltb d_0_90 p = false.

(** ** Running a hook folder *)

Definition S_IFMT : Z := 61440.
Definition S_IFREG : Z := 32768.
Definition S_IXUSR : Z := 64.
Definition S_ISREG (m : Z) : bool := Z.land m S_IFMT =? S_IFREG.

(** What the file system answers to one [run_folder]: the names [readdir]
    yields, [None] when [opendir] fails, and what [stat] reports for a
    path, [None] when it fails, else [st_mode]. *)
Record Folder := mkFolder {
  dir_names : option (list string);
  stat_mode : string -> option Z
}.

(** [operator<=] of [std::string]: the bytes compared as unsigned, a proper
    prefix before what it is a prefix of. *)
Definition string_le (a b : string) : Prop := String.leb a b = true.

#[global] Instance string_le_dec (a b : string) : Decision (string_le a b) :=
  bool_eq_dec (String.leb a b) true.

(** The tests of the loop on one item: [stat] succeeds, the file is
    regular, its owner may execute it. *)
Definition runs (fs : Folder) (dir fn : string) : bool :=
  match stat_mode fs (dir +:+ "/" +:+ fn) with
  | None => false
  | Some m => S_ISREG m && negb (Z.land m S_IXUSR =? 0)
  end.

(** [run_folder]: the calls of [execl] in the children, in order, each the
    path and the argument; the forks are taken to succeed. *)
Definition run_folder (dir arg : string) (fs : Folder) : list (string * string) :=
  match dir_names fs with
  | None => []
  | Some names =>
      let items := List.filter (fun fn => negb (starts_with_dot fn)) names in
      let items := merge_sort string_le items in
      map (fun fn => (dir +:+ "/" +:+ fn, arg)) (List.filter (runs fs dir) items)
  end.

(** ** Vocabulary of the config lines *)

(** Every character of the string satisfies [p]. *)
Fixpoint string_forall (p : ascii -> bool) (s : string) : bool :=
  match s with
  | EmptyString => true
  | String a r => p a && string_forall p r
  end.

(** A character of a key: not NUL, not the equal sign, and none of the
    characters the trims cut. *)
Definition key_char (a : ascii) : bool :=
  negb (char_code a =? 0) && negb (char_code a =? 61) && negb (is_trailing a).

(** A key: characters of a key, the first of which opens neither a comment
    nor a section header. *)
Definition key_like (k : string) : bool :=
  string_forall key_char k &&
  match k with
  | String a _ => negb ((char_code a =? 35) || (char_code a =? 91))
  | EmptyString => false
  end.

Definition not_newline (a : ascii) : bool := negb (char_code a =? 10).

(** ** The layout of the hooks *)

(** [ensure_hooks_root_layout]: the directories it makes sure of, in order,
    each through [ensure_dir], which ends the process when [mkdir] fails
    for another reason than the directory being there. *)
Definition ensure_hooks_root_layout (root : string) : list string :=
  [root; root +:+ "/idle.d"; root +:+ "/extended.d"; root +:+ "/active.d"].

(** The directories the start of [main] makes sure of: the layout of the
    hooks root and, when the config names a mirror, that of the mirror. *)
Definition main_layout (mirror : string) : list string :=
  ensure_hooks_root_layout HOOKS_ROOT
  ++ (if String.eqb mirror EmptyString then [] else ensure_hooks_root_layout mirror).

(** A call that tells the outside of a state is well formed: the state
    file takes a digit; a hook folder is the folder of a state, under the
    hooks root or under the mirror [m] when there is one, it is run with
    the name of the state, and the start of [main] made sure of it. *)
Definition state_call_ok (m : string) (e : Effect) : Prop :=
  match e with
  | WriteState v => v = 0 \/ v = 1
  | RunFolder dir arg =>
      exists st root,
        arg = state_name st /\ dir = root +:+ "/" +:+ state_name st +:+ ".d" /\
        (root = HOOKS_ROOT \/ (root = m /\ m <> EmptyString)) /\
        In dir (main_layout m)
  | _ => True
  end.

Definition calls_ok (s : Sys) : Prop :=
  Forall (state_call_ok (HOOKS_MIRROR s)) (out (env s)).

(** ** The clock *)

(** The arithmetic of [now_ms] on the [timespec] that [clock_gettime]
    fills: the seconds as [int64_t] times 1000, plus the nanoseconds
    divided by a million. *)
Definition timespec_ms (ts : Z * Z) : Z :=
  add64 (mul64 (fst ts) 1000) (Z.quot (snd ts) 1000000).

(** A [timespec] as the kernel fills it, and the order of two readings of
    a monotonic clock. *)
Definition timespec_ok (ts : Z * Z) : Prop :=
  0 <= fst ts < 2 ^ 52 /\ 0 <= snd ts < 1000000000.
Definition timespec_le (a b : Z * Z) : Prop :=
  fst a < fst b \/ (fst a = fst b /\ snd a <= snd b).

(** ** The descriptors the process holds *)

(** The calls that take or give back a descriptor.  A registration with
    epoll is the first call made on a descriptor that [open],
    [timerfd_create] or [inotify_init1] has just returned, so it marks the
    descriptor as taken; [close] gives it back. *)
Definition fd_call (e : Effect) : bool :=
  match e with
  | EpollAdd _ | Close _ => true
  | _ => false
  end.

(** The descriptors the process holds after the calls [o], from those it
    held before. *)
Fixpoint held_after (held : list Z) (o : list Effect) : list Z :=
  match o with
  | [] => held
  | EpollAdd f :: r => held_after (f :: held) r
  | Close f :: r => held_after (List.filter (fun g => negb (g =? f)) held) r
  | _ :: r => held_after held r
  end.

(** The calls can be those of a run under a kernel: no descriptor is
    handed out while the process holds it. *)
Fixpoint kernel_trace_from (held : list Z) (o : list Effect) : bool :=
  match o with
  | [] => true
  | EpollAdd f :: r => negb (existsb (Z.eqb f) held) && kernel_trace_from (f :: held) r
  | Close f :: r => kernel_trace_from (List.filter (fun g => negb (g =? f)) held) r
  | _ :: r => kernel_trace_from held r
  end.

Definition kernel_trace (o : list Effect) : Prop := kernel_trace_from [] o = true.

(** No descriptor is in the registry twice, and the process holds every
    descriptor of the registry. *)
Definition tracked_held (s : Sys) : Prop :=
  NoDup (map fd (devices (RT s))) /\
  forall f, In f (map fd (devices (RT s))) -> In f (held_after [] (out (env s))).

(** So it is in the runs a kernel can produce. *)
Definition kernel_inv (s : Sys) : Prop :=
  kernel_trace (out (env s)) -> tracked_held s.

(** ** More sample runs *)

(** The sample machine once the hat of the stick has been seen at 0. *)
Definition demo_hat : Sys := exec (handle_input 6 [RData [demo_abs 16 0]]) demo_started.

(** An event of a type the classifier does not look at (EV_MSC). *)
Definition demo_msc : input_event := {| type := 4; code := 4; value := 458756 |}.

(** A hook folder: a script, a hidden file, a text file that is not
    executable, a directory, and a second script. *)
Definition demo_folder : Folder :=
  {| dir_names := Some ["20-dim"; ".keep"; "notes.txt"; "old"; "10-mute"]%string;
     stat_mode := fun p =>
       if String.eqb p "/hooks/idle.d/20-dim" then Some 33261
       else if String.eqb p "/hooks/idle.d/10-mute" then Some 33261
       else if String.eqb p "/hooks/idle.d/notes.txt" then Some 33188
       else if String.eqb p "/hooks/idle.d/old" then Some 16877
       else if String.eqb p "/hooks/idle.d/.keep" then Some 33261
       else None |}.

(** The sample machine under a clock that gains ten thousand seconds from
    one reading to the next. *)
Definition fast_clock (n : nat) : Z := Z.min (10000000 * Z.of_nat n) 1000000000000.
Definition demo_late : Sys := exec (main_setup demo_boot) (Sys_init fast_clock).

(** The readings of a clock that starts at 5 s and gains a quarter of a
    second from one reading to the next, up to a ceiling. *)
Definition demo_timespec (n : nat) : Z * Z :=
  (5 + Z.min (Z.of_nat n) 1000000 / 4, (Z.min (Z.of_nat n) 1000000 mod 4) * 250000000).

(** The sample machine after two turns on the stick, a key event in each:
    the clock reads 2000 s at the first and 4000 s at the second. *)
Definition demo_two_keys : Sys :=
  exec (main_setup demo_boot
        ;;; event_loop [DeviceReady 6 [RData [demo_key]]; DeviceReady 6 [RData [demo_key]]])
       (Sys_init demo_clock).

(** * Properties of the embedding *)

(** ** Machine integers *)

Lemma wrap64_small x : in_int64 x -> wrap64 x = x.
Proof. unfold in_int64, wrap64. intros H. rewrite Z.mod_small; lia. Qed.

Lemma wrap32_small x : in_int32 x -> wrap32 x = x.
Proof. unfold in_int32, wrap32. intros H. rewrite Z.mod_small; lia. Qed.

Lemma delta32 v l :
  Z.abs (v - l) <= 2147483647 -> abs32 (sub32 v l) = Z.abs (v - l).
Proof.
  intros H. unfold abs32, sub32.
  rewrite (wrap32_small (v - l)) by (unfold in_int32; lia).
  apply wrap32_small. unfold in_int32. lia.
Qed.

Lemma State_eqb_refl a : State_eqb a a = true.
Proof. now destruct a. Qed.

(** ** Running the monad *)

(** [exec] and [eval] through a bind. *)
Lemma exec_bind {A B} (m : M A) (k : A -> M B) s :
  exec (bind m k) s = exec (k (eval m s)) (exec m s).
Proof. unfold exec, eval, bind. now destruct (m s). Qed.

Lemma eval_bind {A B} (m : M A) (k : A -> M B) s :
  eval (bind m k) s = eval (k (eval m s)) (exec m s).
Proof. unfold exec, eval, bind. now destruct (m s). Qed.

Lemma eval_get_rt s : eval get_rt s = RT s.
Proof. reflexivity. Qed.

Lemma exec_get_rt s : exec get_rt s = s.
Proof. reflexivity. Qed.

Lemma exec_bind_get_rt {B} (k : Runtime -> M B) s :
  exec (bind get_rt k) s = exec (k (RT s)) s.
Proof. reflexivity. Qed.

Lemma exec_ret {A} (a : A) s : exec (ret a) s = s.
Proof. reflexivity. Qed.

Lemma exec_seq_ret {A B} (m : M A) (b : B) s : exec (m ;;; ret b) s = exec m s.
Proof. rewrite exec_bind. reflexivity. Qed.

Lemma eval_seq_ret {A B} (m : M A) (b : B) s : eval (m ;;; ret b) s = b.
Proof. rewrite eval_bind. reflexivity. Qed.

Lemma run_seq_ret {A C} (m : M A) (c : C) s : (m ;;; ret c) s = (c, exec m s).
Proof. unfold bind, exec, ret. now destruct (m s). Qed.

Lemma run_seq_seq_ret {A B C} (m : M A) (k : M B) (c : C) s :
  (m ;;; k ;;; ret c) s = (c, exec k (exec m s)).
Proof.
  unfold bind, exec, ret. destruct (m s) as [a s1]. simpl. now destruct (k s1).
Qed.

(** ** The state machine *)

(** The part of the state the machine decides on. *)

(** [enter] writes the state and nothing else of the machine. *)
Lemma enter_spec to s :
  state (RT (exec (enter to) s)) = to /\ same_marks s (exec (enter to) s) /\
  ticks (env (exec (enter to) s)) = ticks (env s) /\
  devices (RT (exec (enter to) s)) = devices (RT s) /\
  pulses (env (exec (enter to) s)) = pulses (env s).
Proof.
  unfold exec, enter, bind, get_rt.
  destruct (State_eqb to (state (RT s))) eqn:E.
  - simpl. destruct to, (state (RT s)); try discriminate; repeat split; reflexivity.
  - unfold same_marks, write_state, run_hook_roots, emit, modify_env, modify_rt, bind, ret.
    destruct to; simpl; destruct (String.eqb _ _); simpl; repeat split; reflexivity.
Qed.

Lemma effective_idle_ms_spec s :
  eval effective_idle_ms s =
    (let d := sub64 (clock (env s) (ticks (env s))) (last_activity_ms (RT s)) in
     if 0 <? d then d else 0) /\
  state (RT (exec effective_idle_ms s)) = state (RT s) /\
  same_marks s (exec effective_idle_ms s) /\
  ticks (env (exec effective_idle_ms s)) = S (ticks (env s)).
Proof. unfold same_marks; repeat split; reflexivity. Qed.

Lemma arm_timer_ms_emit ms s : exists e, exec (arm_timer_ms ms) s = exec (emit e) s.
Proof. unfold arm_timer_ms. destruct (0 <? ms); eexists; reflexivity. Qed.

(** [schedule_timer] reads the clock at most once and arms the timer. *)
Lemma schedule_timer_spec s :
  let s' := exec schedule_timer s in
  state (RT s') = state (RT s) /\ same_marks s s' /\
  (ticks (env s) <= ticks (env s') <= S (ticks (env s)))%nat /\
  devices (RT s') = devices (RT s) /\
  pulses (env s') = pulses (env s).
Proof.
  cbv zeta. unfold schedule_timer. rewrite exec_bind_get_rt.
  destruct (state (RT s)) eqn:E.
  1,2: rewrite exec_bind;
       match goal with |- context [exec (arm_timer_ms ?ms) ?s1] =>
         destruct (arm_timer_ms_emit ms s1) as [e ->] end;
       unfold same_marks; cbn [exec emit modify_env effective_idle_ms bind now_ms get_rt ret
                               fst snd RT env clock ticks out pulses];
       rewrite ?E; repeat split; try reflexivity; lia.
  destruct (arm_timer_ms_emit 0 s) as [e ->].
  unfold same_marks; cbn [exec emit modify_env fst snd RT env clock ticks out pulses];
    rewrite ?E; repeat split; try reflexivity; lia.
Qed.

(** The invariant survives the passing of time. *)
Lemma Inv_later s s' :
  Inv s -> state (RT s') = state (RT s) -> same_marks s s' ->
  (ticks (env s) <= ticks (env s'))%nat -> Inv s'.
Proof.
  intros (Hc & Hi & He & Hp & Ha & HI & HE) Hs (E1 & E2 & E3 & E4 & E5) Ht.
  unfold Inv. rewrite Hs, E1, E2, E3, E4, E5.
  pose proof (proj2 Hc _ _ Ht).
  split; [assumption|]. do 4 (split; [lia|]).
  split; intros X; [specialize (HI X) | specialize (HE X)]; lia.
Qed.

(** Under the invariant [reevaluate] only moves forward: ACTIVE to IDLE,
    IDLE to EXTENDED. *)
Lemma reevaluate_spec s :
  Inv s ->
  let s' := exec reevaluate s in
  Inv s' /\ (state (RT s) <> ACTIVE -> state (RT s') <> ACTIVE) /\
  pulses (env s') = pulses (env s) /\ devices (RT s') = devices (RT s) /\
  clock (env s') = clock (env s).
Proof.
  intros HInv. pose proof HInv as (Hc & Hi & He & Hp & Ha & HI & HE).
  unfold reevaluate. cbv zeta.
  rewrite exec_bind.
  destruct (effective_idle_ms_spec s) as (Ev & S1 & M1 & T1).
  set (s1 := exec effective_idle_ms s) in *.
  rewrite exec_bind, eval_get_rt, exec_get_rt.
  rewrite exec_bind.
  match goal with |- context [exec schedule_timer ?x] => set (s2 := x) end.
  destruct (schedule_timer_spec s2) as (S3 & M3 & T3 & D3 & P3).
  set (s3 := exec schedule_timer s2) in *.
  destruct Hc as [Hr Hm].
  pose proof (Hr (ticks (env s))) as R0.
  assert (Eeff : eval effective_idle_ms s = clock (env s) (ticks (env s)) - last_activity_ms (RT s)).
  { rewrite Ev. cbv zeta. unfold sub64. rewrite wrap64_small by (unfold in_int64; lia).
    destruct (Z.ltb_spec 0 (clock (env s) (ticks (env s)) - last_activity_ms (RT s))); lia. }
  destruct M1 as (A1 & A2 & A3 & A4 & A5).
  assert (Hmul : mul64 (idle_s (RT s1)) 1000 = idle_s (RT s) * 1000).
  { unfold mul64. rewrite A3. apply wrap64_small. unfold in_int64; lia. }
  assert (Hadd : add64 (mul64 (idle_s (RT s1)) 1000) (mul64 (extended_s (RT s1)) 1000) = (idle_s (RT s) + extended_s (RT s)) * 1000).
  { rewrite Hmul. unfold add64, mul64. rewrite A4. rewrite (wrap64_small (_ * 1000)) by (unfold in_int64; lia).
    rewrite wrap64_small by (unfold in_int64; lia). lia. }
  assert (Hs2 : (same_marks s s2 /\ devices (RT s2) = devices (RT s) /\ pulses (env s2) = pulses (env s)) /\ ticks (env s2) = S (ticks (env s)) /\
     (state (RT s2) = state (RT s) \/
      (state (RT s) = ACTIVE /\ state (RT s2) = IDLE /\ idle_s (RT s) * 1000 <= clock (env s) (ticks (env s)) - last_activity_ms (RT s)) \/
      (state (RT s) = IDLE /\ state (RT s2) = EXTENDED /\ (idle_s (RT s) + extended_s (RT s)) * 1000 <= clock (env s) (ticks (env s)) - last_activity_ms (RT s)))).
  { subst s2. rewrite Hadd, Hmul, Eeff. rewrite S1.
    assert (Hsm : same_marks s s1) by (unfold same_marks; intuition).
    assert (Hent : forall to, (same_marks s (exec (enter to) s1) /\ devices (RT (exec (enter to) s1)) = devices (RT s) /\ pulses (env (exec (enter to) s1)) = pulses (env s)) /\ ticks (env (exec (enter to) s1)) = S (ticks (env s)) /\ state (RT (exec (enter to) s1)) = to).
    { intros to. destruct (enter_spec to s1) as (X1 & X2 & X3 & X4 & X5). rewrite X3, X4, X5, T1. split; [|tauto].
      unfold same_marks in *. intuition congruence. }
    destruct (state (RT s)) eqn:Est.
    - destruct (Z.leb_spec (idle_s (RT s) * 1000) (clock (env s) (ticks (env s)) - last_activity_ms (RT s))).
      + cbv beta iota. destruct (Hent IDLE) as (X1 & X2 & X3). rewrite X3. intuition.
      + cbv beta iota. rewrite exec_ret. intuition.
    - specialize (HI eq_refl).
      destruct (Z.ltb_spec (clock (env s) (ticks (env s)) - last_activity_ms (RT s)) (idle_s (RT s) * 1000)); [lia|].
      destruct (Z.leb_spec ((idle_s (RT s) + extended_s (RT s)) * 1000) (clock (env s) (ticks (env s)) - last_activity_ms (RT s))).
      + cbv beta iota. destruct (Hent EXTENDED) as (X1 & X2 & X3). rewrite X3. intuition.
      + cbv beta iota. rewrite exec_ret. intuition.
    - specialize (HE eq_refl).
      destruct (Z.ltb_spec (clock (env s) (ticks (env s)) - last_activity_ms (RT s)) (idle_s (RT s) * 1000)); [lia|].
      cbv beta iota. rewrite exec_ret. intuition. }
  destruct Hs2 as ((M2 & D2 & P2) & T2 & Hst).
  destruct M2 as (B1 & B2 & B3 & B4 & B5).
  destruct M3 as (C1 & C2 & C3 & C4 & C5).
  pose proof (Hm (ticks (env s)) (ticks (env s3)) ltac:(lia)) as Mono.
  split; [| split; [| split; [| split]]].
  - unfold Inv. rewrite S3, C1, C2, C3, C4, C5, B1, B2, B3, B4, B5.
    split; [split; assumption|]. do 4 (split; [lia|]). split.
    + intros X. destruct Hst as [Y | [(Y1 & Y2 & Y3) | (Y1 & Y2 & Y3)]]; try congruence; try lia.
      rewrite Y in X. specialize (HI X). lia.
    + intros X. destruct Hst as [Y | [(Y1 & Y2 & Y3) | (Y1 & Y2 & Y3)]]; try congruence; try lia.
      rewrite Y in X. specialize (HE X). lia.
  - rewrite S3. destruct Hst as [Y | [(Y1 & Y2 & Y3) | (Y1 & Y2 & Y3)]]; congruence.
  - subst s3. rewrite P3, P2. reflexivity.
  - subst s3. rewrite D3, D2. reflexivity.
  - congruence.
Qed.

(** The two outcomes of [on_activity]. *)
Lemma on_activity_rejected s :
  (sub64 (clock (env s) (ticks (env s))) (last_pulse_ms (RT s)) <? DEBOUNCE_MS) = true ->
  exec on_activity s = tick_reject s.
Proof.
  intros H. unfold exec, on_activity, bind, now_ms, get_rt. simpl. rewrite H. reflexivity.
Qed.

Lemma on_activity_accepted s :
  (sub64 (clock (env s) (ticks (env s))) (last_pulse_ms (RT s)) <? DEBOUNCE_MS) = false ->
  let now := clock (env s) (ticks (env s)) in
  let s' := exec on_activity s in
  state (RT s') = ACTIVE /\ last_pulse_ms (RT s') = now /\ last_activity_ms (RT s') = now /\
  idle_s (RT s') = idle_s (RT s) /\ extended_s (RT s') = extended_s (RT s) /\
  devices (RT s') = devices (RT s) /\
  clock (env s') = clock (env s) /\ ticks (env s') = S (S (ticks (env s))) /\
  pulses (env s') = pulses (env s) ++ [(now, true)].
Proof.
  intros H. cbv zeta. unfold on_activity.
  rewrite exec_bind, exec_bind_get_rt.
  change (eval now_ms s) with (clock (env s) (ticks (env s))).
  change (last_pulse_ms (RT (exec now_ms s))) with (last_pulse_ms (RT s)).
  rewrite H. do 3 rewrite exec_bind. rewrite exec_bind_get_rt, exec_bind.
  set (now := clock (env s) (ticks (env s))).
  set (s4 := exec (modify_rt (set_last_activity_ms now))
               (exec (modify_rt (set_last_pulse_ms now))
                  (exec (note_pulse now true) (exec now_ms s)))).
  assert (H4 : last_pulse_ms (RT s4) = now /\ last_activity_ms (RT s4) = now /\
               idle_s (RT s4) = idle_s (RT s) /\ extended_s (RT s4) = extended_s (RT s) /\
               devices (RT s4) = devices (RT s) /\ clock (env s4) = clock (env s) /\
               ticks (env s4) = S (ticks (env s)) /\
               pulses (env s4) = pulses (env s) ++ [(now, true)])
    by (repeat split; reflexivity).
  clearbody s4. destruct H4 as (B1 & B2 & B3 & B4 & B5 & B6 & B7 & B8).
  set (s5 := exec (if State_eqb (state (RT s4)) ACTIVE then ret tt else enter ACTIVE) s4).
  assert (H5 : state (RT s5) = ACTIVE /\ same_marks s4 s5 /\
               ticks (env s5) = ticks (env s4) /\ devices (RT s5) = devices (RT s4) /\
               pulses (env s5) = pulses (env s4)).
  { subst s5. destruct (state (RT s4)) eqn:E4; simpl State_eqb; cbv iota.
    - rewrite exec_ret. unfold same_marks. repeat split; try reflexivity. exact E4.
    - apply enter_spec.
    - apply enter_spec. }
  clearbody s5. destruct H5 as (C1 & (C2 & C3 & C4 & C5 & C6) & C7 & C8 & C9).
  destruct (schedule_timer_spec s5) as (D1 & (D2 & D3 & D4 & D5 & D6) & D7 & D8 & D9).
  assert (Dt : ticks (env (exec schedule_timer s5)) = S (ticks (env s5))).
  { unfold schedule_timer. rewrite exec_bind_get_rt, C1, exec_bind.
    match goal with |- context [exec (arm_timer_ms ?ms) ?s1] =>
      destruct (arm_timer_ms_emit ms s1) as [e ->] end.
    reflexivity. }
  repeat split; congruence.
Qed.

Lemma on_activity_pulses s :
  devices (RT (exec on_activity s)) = devices (RT s) /\
  exists b, pulses (env (exec on_activity s))
            = pulses (env s) ++ [(clock (env s) (ticks (env s)), b)].
Proof.
  destruct (sub64 (clock (env s) (ticks (env s))) (last_pulse_ms (RT s)) <? DEBOUNCE_MS) eqn:E.
  - rewrite (on_activity_rejected s E). split; [reflexivity | exists false; reflexivity].
  - destruct (on_activity_accepted s E) as (_ & _ & _ & _ & _ & A6 & _ & _ & A9).
    split; [exact A6 | exists true; exact A9].
Qed.

(** Under the invariant a rejected pulse is a pulse in state ACTIVE. *)
Lemma on_activity_Inv s :
  Inv s ->
  let now := clock (env s) (ticks (env s)) in
  let s' := exec on_activity s in
  Inv s' /\ devices (RT s') = devices (RT s) /\ clock (env s') = clock (env s) /\
  ((now - last_pulse_ms (RT s) < 3000 /\ state (RT s) = ACTIVE /\ state (RT s') = ACTIVE /\
    pulses (env s') = pulses (env s) ++ [(now, false)])
   \/
   (3000 <= now - last_pulse_ms (RT s) /\ state (RT s') = ACTIVE /\
    last_pulse_ms (RT s') = now /\ last_activity_ms (RT s') = now /\
    pulses (env s') = pulses (env s) ++ [(now, true)])).
Proof.
  intros HInv. pose proof HInv as (Hc & Hi & He & Hp & Ha & HI & HE).
  cbv zeta. destruct Hc as [Hr Hm].
  pose proof (Hr (ticks (env s))) as R0.
  assert (Esub : sub64 (clock (env s) (ticks (env s))) (last_pulse_ms (RT s))
                 = clock (env s) (ticks (env s)) - last_pulse_ms (RT s)).
  { unfold sub64. apply wrap64_small. unfold in_int64. lia. }
  destruct (sub64 (clock (env s) (ticks (env s))) (last_pulse_ms (RT s)) <? DEBOUNCE_MS) eqn:E.
  - rewrite (on_activity_rejected s E).
    rewrite Esub in E. apply Z.ltb_lt in E. unfold DEBOUNCE_MS in E.
    assert (Hst : state (RT s) = ACTIVE).
    { destruct (state (RT s)) eqn:Est; [reflexivity | specialize (HI eq_refl); lia
                                      | specialize (HE eq_refl); lia]. }
    split; [| split; [reflexivity | split; [reflexivity|]]].
    + apply (Inv_later s); [assumption | reflexivity | | simpl; lia].
      unfold same_marks. simpl. intuition.
    + left. simpl. intuition.
  - destruct (on_activity_accepted s E) as (A1 & A2 & A3 & A4 & A5 & A6 & A7 & A8 & A9).
    rewrite Esub in E. apply Z.ltb_ge in E. unfold DEBOUNCE_MS in E.
    split; [| split; [assumption | split; [assumption|]]].
    + unfold Inv. rewrite A1, A2, A3, A4, A5, A7, A8.
      pose proof (Hm (ticks (env s)) (S (S (ticks (env s)))) ltac:(lia)).
      split; [split; assumption|]. do 4 (split; [lia|]). split; discriminate.
    + right. intuition.
Qed.

(** ** Registry operations leave the machine alone *)

Lemma dev_only_refl s : dev_only s s.
Proof. unfold dev_only, same_marks. intuition. Qed.

Lemma dev_only_trans s1 s2 s3 : dev_only s1 s2 -> dev_only s2 s3 -> dev_only s1 s3.
Proof. unfold dev_only, same_marks. intuition congruence. Qed.

Lemma Inv_dev_only s s' : Inv s -> dev_only s s' -> Inv s'.
Proof.
  intros H (E1 & E2 & E3 & _). apply (Inv_later s); try assumption. lia.
Qed.

Lemma set_dev_dev_only i d s : dev_only s (exec (set_dev i d) s).
Proof. unfold dev_only, same_marks. simpl. intuition. Qed.

Lemma erase_dev_dev_only idx s : dev_only s (exec (erase_dev idx) s).
Proof. unfold dev_only, same_marks. simpl. intuition. Qed.

Lemma del_dev_fd_dev_only f s : dev_only s (exec (del_dev_fd f) s).
Proof.
  unfold del_dev_fd. rewrite exec_bind, eval_get_rt, exec_get_rt.
  destruct (dev_index_by_fd f (devices (RT s))); [apply erase_dev_dev_only | apply dev_only_refl].
Qed.

Lemma del_dev_dev_only p s : dev_only s (exec (del_dev p) s).
Proof.
  unfold del_dev. rewrite exec_bind, eval_get_rt, exec_get_rt.
  destruct (dev_index_by_path p (devices (RT s))); [apply erase_dev_dev_only | apply dev_only_refl].
Qed.

Lemma add_dev_dev_only p o s : dev_only s (exec (add_dev p o) s).
Proof.
  unfold add_dev. destruct (open_fd o <? 0); [apply dev_only_refl|].
  rewrite exec_bind. destruct (negb (epoll_add_ok o)).
  - unfold dev_only, same_marks. simpl. intuition.
  - unfold dev_only, same_marks. simpl. intuition.
Qed.

Create HintDb registry.
#[local] Hint Resolve dev_only_refl set_dev_dev_only erase_dev_dev_only
  del_dev_fd_dev_only del_dev_dev_only add_dev_dev_only : registry.

Lemma scan_inputs_dev_only entries s : dev_only s (exec (scan_inputs entries) s).
Proof.
  revert s. induction entries as [| [nm o] rest IH]; intros s; [apply dev_only_refl|].
  simpl. rewrite exec_bind. refine (dev_only_trans _ _ _ _ (IH _)).
  destruct (starts_with_dot nm); [| destruct (negb (is_event_name nm))];
    auto with registry.
Qed.

Lemma watch_record_dev_only r s : dev_only s (exec (watch_record r) s).
Proof.
  destruct r as [e o]. unfold watch_record.
  destruct (negb (len e =? 0) && is_event_name (name e)); [| apply dev_only_refl].
  rewrite exec_bind.
  match goal with |- dev_only _ (exec ?m2 (exec ?m1 _)) =>
    assert (H1 : dev_only s (exec m1 s));
    [| assert (H2 : forall s', dev_only s' (exec m2 s'));
       [| exact (dev_only_trans _ _ _ H1 (H2 _))]]
  end.
  - destruct (negb (Z.land (mask e) IN_CREATE =? 0)); auto with registry.
  - intros s'. destruct (negb (Z.land (mask e) IN_DELETE =? 0)); auto with registry.
Qed.

Lemma watch_records_dev_only recs s : dev_only s (exec (watch_records recs) s).
Proof.
  revert s. induction recs as [| r rest IH]; intros s; [apply dev_only_refl|].
  simpl. rewrite exec_bind. exact (dev_only_trans _ _ _ (watch_record_dev_only r s) (IH _)).
Qed.

(** ** The shape of one read batch *)

Lemma handle_event_pulsed i e s : handle_event i e true s = (true, s).
Proof. reflexivity. Qed.

(** One event either touches the device only, or touches the device and
    then calls [on_activity], once. *)
Lemma handle_event_shape i e s :
  let r := handle_event i e false s in
  (fst r = false /\ dev_only s (snd r)) \/
  (fst r = true /\ exists s1, dev_only s s1 /\ snd r = exec on_activity s1).
Proof.
  cbv zeta. unfold handle_event.
  destruct (type e =? EV_SYN); [left; split; [reflexivity | apply dev_only_refl]|].
  destruct ((type e =? EV_KEY) || (type e =? EV_REL)).
  { right. split.
    - apply (eval_seq_ret on_activity true s).
    - exists s. split; [apply dev_only_refl|]. apply (exec_seq_ret on_activity true s). }
  destruct (type e =? EV_ABS); [| left; split; [reflexivity | apply dev_only_refl]].
  change (fst (?m s)) with (eval m s). change (snd (?m s)) with (exec m s).
  rewrite !exec_bind, !eval_bind.
  change (eval (get_dev i) s) with (devices (RT s) !!! i).
  change (exec (get_dev i) s) with s.
  set (dv := devices (RT s) !!! i).
  destruct (negb (cell (abs_seen dv) (code e))).
  { left. rewrite eval_seq_ret, exec_seq_ret. split; [reflexivity | apply set_dev_dev_only]. }
  cbv zeta.
  destruct (is_hat_abs (code e)).
  - destruct (negb (_ =? 0)).
    + right. rewrite eval_bind, eval_seq_ret, exec_bind, exec_seq_ret.
      split; [reflexivity|]. eexists. split; [apply set_dev_dev_only | reflexivity].
    + left. split; [reflexivity | apply dev_only_refl].
  - destruct (_ <=? abs32 _).
    + right. rewrite eval_bind, eval_seq_ret, exec_bind, exec_seq_ret.
      split; [reflexivity|]. eexists. split; [apply set_dev_dev_only | reflexivity].
    + left. split; [reflexivity | apply dev_only_refl].
Qed.

Lemma handle_events_pulsed i evs s : handle_events i evs true s = (true, s).
Proof. induction evs as [| e rest IH]; [reflexivity|]. simpl. unfold bind. simpl. apply IH. Qed.

Lemma handle_events_cons i e rest p s :
  handle_events i (e :: rest) p s =
  handle_events i rest (fst (handle_event i e p s)) (snd (handle_event i e p s)).
Proof. simpl. unfold bind. now destruct (handle_event i e p s). Qed.

Lemma handle_events_shape i evs s :
  let r := handle_events i evs false s in
  (fst r = false /\ dev_only s (snd r)) \/
  (fst r = true /\ exists s1, dev_only s s1 /\ snd r = exec on_activity s1).
Proof.
  revert s. induction evs as [| e rest IH]; intros s.
  - left. split; [reflexivity | apply dev_only_refl].
  - cbv zeta. rewrite handle_events_cons.
    destruct (handle_event_shape i e s) as [(E1 & D1) | (E1 & s1 & D1 & X1)]; rewrite E1.
    + destruct (IH (snd (handle_event i e false s))) as [(E2 & D2) | (E2 & s2 & D2 & X2)].
      * left. split; [assumption | eapply dev_only_trans; eassumption].
      * right. split; [assumption|]. exists s2.
        split; [eapply dev_only_trans; eassumption | assumption].
    + rewrite handle_events_pulsed. right. split; [reflexivity|].
      exists s1. split; assumption.
Qed.

Lemma handle_reads_data f i evs rest p s :
  handle_reads f i (RData evs :: rest) p s =
  handle_reads f i rest (fst (handle_events i evs p s)) (snd (handle_events i evs p s)).
Proof. simpl. unfold bind. now destruct (handle_events i evs p s). Qed.

Lemma handle_reads_shape f i reads pulsed s :
  let s' := exec (handle_reads f i reads pulsed) s in
  if pulsed then dev_only s s' else batch_shape s s'.
Proof.
  revert pulsed s. induction reads as [| r rest IH]; intros pulsed s; cbv zeta.
  - destruct pulsed; [| left]; apply dev_only_refl.
  - destruct r as [evs | | |].
    + unfold exec. rewrite handle_reads_data. fold (exec (handle_reads f i rest
        (fst (handle_events i evs pulsed s))) (snd (handle_events i evs pulsed s))).
      destruct pulsed.
      * rewrite handle_events_pulsed. apply (IH true s).
      * destruct (handle_events_shape i evs s) as [(E1 & D1) | (E1 & s1 & D1 & X1)]; rewrite E1.
        -- destruct (IH false (snd (handle_events i evs false s))) as [D2 | (s2 & D2 & D3)].
           ++ left. eapply dev_only_trans; eassumption.
           ++ right. exists s2. split; [eapply dev_only_trans; eassumption | assumption].
        -- right. exists s1. split; [assumption|]. rewrite <- X1.
           apply (IH true (snd (handle_events i evs false s))).
    + destruct pulsed; [| left]; apply dev_only_refl.
    + simpl. rewrite exec_seq_ret. destruct pulsed; [| left]; apply del_dev_fd_dev_only.
    + simpl. rewrite exec_seq_ret. destruct pulsed; [| left]; apply del_dev_fd_dev_only.
Qed.

Lemma handle_input_shape f reads s : batch_shape s (exec (handle_input f reads) s).
Proof.
  unfold handle_input. rewrite exec_bind, eval_get_rt, exec_get_rt.
  destruct (dev_index_by_fd f (devices (RT s))) as [i |].
  - apply (handle_reads_shape f i reads false s).
  - left. apply dev_only_refl.
Qed.

(** The loop reads on until a read returns no data. *)
Lemma handle_reads_drains f i chunks rest pulsed s :
  eval (handle_reads f i (map RData chunks ++ RAgain :: rest) pulsed) s = rest /\
  eval (handle_reads f i (map RData chunks) pulsed) s = [].
Proof.
  revert pulsed s. induction chunks as [| evs more IH]; intros pulsed s.
  - split; reflexivity.
  - simpl map. simpl app. unfold eval. rewrite !handle_reads_data. apply IH.
Qed.

(** ** The configuration loader *)

(** [parse_pos_int] is [strtol] within 0 and 12 h, and -1 outside. *)
Lemma parse_pos_int_value s :
  parse_pos_int s =
    if (0 <=? strtol s) && (strtol s <=? 43200) then strtol s else -1.
Proof.
  unfold parse_pos_int. cbv zeta.
  destruct (Z.ltb_spec (strtol s) 0); simpl.
  - destruct (Z.leb_spec 0 (strtol s)); [lia | reflexivity].
  - destruct (Z.ltb_spec (12 * 60 * 60) (strtol s)).
    + destruct (Z.leb_spec 0 (strtol s)); [| lia]. simpl.
      destruct (Z.leb_spec (strtol s) 43200); [lia | reflexivity].
    + destruct (Z.leb_spec 0 (strtol s)); [| lia]. simpl.
      destruct (Z.leb_spec (strtol s) 43200); [| lia].
      apply wrap32_small. unfold in_int32. lia.
Qed.

Lemma parse_pos_int_le s : parse_pos_int s <= 43200.
Proof.
  rewrite parse_pos_int_value.
  destruct (Z.leb_spec 0 (strtol s)); simpl; [| lia].
  destruct (Z.leb_spec (strtol s) 43200); lia.
Qed.

Lemma accepted_timeout v :
  (if 60 <=? parse_pos_int v then true else false)
    = (60 <=? strtol v) && (strtol v <=? 43200).
Proof.
  rewrite parse_pos_int_value. generalize (strtol v). intros n.
  destruct (Z.leb_spec 0 n); destruct (Z.leb_spec n 43200); simpl;
    destruct (Z.leb_spec 60 n); simpl; try reflexivity; lia.
Qed.

Lemma cfg_key_value_range strtod k v c :
  timeouts_in_range c -> timeouts_in_range (cfg_key_value strtod k v c).
Proof.
  intros [Hi He]. unfold cfg_key_value.
  pose proof (parse_pos_int_le v).
  destruct (String.eqb k "idle").
  { cbv zeta. destruct (Z.leb_spec 60 (parse_pos_int v)); [| split; assumption].
    split; simpl; [lia | assumption]. }
  destruct (String.eqb k "extended").
  { cbv zeta. destruct (Z.leb_spec 60 (parse_pos_int v)); [| split; assumption].
    split; simpl; [assumption | lia]. }
  destruct (String.eqb k "hooks_mirror").
  { destruct v; split; assumption. }
  destruct (String.eqb k "ABS_Deadzone"); [| split; assumption].
  destruct (strtod v); split; assumption.
Qed.

Lemma cfg_line_range strtod c line :
  timeouts_in_range c -> timeouts_in_range (cfg_line strtod c line).
Proof.
  intros H. unfold cfg_line.
  destruct (skip_blanks (cstr line)) as [| a r] eqn:E; [exact H|].
  destruct ((char_code a =? 10) || (char_code a =? 35) || (char_code a =? 91)); [exact H|].
  destruct (split_eq (String a r)) as [[k v] |]; [| exact H].
  apply cfg_key_value_range, H.
Qed.

Lemma read_config_range strtod file :
  timeouts_in_range (read_config_or_defaults strtod file).
Proof.
  unfold read_config_or_defaults. destruct file as [content |].
  - assert (H : timeouts_in_range
                  (fold_left (cfg_line strtod) (fgets_lines 255 EmptyString content) cfg_defaults)).
    { generalize (fgets_lines 255 EmptyString content).
      assert (H0 : timeouts_in_range cfg_defaults) by (unfold timeouts_in_range; simpl; unfold DEFAULT_IDLE_S, DEFAULT_EXTENDED_S; lia).
      revert H0. generalize cfg_defaults.
      intros c Hc l. revert c Hc. induction l as [| x l IH]; intros c Hc; [exact Hc|].
      simpl. apply IH, cfg_line_range, Hc. }
    destruct H as [Hi He]. unfold enforce_minimums, timeouts_in_range. simpl.
    destruct (Z.ltb_spec (cfg_idle_s (fold_left (cfg_line strtod) (fgets_lines 255 EmptyString content) cfg_defaults)) 60);
    destruct (Z.ltb_spec (cfg_extended_s (fold_left (cfg_line strtod) (fgets_lines 255 EmptyString content) cfg_defaults)) 60); lia.
  - unfold timeouts_in_range. simpl. unfold DEFAULT_IDLE_S, DEFAULT_EXTENDED_S. lia.
Qed.

Lemma cfg_line_idle strtod c val :
  cfg_line strtod c ("idle=" +:+ val)
    = cfg_key_value strtod "idle" (rtrim (skip_blanks (cstr val))) c.
Proof. reflexivity. Qed.

Lemma cfg_line_extended strtod c val :
  cfg_line strtod c ("extended=" +:+ val)
    = cfg_key_value strtod "extended" (rtrim (skip_blanks (cstr val))) c.
Proof. reflexivity. Qed.

(** ** The invariant of the reachable states *)

Lemma batch_shape_Inv s s' : Inv s -> batch_shape s s' -> Inv s'.
Proof.
  intros H [D | (s1 & D1 & D2)].
  - eapply Inv_dev_only; eassumption.
  - eapply Inv_dev_only; [| exact D2].
    apply on_activity_Inv. eapply Inv_dev_only; eassumption.
Qed.

Lemma dispatch_Inv r s : Inv s -> Inv (exec (dispatch r) s).
Proof.
  intros H. destruct r as [| recs | f reads]; simpl.
  - apply reevaluate_spec, H.
  - eapply Inv_dev_only; [exact H | apply watch_records_dev_only].
  - rewrite exec_seq_ret. eapply batch_shape_Inv; [exact H | apply handle_input_shape].
Qed.

Lemma event_loop_Inv rs s : Inv s -> Inv (exec (event_loop rs) s).
Proof.
  revert s. induction rs as [| r rest IH]; intros s H; [exact H|].
  simpl. rewrite exec_bind. apply IH, dispatch_Inv, H.
Qed.

Lemma main_setup_Inv clk b : clock_ok clk -> Inv (exec (main_setup b) (Sys_init clk)).
Proof.
  intros Hc. unfold main_setup.
  destruct (read_config_range (boot_strtod b) (boot_config b)) as [Hi He].
  set (c := read_config_or_defaults (boot_strtod b) (boot_config b)) in *.
  clearbody c. rewrite !exec_bind.
  match goal with |- Inv (exec schedule_timer ?x) => set (s2 := x) end.
  destruct (schedule_timer_spec s2) as (S3 & M3 & T3 & _).
  apply (Inv_later s2); [| exact S3 | exact M3 | apply T3 ].
  subst s2.
  eapply Inv_dev_only; [| apply scan_inputs_dev_only].
  destruct Hc as [Hr Hm]. pose proof (Hr O). pose proof (Hm O 1%nat ltac:(lia)).
  unfold Inv. simpl.
  change (eval now_ms (exec (load_config c) (Sys_init clk))) with (clk O).
  split; [split; assumption|]. do 4 (split; [lia|]). split; discriminate.
Qed.

(** Every reachable state satisfies the invariant. *)
Theorem reachable_Inv s : reachable s -> Inv s.
Proof.
  intros (clk & b & rs & Hc & ->). rewrite exec_bind.
  apply event_loop_Inv, main_setup_Inv, Hc.
Qed.

(** ** Array cells and one absolute-axis event *)

Lemma cell_set_cell_eq {A} `{Inhabited A} (l : list A) c v :
  (Z.to_nat c < length l)%nat -> cell (set_cell l c v) c = v.
Proof. intros Hc. unfold cell, set_cell. now apply list_lookup_total_insert_eq. Qed.

Lemma cell_set_cell_ne {A} `{Inhabited A} (l : list A) c c' v :
  0 <= c -> 0 <= c' -> c <> c' -> cell (set_cell l c v) c' = cell l c'.
Proof.
  intros H1 H2 Hne. unfold cell, set_cell. apply list_lookup_total_insert_ne. lia.
Qed.

Lemma length_set_cell {A} (l : list A) c v : length (set_cell l c v) = length l.
Proof. apply length_insert. Qed.

Lemma code_in_array (l : list Z) c :
  length l = ABS_CNT -> 0 <= c <= ABS_MAX -> (Z.to_nat c < length l)%nat.
Proof. intros -> Hc. unfold ABS_CNT, ABS_MAX in *. lia. Qed.

(** The three outcomes of an event on an absolute axis, when the
    subtraction does not overflow. *)
Lemma handle_event_abs i e s dv :
  devices (RT s) !! i = Some dv -> type e = EV_ABS ->
  axis_delta dv e <= 2147483647 ->
  handle_event i e false s =
    if negb (cell (abs_seen dv) (code e))
    then (false, exec (set_dev i (dev_first_seen dv e)) s)
    else if abs_qualifies dv e
         then (true, exec on_activity (exec (set_dev i (dev_recorded dv e)) s))
         else (false, s).
Proof.
  intros Hdv Ht Hd. unfold handle_event. rewrite Ht.
  change (EV_ABS =? EV_SYN) with false.
  change ((EV_ABS =? EV_KEY) || (EV_ABS =? EV_REL)) with false.
  change (EV_ABS =? EV_ABS) with true. cbv iota.
  unfold bind at 1.
  assert (Hg : get_dev i s = (dv, s)).
  { unfold get_dev. f_equal. apply list_lookup_total_correct, Hdv. }
  rewrite Hg. cbv zeta.
  destruct (negb (cell (abs_seen dv) (code e))).
  { apply run_seq_ret. }
  unfold abs_qualifies, effective_dz.
  rewrite (delta32 _ _ Hd). fold (axis_delta dv e).
  destruct (is_hat_abs (code e)).
  - destruct (negb (axis_delta dv e =? 0)); [| reflexivity].
    apply run_seq_seq_ret.
  - destruct (_ <=? axis_delta dv e); [| reflexivity].
    apply run_seq_seq_ret.
Qed.

Lemma devices_set_dev i d s ds :
  devices (RT s) = ds -> (i < length ds)%nat ->
  devices (RT (exec (set_dev i d) s)) !!! i = d.
Proof.
  intros <- Hi. simpl. now apply list_lookup_total_insert_eq.
Qed.

(** ** Calibration *)

Lemma init_axis_frame pct reply d c :
  fd (init_axis pct reply d c) = fd d /\ path (init_axis pct reply d c) = path d /\
  abs_last (init_axis pct reply d c) = abs_last d /\
  abs_seen (init_axis pct reply d c) = abs_seen d /\
  length (abs_min (init_axis pct reply d c)) = length (abs_min d) /\
  length (abs_max (init_axis pct reply d c)) = length (abs_max d) /\
  length (abs_dz (init_axis pct reply d c)) = length (abs_dz d).
Proof.
  unfold init_axis. destruct (reply c) as [[mn mx] |]; simpl;
    rewrite ?length_set_cell; repeat split; reflexivity.
Qed.

Lemma fold_init_axis_frame pct reply l d :
  let d' := fold_left (init_axis pct reply) l d in
  fd d' = fd d /\ path d' = path d /\
  abs_last d' = abs_last d /\ abs_seen d' = abs_seen d /\
  length (abs_min d') = length (abs_min d) /\
  length (abs_max d') = length (abs_max d) /\
  length (abs_dz d') = length (abs_dz d).
Proof.
  revert d. induction l as [| c l IH]; intros d; cbv zeta; [repeat split; reflexivity|].
  simpl. destruct (IH (init_axis pct reply d c)) as (A1 & A2 & A3 & A4 & A5 & A6 & A7).
  destruct (init_axis_frame pct reply d c) as (B1 & B2 & B3 & B4 & B5 & B6 & B7).
  repeat split; congruence.
Qed.

Lemma init_axis_dz pct reply d c c' :
  0 <= c -> 0 <= c' -> (Z.to_nat c' < length (abs_dz d))%nat ->
  cell (abs_dz (init_axis pct reply d c)) c' =
    if c =? c' then stored_dz pct reply c (cell (abs_dz d) c') else cell (abs_dz d) c'.
Proof.
  intros Hc Hc' Hl. unfold init_axis, stored_dz.
  destruct (Z.eqb_spec c c') as [-> | Hne].
  - destruct (reply c') as [[mn mx] |]; [| reflexivity]. simpl.
    now apply cell_set_cell_eq.
  - destruct (reply c) as [[mn mx] |]; [| reflexivity]. simpl.
    now apply cell_set_cell_ne.
Qed.

Lemma fold_init_axis_dz pct reply n a d c :
  0 <= c -> (Z.to_nat c < length (abs_dz d))%nat ->
  cell (abs_dz (fold_left (init_axis pct reply) (map Z.of_nat (seq a n)) d)) c =
    if (Z.of_nat a <=? c) && (c <? Z.of_nat (a + n))
    then stored_dz pct reply c (cell (abs_dz d) c)
    else cell (abs_dz d) c.
Proof.
  intros Hc. revert a d. induction n as [| n IH]; intros a d Hl.
  - simpl. destruct (Z.leb_spec (Z.of_nat a) c); destruct (Z.ltb_spec c (Z.of_nat (a + 0)));
      simpl; try reflexivity; lia.
  - simpl seq. simpl map. simpl fold_left.
    destruct (init_axis_frame pct reply d (Z.of_nat a)) as (_ & _ & _ & _ & _ & _ & B7).
    rewrite IH by (rewrite B7; exact Hl).
    rewrite (init_axis_dz pct reply d (Z.of_nat a) c) by (try lia; exact Hl).
    replace (a + S n)%nat with (S a + n)%nat by lia.
    destruct (Z.eqb_spec (Z.of_nat a) c) as [E | E].
    + assert (H1 : (Z.of_nat (S a) <=? c) = false) by (apply Z.leb_gt; lia).
      assert (H2 : (Z.of_nat a <=? c) = true) by (apply Z.leb_le; lia).
      assert (H3 : (c <? Z.of_nat (S a + n)) = true) by (apply Z.ltb_lt; lia).
      rewrite H1, H2, H3, E. reflexivity.
    + assert (H1 : (Z.of_nat (S a) <=? c) = (Z.of_nat a <=? c)).
      { destruct (Z.leb_spec (Z.of_nat (S a)) c); destruct (Z.leb_spec (Z.of_nat a) c);
          try reflexivity; lia. }
      rewrite H1. reflexivity.
Qed.

(** What [init_abs_info] leaves in the dead-zone cell of an axis. *)
Lemma init_abs_info_dz pct reply d c :
  0 <= c <= ABS_MAX ->
  cell (abs_dz (init_abs_info pct reply d)) c = stored_dz pct reply c 0.
Proof.
  intros Hc. unfold init_abs_info, axis_codes. cbv zeta.
  rewrite fold_init_axis_dz;
    change (abs_dz (with_calib (replicate ABS_CNT 0) (replicate ABS_CNT 0)
                      (replicate ABS_CNT 0) d)) with (replicate ABS_CNT 0).
  - assert (E : cell (replicate ABS_CNT 0) c = 0).
    { unfold cell. apply lookup_total_replicate_2. unfold ABS_CNT, ABS_MAX in *. lia. }
    rewrite E.
    destruct (Z.leb_spec (Z.of_nat 0) c); [| lia].
    destruct (Z.ltb_spec c (Z.of_nat (0 + ABS_CNT))); [reflexivity|].
    unfold ABS_CNT, ABS_MAX in *. lia.
  - lia.
  - rewrite length_replicate. unfold ABS_CNT, ABS_MAX in *. lia.
Qed.

Lemma with_fd_path_wf f p : wf_dev (with_fd_path f p Dev_new).
Proof. unfold wf_dev. repeat split; apply length_replicate. Qed.

Lemma init_abs_info_frame pct reply d :
  wf_dev d ->
  fd (init_abs_info pct reply d) = fd d /\ path (init_abs_info pct reply d) = path d /\
  wf_dev (init_abs_info pct reply d).
Proof.
  intros (W1 & W2 & _). unfold init_abs_info.
  match goal with |- context [fold_left ?f ?l ?d0] =>
    destruct (fold_init_axis_frame pct reply l d0) as (A1 & A2 & A3 & A4 & A5 & A6 & A7) end.
  cbv zeta in *.
  cbn [fd path abs_last abs_seen abs_min abs_max abs_dz with_calib] in A1, A2, A3, A4, A5, A6, A7.
  rewrite length_replicate in A5, A6, A7.
  unfold wf_dev. rewrite A1, A2, A3, A4, A5, A6, A7. repeat split; assumption.
Qed.

(** The calibration writes what is described as long as the rounded share
    of the span is in the range of [int]. *)
Lemma calibration_dead_zone pct reply d c mn mx :
  0 <= c <= ABS_MAX -> reply c = Some (mn, mx) -> in_int32 mn -> in_int32 mx ->
  let dz := cell (abs_dz (init_abs_info pct reply d)) c in
  (is_hat_abs c = true -> dz = 0) /\
  (is_hat_abs c = false ->
     in_int32 (lround (dmul (double_of_Z (mx - mn)) pct)) ->
     dz = described_dz pct (mx - mn)).
Proof.
  intros Hc Hr Hmn Hmx. cbv zeta. rewrite (init_abs_info_dz pct reply d c Hc).
  unfold stored_dz. rewrite Hr.
  split; intros Hh; rewrite Hh; [reflexivity|]. intros Hfit.
  unfold span_of, sub64. rewrite wrap64_small by (unfold in_int32, in_int64 in *; lia).
  unfold axis_dz, described_dz.
  destruct (0 <? mx - mn); [| reflexivity].
  rewrite (wrap32_small _ Hfit).
  destruct (Z.ltb_spec (lround (dmul (double_of_Z (mx - mn)) pct)) AXIS_DZ_MIN); lia.
Qed.

Lemma add_dev_registered p o s :
  0 <= open_fd o -> epoll_add_ok o = true ->
  devices (RT (exec (add_dev p o) s))
    = devices (RT s)
      ++ [init_abs_info (AXIS_DZ_PCT s) (absinfo o) (with_fd_path (open_fd o) p Dev_new)].
Proof.
  intros Hf He. unfold add_dev.
  destruct (Z.ltb_spec (open_fd o) 0); [lia|].
  rewrite exec_bind, He. reflexivity.
Qed.

(** ** Every tracked device keeps its arrays whole *)

Lemma Dev_new_wf : wf_dev Dev_new.
Proof. unfold wf_dev. repeat split; apply length_replicate. Qed.

Lemma get_dev_wf i s : devs_wf s -> wf_dev (devices (RT s) !!! i).
Proof.
  intros H. destruct (devices (RT s) !! i) as [d |] eqn:E.
  - rewrite (list_lookup_total_correct _ _ _ E).
    exact (proj1 (Forall_lookup _ _) H i d E).
  - rewrite list_lookup_total_alt, E. apply Dev_new_wf.
Qed.

Lemma set_dev_wf i d s : devs_wf s -> wf_dev d -> devs_wf (exec (set_dev i d) s).
Proof. intros H Hd. unfold devs_wf. simpl. now apply Forall_insert. Qed.

Lemma dev_first_seen_wf dv e : wf_dev dv -> wf_dev (dev_first_seen dv e).
Proof.
  intros (W1 & W2 & W3 & W4 & W5). unfold wf_dev, dev_first_seen. simpl.
  rewrite !length_set_cell. repeat split; assumption.
Qed.

Lemma dev_recorded_wf dv e : wf_dev dv -> wf_dev (dev_recorded dv e).
Proof.
  intros (W1 & W2 & W3 & W4 & W5). unfold wf_dev, dev_recorded. simpl.
  rewrite !length_set_cell. repeat split; assumption.
Qed.

Lemma on_activity_wf s : devs_wf s -> devs_wf (exec on_activity s).
Proof.
  unfold devs_wf. destruct (on_activity_pulses s) as (E & _). now rewrite E.
Qed.

Lemma handle_event_wf i e p s : devs_wf s -> devs_wf (exec (handle_event i e p) s).
Proof.
  intros H. unfold handle_event.
  destruct p; [exact H|].
  destruct (type e =? EV_SYN); [exact H|].
  destruct ((type e =? EV_KEY) || (type e =? EV_REL)).
  { rewrite exec_seq_ret. now apply on_activity_wf. }
  destruct (type e =? EV_ABS); [| exact H].
  rewrite exec_bind.
  change (eval (get_dev i) s) with (devices (RT s) !!! i).
  change (exec (get_dev i) s) with s.
  pose proof (get_dev_wf i s H) as Hd.
  set (dv := devices (RT s) !!! i) in *.
  destruct (negb (cell (abs_seen dv) (code e))).
  { rewrite exec_seq_ret. apply set_dev_wf; [exact H | now apply dev_first_seen_wf]. }
  cbv zeta.
  destruct (is_hat_abs (code e)).
  - destruct (negb (_ =? 0)); [| exact H].
    rewrite exec_bind, exec_seq_ret. apply on_activity_wf, set_dev_wf;
      [exact H | now apply dev_recorded_wf].
  - destruct (_ <=? abs32 _); [| exact H].
    rewrite exec_bind, exec_seq_ret. apply on_activity_wf, set_dev_wf;
      [exact H | now apply dev_recorded_wf].
Qed.

Lemma handle_events_wf i evs p s : devs_wf s -> devs_wf (exec (handle_events i evs p) s).
Proof.
  revert p s. induction evs as [| e rest IH]; intros p s H; [exact H|].
  unfold exec. rewrite handle_events_cons. apply IH, handle_event_wf, H.
Qed.

Lemma erase_dev_wf idx s : devs_wf s -> devs_wf (exec (erase_dev idx) s).
Proof. intros H. unfold devs_wf. simpl. now apply Forall_delete. Qed.

Lemma del_dev_fd_wf f s : devs_wf s -> devs_wf (exec (del_dev_fd f) s).
Proof.
  intros H. unfold del_dev_fd. rewrite exec_bind, eval_get_rt, exec_get_rt.
  destruct (dev_index_by_fd f (devices (RT s))); [now apply erase_dev_wf | exact H].
Qed.

Lemma del_dev_wf p s : devs_wf s -> devs_wf (exec (del_dev p) s).
Proof.
  intros H. unfold del_dev. rewrite exec_bind, eval_get_rt, exec_get_rt.
  destruct (dev_index_by_path p (devices (RT s))); [now apply erase_dev_wf | exact H].
Qed.

Lemma add_dev_wf p o s : devs_wf s -> devs_wf (exec (add_dev p o) s).
Proof.
  intros H. unfold add_dev. destruct (open_fd o <? 0); [exact H|].
  rewrite exec_bind. destruct (negb (epoll_add_ok o)); [exact H|].
  unfold devs_wf. simpl. apply Forall_app. split; [exact H|].
  constructor; [| constructor].
  apply init_abs_info_frame, with_fd_path_wf.
Qed.

Lemma handle_reads_wf f i reads p s :
  devs_wf s -> devs_wf (exec (handle_reads f i reads p) s).
Proof.
  revert p s. induction reads as [| r rest IH]; intros p s H; [exact H|].
  destruct r as [evs | | |].
  - unfold exec. rewrite handle_reads_data. apply IH, handle_events_wf, H.
  - exact H.
  - simpl. rewrite exec_seq_ret. now apply del_dev_fd_wf.
  - simpl. rewrite exec_seq_ret. now apply del_dev_fd_wf.
Qed.

Lemma dispatch_wf r s : devs_wf s -> devs_wf (exec (dispatch r) s).
Proof.
  intros H. destruct r as [| recs | f reads]; simpl.
  - unfold devs_wf. unfold reevaluate. cbv zeta.
    rewrite exec_bind, exec_bind_get_rt, exec_bind.
    match goal with |- context [exec schedule_timer ?x] =>
      destruct (schedule_timer_spec x) as (_ & _ & _ & D & _); rewrite D end.
    assert (E : forall to, devices (RT (exec (enter to) (exec effective_idle_ms s)))
                           = devices (RT s))
      by (intros to; now destruct (enter_spec to (exec effective_idle_ms s)) as (_ & _ & _ & D' & _)).
    destruct (state (RT (exec effective_idle_ms s)));
      repeat match goal with |- context [if ?c then _ else _] => destruct c end;
      rewrite ?E; exact H.
  - revert s H. induction recs as [| [e o] rest IH]; intros s H; [exact H|].
    simpl. rewrite exec_bind. apply IH.
    destruct (negb (len e =? 0) && is_event_name (name e)); [| exact H].
    rewrite exec_bind.
    destruct (negb (Z.land (mask e) IN_DELETE =? 0));
      destruct (negb (Z.land (mask e) IN_CREATE =? 0));
      repeat first [apply del_dev_wf | apply add_dev_wf]; exact H.
  - rewrite exec_seq_ret. unfold handle_input.
    rewrite exec_bind, eval_get_rt, exec_get_rt.
    destruct (dev_index_by_fd f (devices (RT s))); [now apply handle_reads_wf | exact H].
Qed.

Lemma scan_inputs_wf entries s : devs_wf s -> devs_wf (exec (scan_inputs entries) s).
Proof.
  revert s. induction entries as [| [nm o] rest IH]; intros s H; [exact H|].
  simpl. rewrite exec_bind. apply IH.
  destruct (starts_with_dot nm); [exact H|].
  destruct (negb (is_event_name nm)); [exact H | now apply add_dev_wf].
Qed.

(** In every reachable state the invariant of the machine holds and the
    arrays of every tracked device have their [ABS_MAX+1] cells. *)
Lemma reachable_devs_wf s : reachable s -> devs_wf s.
Proof.
  intros (clk & b & rs & _ & ->). rewrite exec_bind.
  assert (H0 : devs_wf (exec (main_setup b) (Sys_init clk))).
  { unfold main_setup. rewrite !exec_bind.
    match goal with |- devs_wf (exec schedule_timer ?x) =>
      unfold devs_wf; destruct (schedule_timer_spec x) as (_ & _ & _ & D & _); rewrite D end.
    apply scan_inputs_wf. constructor. }
  revert H0. generalize (exec (main_setup b) (Sys_init clk)).
  induction rs as [| r rest IH]; intros s H; [exact H|].
  simpl. rewrite exec_bind. apply IH, dispatch_wf, H.
Qed.

(** ** Sample runs *)

Lemma demo_clock_ok : clock_ok demo_clock.
Proof.
  unfold clock_ok, demo_clock. split.
  - intros n. split; [lia|].
    apply Z.le_lt_trans with 1000000000000; [apply Z.le_min_r | reflexivity].
  - intros n m H. apply Z.min_le_compat_r. lia.
Qed.

Lemma demo_started_reachable : reachable demo_started.
Proof.
  exists demo_clock, demo_boot, []. split; [apply demo_clock_ok|].
  unfold demo_started. rewrite exec_bind. exact (eq_sym (exec_ret tt _)).
Qed.

Lemma demo_idle_reachable : reachable demo_idle.
Proof.
  exists demo_clock, demo_boot, [TimerReady]. split; [apply demo_clock_ok|].
  unfold demo_idle. reflexivity.
Qed.

(** The branches of [reevaluate] that enter ACTIVE are there: in a state
    that no run reaches, IDLE with the activity mark at the current reading,
    the re-evaluation enters ACTIVE. *)
Lemma reevaluate_enters_active_off_run :
  state (RT demo_stale) = IDLE /\ state (RT (exec reevaluate demo_stale)) = ACTIVE.
Proof. vm_compute. split; reflexivity. Qed.


(** * The machine as the outside sees it *)

(** ** The calls the state machine issues *)

Lemma enter_out to s :
  out (env (exec (enter to) s))
    = out (env s) ++ (if State_eqb to (state (RT s)) then []
                      else enter_calls (HOOKS_MIRROR s) to).
Proof.
  unfold exec, enter, bind, get_rt.
  destruct (State_eqb to (state (RT s))); [symmetry; apply app_nil_r|].
  unfold enter_calls, write_state, run_hook_roots, emit, modify_env, modify_rt, bind, ret.
  destruct to; cbn [fst snd env out HOOKS_MIRROR RT];
    destruct (String.eqb (HOOKS_MIRROR s) EmptyString); cbn [fst snd env out];
    rewrite <- ?app_assoc; reflexivity.
Qed.

Lemma enter_globals to s :
  HOOKS_MIRROR (exec (enter to) s) = HOOKS_MIRROR s /\
  AXIS_DZ_PCT (exec (enter to) s) = AXIS_DZ_PCT s.
Proof.
  unfold exec, enter, bind, get_rt.
  destruct (State_eqb to (state (RT s))); [split; reflexivity|].
  unfold write_state, run_hook_roots, emit, modify_env, modify_rt, bind, ret.
  destruct to; cbn; destruct (String.eqb (HOOKS_MIRROR s) EmptyString); split; reflexivity.
Qed.

(** The timer is set in whole milliseconds, exactly. *)
Lemma arm_timer_ms_out ms s :
  in_int64 ms ->
  exists sec nsec,
    out (env (exec (arm_timer_ms ms) s)) = out (env s) ++ [ArmTimer sec nsec] /\
    timer_ms (sec, nsec) = Z.max 0 ms /\
    0 <= nsec < 1000000000 /\ nsec mod 1000000 = 0 /\ 0 <= sec.
Proof.
  intros Hr. unfold arm_timer_ms. destruct (Z.ltb_spec 0 ms) as [H | H].
  - exists (Z.quot ms 1000), (wrap64 (Z.rem ms 1000 * 1000000)).
    split; [reflexivity|].
    rewrite Z.quot_div_nonneg, Z.rem_mod_nonneg by lia.
    pose proof (Z.mod_pos_bound ms 1000 ltac:(lia)) as Hm.
    rewrite wrap64_small by (unfold in_int64; lia).
    unfold timer_ms. cbn [fst snd].
    rewrite Z.div_mul by lia. rewrite Z.mod_mul by lia.
    pose proof (Z.div_mod ms 1000 ltac:(lia)).
    pose proof (Z.div_pos ms 1000 ltac:(lia) ltac:(lia)).
    repeat split; lia.
  - exists 0, 0. split; [reflexivity|]. unfold timer_ms. cbn [fst snd].
    change (0 * 1000 + 0 / 1000000) with 0. change (0 mod 1000000) with 0.
    repeat split; lia.
Qed.

Lemma Inv_in_bounds s : Inv s -> in_bounds s.
Proof.
  intros (Hc & Hi & He & Hp & Ha & _). unfold in_bounds.
  split; [exact Hc|]. split; [exact Hi|]. split; [exact He|]. lia.
Qed.

Lemma elapsed_read s :
  in_bounds s -> eval effective_idle_ms s = elapsed_ms s /\ 0 <= elapsed_ms s < 2 ^ 62.
Proof.
  intros ((Hr & _) & _ & _ & Ha). pose proof (Hr (ticks (env s))) as R0.
  destruct (effective_idle_ms_spec s) as (Ev & _). rewrite Ev. cbv zeta.
  unfold sub64, elapsed_ms. rewrite wrap64_small by (unfold in_int64; lia).
  split; [| lia].
  destruct (Z.ltb_spec 0 (clock (env s) (ticks (env s)) - last_activity_ms (RT s))); lia.
Qed.

(** [schedule_timer] sets the timer to what is left of the wait of the
    state, one millisecond at least, and to zero in state EXTENDED. *)
Lemma schedule_timer_due s :
  in_bounds s ->
  exists sec nsec,
    out (env (exec schedule_timer s)) = out (env s) ++ [ArmTimer sec nsec] /\
    timer_ms (sec, nsec)
      = due_ms (state (RT s)) (idle_s (RT s) * 1000) (extended_s (RT s) * 1000)
               (elapsed_ms s) /\
    0 <= nsec < 1000000000 /\ nsec mod 1000000 = 0 /\ 0 <= sec.
Proof.
  intros Hb. destruct (elapsed_read s Hb) as (Ev & He).
  destruct Hb as (Hc & Hi & Hx & Ha).
  unfold schedule_timer. rewrite exec_bind_get_rt.
  assert (Hmul : mul64 (idle_s (RT s)) 1000 = idle_s (RT s) * 1000)
    by (apply wrap64_small; unfold in_int64; lia).
  assert (Hmulx : mul64 (extended_s (RT s)) 1000 = extended_s (RT s) * 1000)
    by (apply wrap64_small; unfold in_int64; lia).
  rewrite Hmul, Hmulx.
  destruct (state (RT s)) eqn:E; cbn [due_ms].
  - rewrite exec_bind, Ev. unfold sub64.
    rewrite wrap64_small by (unfold in_int64; lia).
    set (ms := if 1 <? idle_s (RT s) * 1000 - elapsed_ms s
               then idle_s (RT s) * 1000 - elapsed_ms s else 1).
    assert (Hms : ms = Z.max 1 (idle_s (RT s) * 1000 - elapsed_ms s))
      by (subst ms; destruct (Z.ltb_spec 1 (idle_s (RT s) * 1000 - elapsed_ms s)); lia).
    destruct (arm_timer_ms_out ms (exec effective_idle_ms s)) as (sec & nsec & Ho & Ht & Hn).
    { unfold in_int64. lia. }
    exists sec, nsec. split; [exact Ho|]. split; [| exact Hn]. lia.
  - rewrite exec_bind, Ev. unfold sub64, add64.
    rewrite (wrap64_small (idle_s (RT s) * 1000 + extended_s (RT s) * 1000))
      by (unfold in_int64; lia).
    rewrite wrap64_small by (unfold in_int64; lia).
    set (ms := if 1 <? idle_s (RT s) * 1000 + extended_s (RT s) * 1000 - elapsed_ms s
               then idle_s (RT s) * 1000 + extended_s (RT s) * 1000 - elapsed_ms s else 1).
    assert (Hms : ms = Z.max 1 (idle_s (RT s) * 1000 + extended_s (RT s) * 1000 - elapsed_ms s))
      by (subst ms;
          destruct (Z.ltb_spec 1 (idle_s (RT s) * 1000 + extended_s (RT s) * 1000 - elapsed_ms s));
          lia).
    destruct (arm_timer_ms_out ms (exec effective_idle_ms s)) as (sec & nsec & Ho & Ht & Hn).
    { unfold in_int64. lia. }
    exists sec, nsec. split; [exact Ho|]. split; [| exact Hn]. lia.
  - exists 0, 0. split; [reflexivity|]. unfold timer_ms. cbn [fst snd].
    change (0 * 1000 + 0 / 1000000) with 0. change (0 mod 1000000) with 0.
    repeat split; lia.
Qed.

Lemma enter_same s : exec (enter (state (RT s))) s = s.
Proof. unfold exec, enter, bind, get_rt. now rewrite State_eqb_refl. Qed.

Lemma State_eqb_true a b : State_eqb a b = true -> a = b.
Proof. destruct a, b; simpl; congruence. Qed.

(** The body of [reevaluate] enters the state of the table. *)
Lemma reevaluate_body s :
  Inv s ->
  exec reevaluate s
    = exec schedule_timer
        (exec (enter (after_timer (state (RT s)) (idle_s (RT s) * 1000)
                                  (extended_s (RT s) * 1000) (elapsed_ms s)))
              (exec effective_idle_ms s)).
Proof.
  intros HInv. pose proof HInv as (Hc & Hi & He & Hp & Ha & HI & HE).
  destruct (elapsed_read s (Inv_in_bounds s HInv)) as (Ev & Hel).
  unfold reevaluate. cbv zeta.
  rewrite exec_bind, exec_bind_get_rt, exec_bind, Ev.
  change (RT (exec effective_idle_ms s)) with (RT s).
  assert (Hmul : mul64 (idle_s (RT s)) 1000 = idle_s (RT s) * 1000)
    by (apply wrap64_small; unfold in_int64; lia).
  assert (Hmulx : mul64 (extended_s (RT s)) 1000 = extended_s (RT s) * 1000)
    by (apply wrap64_small; unfold in_int64; lia).
  rewrite Hmul, Hmulx. unfold add64.
  rewrite (wrap64_small (idle_s (RT s) * 1000 + extended_s (RT s) * 1000))
    by (unfold in_int64; lia).
  f_equal. unfold after_timer, elapsed_ms in *.
  set (s1 := exec effective_idle_ms s).
  assert (Hnop : forall st, state (RT s) = st -> exec (ret tt) s1 = exec (enter st) s1).
  { intros st <-. change (state (RT s)) with (state (RT s1)). now rewrite enter_same. }
  destruct (state (RT s)) eqn:Est.
  - destruct (_ <=? _); [reflexivity | now apply Hnop].
  - specialize (HI eq_refl).
    destruct (Z.ltb_spec (clock (env s) (ticks (env s)) - last_activity_ms (RT s))
                (idle_s (RT s) * 1000)); [lia|].
    destruct (_ <=? _); [reflexivity | now apply Hnop].
  - specialize (HE eq_refl).
    destruct (Z.ltb_spec (clock (env s) (ticks (env s)) - last_activity_ms (RT s))
                (idle_s (RT s) * 1000)); [lia|]. now apply Hnop.
Qed.

Lemma reevaluate_table s :
  Inv s ->
  let st' := after_timer (state (RT s)) (idle_s (RT s) * 1000)
                         (extended_s (RT s) * 1000) (elapsed_ms s) in
  let s' := exec reevaluate s in
  state (RT s') = st' /\
  last_activity_ms (RT s') = last_activity_ms (RT s) /\
  last_pulse_ms (RT s') = last_pulse_ms (RT s) /\
  exists sec nsec,
    out (env s') = out (env s)
                   ++ (if State_eqb st' (state (RT s)) then []
                       else enter_calls (HOOKS_MIRROR s) st')
                   ++ [ArmTimer sec nsec] /\
    timer_ms (sec, nsec)
      = due_ms st' (idle_s (RT s) * 1000) (extended_s (RT s) * 1000)
               (clock (env s) (S (ticks (env s))) - last_activity_ms (RT s)).
Proof.
  intros HInv. cbv zeta. rewrite (reevaluate_body s HInv).
  set (st' := after_timer _ _ _ _).
  set (s1 := exec effective_idle_ms s).
  destruct (enter_spec st' s1) as (S2 & (M1 & M2 & M3 & M4 & M5) & T2 & D2 & P2).
  pose proof (enter_out st' s1) as O2.
  set (s2 := exec (enter st') s1) in *.
  destruct (schedule_timer_spec s2) as (S3 & (N1 & N2 & N3 & N4 & N5) & T3 & D3 & P3).
  assert (Hb : in_bounds s2).
  { destruct (Inv_in_bounds s HInv) as (Hc & Hi & He & Ha).
    unfold in_bounds. rewrite M1, M3, M4, M5, T2.
    change (clock (env s1)) with (clock (env s)).
    change (ticks (env s1)) with (S (ticks (env s))).
    change (idle_s (RT s1)) with (idle_s (RT s)).
    change (extended_s (RT s1)) with (extended_s (RT s)).
    change (last_activity_ms (RT s1)) with (last_activity_ms (RT s)).
    split; [exact Hc|]. split; [exact Hi|]. split; [exact He|].
    pose proof (proj2 Hc (ticks (env s)) (S (ticks (env s))) ltac:(lia)). lia. }
  destruct (schedule_timer_due s2 Hb) as (sec & nsec & Ho & Ht & _).
  split; [congruence|]. split; [rewrite N1, M1; reflexivity|].
  split; [rewrite N2, M2; reflexivity|].
  exists sec, nsec. split.
  - rewrite Ho, O2. rewrite <- app_assoc. reflexivity.
  - rewrite Ht, S2, M3, M4. unfold elapsed_ms. rewrite M1, M5, T2. reflexivity.
Qed.

Lemma on_activity_body s :
  (sub64 (clock (env s) (ticks (env s))) (last_pulse_ms (RT s)) <? DEBOUNCE_MS) = false ->
  exec on_activity s
    = exec schedule_timer
        (exec (enter ACTIVE)
           (exec (modify_rt (set_last_activity_ms (clock (env s) (ticks (env s)))))
              (exec (modify_rt (set_last_pulse_ms (clock (env s) (ticks (env s)))))
                 (exec (note_pulse (clock (env s) (ticks (env s))) true)
                    (exec now_ms s))))).
Proof.
  intros H. unfold on_activity.
  rewrite exec_bind, exec_bind_get_rt.
  change (eval now_ms s) with (clock (env s) (ticks (env s))).
  change (last_pulse_ms (RT (exec now_ms s))) with (last_pulse_ms (RT s)).
  rewrite H. do 3 rewrite exec_bind. rewrite exec_bind_get_rt, exec_bind.
  f_equal.
  match goal with |- exec (if State_eqb (state (RT ?x)) ACTIVE then _ else _) _ = _ =>
    set (s4 := x) end.
  destruct (State_eqb (state (RT s4)) ACTIVE) eqn:E; [| reflexivity].
  apply State_eqb_true in E. rewrite <- E, enter_same. reflexivity.
Qed.

(** An accepted pulse: the calls issued are those of the change to ACTIVE,
    if the state was not ACTIVE, and one setting of the timer, to the idle
    timeout less the time the clock gained since the pulse was read. *)
Lemma on_activity_calls s :
  Inv s ->
  3000 <= clock (env s) (ticks (env s)) - last_pulse_ms (RT s) ->
  exists sec nsec,
    out (env (exec on_activity s))
      = out (env s)
        ++ (if State_eqb (state (RT s)) ACTIVE then []
            else enter_calls (HOOKS_MIRROR s) ACTIVE)
        ++ [ArmTimer sec nsec] /\
    timer_ms (sec, nsec)
      = Z.max 1 (idle_s (RT s) * 1000
                 - (clock (env s) (S (ticks (env s))) - clock (env s) (ticks (env s)))).
Proof.
  intros HInv Hacc. pose proof HInv as (Hc & Hi & He & Hp & Ha & _).
  pose proof (proj1 Hc (ticks (env s))) as R0.
  assert (E : (sub64 (clock (env s) (ticks (env s))) (last_pulse_ms (RT s)) <? DEBOUNCE_MS)
              = false).
  { unfold sub64. rewrite wrap64_small by (unfold in_int64; lia).
    apply Z.ltb_ge. unfold DEBOUNCE_MS. lia. }
  rewrite (on_activity_body s E).
  set (now := clock (env s) (ticks (env s))) in *.
  set (s4 := exec (modify_rt (set_last_activity_ms now)) _).
  destruct (enter_spec ACTIVE s4) as (S2 & (M1 & M2 & M3 & M4 & M5) & T2 & D2 & P2).
  pose proof (enter_out ACTIVE s4) as O2.
  set (s5 := exec (enter ACTIVE) s4) in *.
  assert (Hb : in_bounds s5).
  { unfold in_bounds. rewrite M1, M3, M4, M5, T2.
    change (clock (env s4)) with (clock (env s)).
    change (ticks (env s4)) with (S (ticks (env s))).
    change (idle_s (RT s4)) with (idle_s (RT s)).
    change (extended_s (RT s4)) with (extended_s (RT s)).
    change (last_activity_ms (RT s4)) with now.
    split; [exact Hc|]. split; [exact Hi|]. split; [exact He|].
    pose proof (proj2 Hc (ticks (env s)) (S (ticks (env s))) ltac:(lia)). subst now. lia. }
  destruct (schedule_timer_due s5 Hb) as (sec & nsec & Ho & Ht & _).
  exists sec, nsec. split.
  - rewrite Ho, O2, <- app_assoc.
    change (out (env s4)) with (out (env s)).
    change (state (RT s4)) with (state (RT s)).
    change (HOOKS_MIRROR s4) with (HOOKS_MIRROR s).
    destruct (state (RT s)); reflexivity.
  - rewrite Ht, S2, M3. unfold elapsed_ms. rewrite M1, M5, T2. reflexivity.
Qed.

(** *** What the outside sees *)

Lemma state_file_app o k :
  state_file (o ++ k) = match state_file k with Some v => Some v | None => state_file o end.
Proof. unfold state_file. rewrite omap_app. apply last_app. Qed.

Lemma timer_setting_app o k :
  timer_setting (o ++ k)
    = match timer_setting k with Some v => Some v | None => timer_setting o end.
Proof. unfold timer_setting. rewrite omap_app. apply last_app. Qed.

Lemma registry_calls_silent k :
  forallb registry_call k = true -> state_file k = None /\ timer_setting k = None.
Proof.
  unfold state_file, timer_setting.
  induction k as [| e k IH]; intros H; [split; reflexivity|].
  simpl in H. apply andb_prop in H as [He Hk]. destruct (IH Hk) as [I1 I2].
  destruct e; try discriminate; simpl; split; assumption.
Qed.

Lemma enter_calls_state_file m to : state_file (enter_calls m to) = Some (state_digit to).
Proof. unfold enter_calls. destruct (String.eqb m EmptyString); reflexivity. Qed.

Lemma enter_calls_timer m to : timer_setting (enter_calls m to) = None.
Proof. unfold enter_calls. destruct (String.eqb m EmptyString); reflexivity. Qed.

Lemma published_registry_step s s' : published s -> registry_step s s' -> published s'.
Proof.
  intros (Hf & t & Ht & Hz) ((Es & _) & k & Ho & Hk).
  destruct (registry_calls_silent k Hk) as [K1 K2].
  unfold published. rewrite Ho, state_file_app, timer_setting_app, K1, K2, Es.
  split; [exact Hf|]. exists t. split; assumption.
Qed.

(** After a change of state and a setting of the timer the outside sees
    the machine as it is. *)
Lemma published_enter_schedule to s :
  state_file (out (env s)) = Some (state_digit (state (RT s))) ->
  in_bounds (exec (enter to) s) ->
  published (exec schedule_timer (exec (enter to) s)).
Proof.
  intros Hf Hb.
  destruct (enter_spec to s) as (S2 & _).
  pose proof (enter_out to s) as O2.
  set (s2 := exec (enter to) s) in *.
  destruct (schedule_timer_spec s2) as (S3 & _).
  destruct (schedule_timer_due s2 Hb) as (sec & nsec & Ho & Ht & Hn & Hm & Hs).
  unfold published. rewrite Ho, state_file_app, timer_setting_app, S3.
  change (state_file [ArmTimer sec nsec]) with (@None Z).
  change (timer_setting [ArmTimer sec nsec]) with (Some (sec, nsec)).
  split.
  - rewrite O2, state_file_app, S2.
    destruct (State_eqb to (state (RT s))) eqn:E.
    + apply State_eqb_true in E. rewrite E. exact Hf.
    + now rewrite enter_calls_state_file.
  - exists (sec, nsec). split; [reflexivity|].
    unfold timer_ms in Ht. cbn [fst snd] in Ht.
    destruct Hb as (_ & Hi & He & _).
    destruct (state (RT s2)) eqn:E2; cbn [due_ms] in Ht.
    + split; [intros [= -> ->]; change (0 * 1000 + 0 / 1000000) with 0 in Ht; lia
             | discriminate].
    + split; [intros [= -> ->]; change (0 * 1000 + 0 / 1000000) with 0 in Ht; lia
             | discriminate].
    + split; [reflexivity|]. intros _.
      pose proof (Z.div_mod nsec 1000000 ltac:(lia)).
      pose proof (Z.div_pos nsec 1000000 ltac:(lia) ltac:(lia)).
      f_equal; lia.
Qed.

Lemma in_bounds_enter to s : in_bounds s -> in_bounds (exec (enter to) s).
Proof.
  intros (Hc & Hi & He & Ha).
  destruct (enter_spec to s) as (_ & (M1 & M2 & M3 & M4 & M5) & T2 & _).
  unfold in_bounds. rewrite M1, M3, M4, M5, T2.
  split; [exact Hc|]. split; [exact Hi|]. split; [exact He|]. exact Ha.
Qed.

Lemma in_bounds_tick s : in_bounds s -> in_bounds (exec effective_idle_ms s).
Proof.
  intros (Hc & Hi & He & Ha). unfold in_bounds.
  change (clock (env (exec effective_idle_ms s))) with (clock (env s)).
  change (ticks (env (exec effective_idle_ms s))) with (S (ticks (env s))).
  change (RT (exec effective_idle_ms s)) with (RT s).
  split; [exact Hc|]. split; [exact Hi|]. split; [exact He|].
  pose proof (proj2 Hc (ticks (env s)) (S (ticks (env s))) ltac:(lia)). lia.
Qed.

Lemma reevaluate_published s : Inv s -> published s -> published (exec reevaluate s).
Proof.
  intros HInv (Hf & _). rewrite (reevaluate_body s HInv).
  apply published_enter_schedule; [exact Hf|].
  apply in_bounds_enter, in_bounds_tick, Inv_in_bounds, HInv.
Qed.

Lemma on_activity_published s : Inv s -> published s -> published (exec on_activity s).
Proof.
  intros HInv Hp.
  destruct (sub64 (clock (env s) (ticks (env s))) (last_pulse_ms (RT s)) <? DEBOUNCE_MS) eqn:E.
  - rewrite (on_activity_rejected s E). exact Hp.
  - rewrite (on_activity_body s E). destruct Hp as (Hf & _).
    apply published_enter_schedule; [exact Hf|]. apply in_bounds_enter.
    destruct HInv as (Hc & Hi & He & Hp & Ha & _). unfold in_bounds.
    cbn [exec modify_rt note_pulse modify_env now_ms snd RT env clock ticks
         set_last_activity_ms set_last_pulse_ms idle_s extended_s last_activity_ms].
    split; [exact Hc|]. split; [exact Hi|]. split; [exact He|].
    pose proof (proj1 Hc (ticks (env s))).
    pose proof (proj2 Hc (ticks (env s)) (S (ticks (env s))) ltac:(lia)). lia.
Qed.

(** *** Steps of the registry *)

Lemma registry_step_refl s : registry_step s s.
Proof.
  split; [apply dev_only_refl|]. exists []. split; [symmetry; apply app_nil_r | reflexivity].
Qed.

Lemma registry_step_trans s1 s2 s3 :
  registry_step s1 s2 -> registry_step s2 s3 -> registry_step s1 s3.
Proof.
  intros (D1 & k1 & O1 & K1) (D2 & k2 & O2 & K2).
  split; [eapply dev_only_trans; eassumption|].
  exists (k1 ++ k2). split; [rewrite O2, O1, app_assoc; reflexivity|].
  rewrite forallb_app, K1, K2. reflexivity.
Qed.

Lemma set_dev_registry_step i d s : registry_step s (exec (set_dev i d) s).
Proof.
  split; [apply set_dev_dev_only|]. exists []. split; [symmetry; apply app_nil_r | reflexivity].
Qed.

Lemma erase_dev_registry_step idx s : registry_step s (exec (erase_dev idx) s).
Proof.
  split; [apply erase_dev_dev_only|].
  exists [EpollDel (fd (devices (RT s) !!! idx)); Close (fd (devices (RT s) !!! idx))].
  split; [| reflexivity]. cbn. rewrite <- app_assoc. reflexivity.
Qed.

Lemma del_dev_fd_registry_step f s : registry_step s (exec (del_dev_fd f) s).
Proof.
  unfold del_dev_fd. rewrite exec_bind_get_rt.
  destruct (dev_index_by_fd f (devices (RT s)));
    [apply erase_dev_registry_step | apply registry_step_refl].
Qed.

Lemma del_dev_registry_step p s : registry_step s (exec (del_dev p) s).
Proof.
  unfold del_dev. rewrite exec_bind_get_rt.
  destruct (dev_index_by_path p (devices (RT s)));
    [apply erase_dev_registry_step | apply registry_step_refl].
Qed.

Lemma add_dev_registry_step p o s : registry_step s (exec (add_dev p o) s).
Proof.
  split; [apply add_dev_dev_only|]. unfold add_dev.
  destruct (open_fd o <? 0); [exists []; split; [symmetry; apply app_nil_r | reflexivity]|].
  rewrite exec_bind. destruct (negb (epoll_add_ok o)).
  - exists [EpollAdd (open_fd o); Close (open_fd o)]. split; [| reflexivity].
    cbn. rewrite <- app_assoc. reflexivity.
  - exists [EpollAdd (open_fd o)]. split; reflexivity.
Qed.

Lemma scan_inputs_registry_step entries s :
  registry_step s (exec (scan_inputs entries) s).
Proof.
  revert s. induction entries as [| [nm o] rest IH]; intros s; [apply registry_step_refl|].
  simpl. rewrite exec_bind. refine (registry_step_trans _ _ _ _ (IH _)).
  destruct (starts_with_dot nm); [apply registry_step_refl|].
  destruct (negb (is_event_name nm)); [apply registry_step_refl | apply add_dev_registry_step].
Qed.

Lemma watch_record_registry_step r s : registry_step s (exec (watch_record r) s).
Proof.
  destruct r as [e o]. unfold watch_record.
  destruct (negb (len e =? 0) && is_event_name (name e)); [| apply registry_step_refl].
  rewrite exec_bind.
  match goal with |- registry_step _ (exec ?m2 (exec ?m1 _)) =>
    assert (H1 : registry_step s (exec m1 s));
    [| assert (H2 : forall s', registry_step s' (exec m2 s'));
       [| exact (registry_step_trans _ _ _ H1 (H2 _))]]
  end.
  - destruct (negb (Z.land (mask e) IN_CREATE =? 0));
      [apply add_dev_registry_step | apply registry_step_refl].
  - intros s'. destruct (negb (Z.land (mask e) IN_DELETE =? 0));
      [apply del_dev_registry_step | apply registry_step_refl].
Qed.

Lemma watch_records_registry_step recs s :
  registry_step s (exec (watch_records recs) s).
Proof.
  revert s. induction recs as [| r rest IH]; intros s; [apply registry_step_refl|].
  simpl. rewrite exec_bind.
  exact (registry_step_trans _ _ _ (watch_record_registry_step r s) (IH _)).
Qed.

(** *** The invariant with what the outside sees *)

Lemma registry_step_live s s' :
  Inv s /\ published s -> registry_step s s' -> Inv s' /\ published s'.
Proof.
  intros [HI HP] H. split.
  - exact (Inv_dev_only s s' HI (proj1 H)).
  - exact (published_registry_step s s' HP H).
Qed.

Lemma on_activity_live s :
  Inv s /\ published s -> Inv (exec on_activity s) /\ published (exec on_activity s).
Proof.
  intros [HI HP]. split; [apply on_activity_Inv, HI | now apply on_activity_published].
Qed.

Lemma handle_event_live i e p s :
  Inv s /\ published s ->
  Inv (exec (handle_event i e p) s) /\ published (exec (handle_event i e p) s).
Proof.
  intros H. unfold handle_event.
  destruct p; [exact H|].
  destruct (type e =? EV_SYN); [exact H|].
  destruct ((type e =? EV_KEY) || (type e =? EV_REL)).
  { rewrite exec_seq_ret. now apply on_activity_live. }
  destruct (type e =? EV_ABS); [| exact H].
  rewrite exec_bind.
  change (eval (get_dev i) s) with (devices (RT s) !!! i).
  change (exec (get_dev i) s) with s.
  set (dv := devices (RT s) !!! i) in *.
  destruct (negb (cell (abs_seen dv) (code e))).
  { rewrite exec_seq_ret. exact (registry_step_live _ _ H (set_dev_registry_step _ _ _)). }
  cbv zeta.
  destruct (is_hat_abs (code e)).
  - destruct (negb (_ =? 0)); [| exact H].
    rewrite exec_bind, exec_seq_ret.
    exact (on_activity_live _ (registry_step_live _ _ H (set_dev_registry_step _ _ _))).
  - destruct (_ <=? abs32 _); [| exact H].
    rewrite exec_bind, exec_seq_ret.
    exact (on_activity_live _ (registry_step_live _ _ H (set_dev_registry_step _ _ _))).
Qed.

Lemma handle_events_live i evs p s :
  Inv s /\ published s ->
  Inv (exec (handle_events i evs p) s) /\ published (exec (handle_events i evs p) s).
Proof.
  revert p s. induction evs as [| e rest IH]; intros p s H; [exact H|].
  unfold exec. rewrite handle_events_cons. apply IH, handle_event_live, H.
Qed.

Lemma handle_reads_live f i reads p s :
  Inv s /\ published s ->
  Inv (exec (handle_reads f i reads p) s) /\ published (exec (handle_reads f i reads p) s).
Proof.
  revert p s. induction reads as [| r rest IH]; intros p s H; [exact H|].
  destruct r as [evs | | |].
  - unfold exec. rewrite handle_reads_data. apply IH, handle_events_live, H.
  - exact H.
  - simpl. rewrite exec_seq_ret.
    exact (registry_step_live _ _ H (del_dev_fd_registry_step _ _)).
  - simpl. rewrite exec_seq_ret.
    exact (registry_step_live _ _ H (del_dev_fd_registry_step _ _)).
Qed.

Lemma dispatch_live r s :
  Inv s /\ published s -> Inv (exec (dispatch r) s) /\ published (exec (dispatch r) s).
Proof.
  intros H. destruct r as [| recs | f reads]; simpl.
  - destruct H as [HI HP]. split; [apply reevaluate_spec, HI | now apply reevaluate_published].
  - exact (registry_step_live _ _ H (watch_records_registry_step _ _)).
  - rewrite exec_seq_ret. unfold handle_input. rewrite exec_bind_get_rt.
    destruct (dev_index_by_fd f (devices (RT s))); [now apply handle_reads_live | exact H].
Qed.

Lemma main_setup_published clk b : clock_ok clk -> published (exec (main_setup b) (Sys_init clk)).
Proof.
  intros Hc. unfold main_setup.
  destruct (read_config_range (boot_strtod b) (boot_config b)) as [Hi He].
  set (c := read_config_or_defaults (boot_strtod b) (boot_config b)) in *.
  clearbody c. rewrite !exec_bind.
  match goal with |- published (exec schedule_timer (exec (scan_inputs ?es) ?x)) =>
    set (s1 := x); pose proof (scan_inputs_registry_step es s1) as Hstep end.
  set (s2 := exec (scan_inputs (boot_entries b)) s1) in *.
  destruct Hstep as ((Es & (M1 & M2 & M3 & M4 & M5) & Et & _) & k & Ho & Hk).
  destruct (registry_calls_silent k Hk) as [K1 _].
  rewrite <- (enter_same s2).
  apply published_enter_schedule.
  - rewrite Ho, state_file_app, K1, Es. reflexivity.
  - rewrite enter_same. unfold in_bounds. rewrite M1, M3, M4, M5, Et.
    destruct Hc as [Hr Hm]. pose proof (Hr O). pose proof (Hm O 1%nat ltac:(lia)).
    cbn.
    change (eval now_ms (exec (load_config c) (Sys_init clk))) with (clk O).
    split; [split; assumption|]. split; [exact Hi|]. split; [exact He|]. lia.
Qed.

Lemma reachable_live s : reachable s -> Inv s /\ published s.
Proof.
  intros (clk & b & rs & Hc & ->). rewrite exec_bind.
  assert (H0 : Inv (exec (main_setup b) (Sys_init clk))
               /\ published (exec (main_setup b) (Sys_init clk)))
    by (split; [apply main_setup_Inv | apply main_setup_published]; exact Hc).
  revert H0. generalize (exec (main_setup b) (Sys_init clk)).
  induction rs as [| r rest IH]; intros s H; [exact H|].
  simpl. rewrite exec_bind. apply IH, dispatch_live, H.
Qed.

(** ** Searching the registry *)

Lemma index_where_Some {A} (p : A -> bool) l i :
  index_where p l = Some i ->
  exists x, l !! i = Some x /\ p x = true /\
            l = take i l ++ x :: drop (S i) l /\
            forallb (fun y => negb (p y)) (take i l) = true.
Proof.
  revert i. induction l as [| y l IH]; intros i H; [discriminate|].
  simpl in H. destruct (p y) eqn:E.
  - injection H as <-. exists y. repeat split; assumption || (simpl; now rewrite ?drop_0).
  - destruct (index_where p l) as [j |] eqn:Ej; [| discriminate].
    injection H as <-. destruct (IH j eq_refl) as (x & Hx & Hp & Hl & Hn).
    exists x. split; [exact Hx|]. split; [exact Hp|]. split.
    + simpl. f_equal. exact Hl.
    + simpl. now rewrite E, Hn.
Qed.

Lemma index_where_None {A} (p : A -> bool) l :
  index_where p l = None <-> forallb (fun y => negb (p y)) l = true.
Proof.
  induction l as [| y l IH]; [split; reflexivity|].
  simpl. destruct (p y); simpl.
  - split; discriminate.
  - rewrite <- IH. destruct (index_where p l); simpl; split; congruence.
Qed.

Lemma index_where_middle {A} (p : A -> bool) l1 x l2 :
  forallb (fun y => negb (p y)) l1 = true -> p x = true ->
  index_where p (l1 ++ x :: l2) = Some (length l1).
Proof.
  intros H Hx. induction l1 as [| y l1 IH]; simpl in *; [now rewrite Hx|].
  apply andb_prop in H as [Hy H]. apply negb_true_iff in Hy. rewrite Hy, (IH H). reflexivity.
Qed.

Lemma index_where_insert {A} (p : A -> bool) l i x :
  index_where p l = Some i -> p x = true -> index_where p (<[ i := x ]> l) = Some i.
Proof.
  intros H Hx. destruct (index_where_Some p l i H) as (y & Hy & Hp & Hl & Hn).
  pose proof (lookup_lt_Some _ _ _ Hy) as Hi.
  rewrite insert_take_drop by exact Hi.
  replace i with (length (take i l)) at 3 by (rewrite length_take; lia).
  now apply index_where_middle.
Qed.

Lemma delete_insert_same {A} (l : list A) i x : delete i (<[ i := x ]> l) = delete i l.
Proof.
  revert i. induction l as [| y l IH]; intros [| i]; simpl; try reflexivity.
  f_equal. apply IH.
Qed.

(** ** One read batch in detail *)

Lemma handle_events_flag i evs s :
  let r := handle_events i evs false s in
  (fst r = false /\ dev_only s (snd r)) \/
  (fst r = true /\
   exists b, pulses (env (snd r)) = pulses (env s) ++ [(clock (env s) (ticks (env s)), b)]).
Proof.
  cbv zeta. destruct (handle_events_shape i evs s) as [H | (E & s1 & D & X)]; [left; exact H|].
  right. split; [exact E|]. rewrite X.
  destruct (on_activity_pulses s1) as (_ & b & Hb).
  destruct D as (_ & (_ & _ & _ & _ & Ec) & Et & Ep & _).
  exists b. rewrite Hb, Ec, Et, Ep. reflexivity.
Qed.

Lemma handle_reads_pulsed f i reads s :
  pulses (env (exec (handle_reads f i reads true) s)) = pulses (env s).
Proof.
  pose proof (handle_reads_shape f i reads true s) as H. cbv zeta in H.
  destruct H as (_ & _ & _ & Ep & _). exact Ep.
Qed.

Lemma key_event_pulses i e s :
  type e = EV_KEY \/ type e = EV_REL -> fst (handle_event i e false s) = true.
Proof.
  intros H. unfold handle_event.
  assert (E1 : (type e =? EV_SYN) = false) by (destruct H as [-> | ->]; reflexivity).
  assert (E2 : (type e =? EV_KEY) || (type e =? EV_REL) = true)
    by (destruct H as [-> | ->]; reflexivity).
  rewrite E1, E2. apply (eval_seq_ret on_activity true s).
Qed.

Lemma handle_events_key i evs s :
  Exists (fun e => type e = EV_KEY \/ type e = EV_REL) evs ->
  fst (handle_events i evs false s) = true.
Proof.
  revert s. induction evs as [| e rest IH]; intros s H; [inversion H|].
  rewrite handle_events_cons.
  destruct (fst (handle_event i e false s)) eqn:E.
  - now rewrite handle_events_pulsed.
  - apply IH. inversion H as [? ? Hk | ? ? Hr]; subst; [| exact Hr].
    rewrite (key_event_pulses i e s Hk) in E. discriminate.
Qed.

Lemma handle_reads_key f i chunks rest s :
  Exists (fun e => type e = EV_KEY \/ type e = EV_REL) (concat chunks) ->
  exists b,
    pulses (env (exec (handle_reads f i (map RData chunks ++ rest) false) s))
      = pulses (env s) ++ [(clock (env s) (ticks (env s)), b)].
Proof.
  revert s. induction chunks as [| evs more IH]; intros s H; [inversion H|].
  simpl map. simpl app. unfold exec. rewrite handle_reads_data.
  fold (exec (handle_reads f i (map RData more ++ rest) (fst (handle_events i evs false s)))
             (snd (handle_events i evs false s))).
  destruct (handle_events_flag i evs s) as [(E & D) | (E & b & Hb)]; rewrite E.
  - simpl in H. apply Exists_app in H as [H | H].
    + rewrite (handle_events_key i evs s H) in E. discriminate.
    + destruct (IH (snd (handle_events i evs false s)) H) as (b & Hb).
      destruct D as (_ & (_ & _ & _ & _ & Ec) & Et & Ep & _).
      exists b. rewrite Hb, Ec, Et, Ep. reflexivity.
  - exists b. rewrite handle_reads_pulsed. exact Hb.
Qed.

Lemma handle_event_other i e p s :
  type e <> EV_KEY -> type e <> EV_REL -> type e <> EV_ABS ->
  handle_event i e p s = (p, s).
Proof.
  intros H1 H2 H3. unfold handle_event. destruct p; [reflexivity|].
  destruct (type e =? EV_SYN); [reflexivity|].
  destruct (Z.eqb_spec (type e) EV_KEY); [contradiction|].
  destruct (Z.eqb_spec (type e) EV_REL); [contradiction|].
  destruct (Z.eqb_spec (type e) EV_ABS); [contradiction|]. reflexivity.
Qed.

Lemma handle_events_other i evs p s :
  Forall (fun e => type e <> EV_KEY /\ type e <> EV_REL /\ type e <> EV_ABS) evs ->
  handle_events i evs p s = (p, s).
Proof.
  induction 1 as [| e rest (H1 & H2 & H3) _ IH]; [reflexivity|].
  rewrite handle_events_cons, (handle_event_other i e p s H1 H2 H3). exact IH.
Qed.

Lemma handle_reads_other f i chunks rest p s :
  Forall (fun e => type e <> EV_KEY /\ type e <> EV_REL /\ type e <> EV_ABS)
         (concat chunks) ->
  handle_reads f i (map RData chunks ++ RAgain :: rest) p s = (rest, s).
Proof.
  induction chunks as [| evs more IH]; intros H; [reflexivity|].
  simpl in H. apply Forall_app in H as [H1 H2].
  simpl map. simpl app. rewrite handle_reads_data, (handle_events_other i evs p s H1).
  exact (IH H2).
Qed.

(** *** What a batch does to the registry *)

Lemma on_activity_devices s : devices (RT (exec on_activity s)) = devices (RT s).
Proof. exact (proj1 (on_activity_pulses s)). Qed.

Lemma handle_event_devices i e p s l d :
  devices (RT s) = <[ i := d ]> l -> (i < length l)%nat ->
  exists d', devices (RT (exec (handle_event i e p) s)) = <[ i := d' ]> l /\
             fd d' = fd d /\ path d' = path d.
Proof.
  intros Hl Hi.
  assert (Keep : exists d', devices (RT s) = <[ i := d' ]> l /\ fd d' = fd d /\ path d' = path d)
    by (exists d; repeat split; exact Hl).
  assert (Hget : devices (RT s) !!! i = d)
    by (rewrite Hl; now apply list_lookup_total_insert_eq).
  assert (Put : forall x, fd x = fd d -> path x = path d ->
            exists d', devices (RT (exec (set_dev i x) s)) = <[ i := d' ]> l /\
                       fd d' = fd d /\ path d' = path d).
  { intros x F P. exists x. split; [| split; assumption].
    cbn. rewrite Hl. apply list_insert_insert_eq. }
  unfold handle_event.
  destruct p; [exact Keep|].
  destruct (type e =? EV_SYN); [exact Keep|].
  destruct ((type e =? EV_KEY) || (type e =? EV_REL)).
  { rewrite exec_seq_ret, on_activity_devices. exact Keep. }
  destruct (type e =? EV_ABS); [| exact Keep].
  rewrite exec_bind.
  change (eval (get_dev i) s) with (devices (RT s) !!! i).
  change (exec (get_dev i) s) with s. rewrite Hget.
  destruct (negb (cell (abs_seen d) (code e))).
  { rewrite exec_seq_ret. apply Put; reflexivity. }
  cbv zeta.
  destruct (is_hat_abs (code e)).
  - destruct (negb (_ =? 0)); [| exact Keep].
    rewrite exec_bind, exec_seq_ret, on_activity_devices. apply Put; reflexivity.
  - destruct (_ <=? abs32 _); [| exact Keep].
    rewrite exec_bind, exec_seq_ret, on_activity_devices. apply Put; reflexivity.
Qed.

Lemma handle_events_devices i evs p s l d :
  devices (RT s) = <[ i := d ]> l -> (i < length l)%nat ->
  exists d', devices (RT (exec (handle_events i evs p) s)) = <[ i := d' ]> l /\
             fd d' = fd d /\ path d' = path d.
Proof.
  revert p s d. induction evs as [| e rest IH]; intros p s d Hl Hi.
  - exists d. repeat split; exact Hl.
  - unfold exec. rewrite handle_events_cons.
    destruct (handle_event_devices i e p s l d Hl Hi) as (d1 & H1 & F1 & P1).
    destruct (IH (fst (handle_event i e p s)) (snd (handle_event i e p s)) d1 H1 Hi)
      as (d2 & H2 & F2 & P2).
    exists d2. split; [exact H2|]. split; congruence.
Qed.

Lemma del_dev_fd_found f i s :
  dev_index_by_fd f (devices (RT s)) = Some i ->
  devices (RT (exec (del_dev_fd f) s)) = delete i (devices (RT s)) /\
  out (env (exec (del_dev_fd f) s)) = out (env s) ++ [EpollDel f; Close f].
Proof.
  intros H. unfold del_dev_fd. rewrite exec_bind_get_rt, H.
  destruct (index_where_Some _ _ _ H) as (x & Hx & Hp & _).
  apply Z.eqb_eq in Hp.
  split; [reflexivity|]. cbn.
  rewrite (list_lookup_total_correct _ _ _ Hx), Hp, <- app_assoc. reflexivity.
Qed.

Lemma handle_reads_lost f i chunks r rest p s l d :
  r = RError \/ r = REof ->
  dev_index_by_fd f l = Some i -> fd d = f ->
  devices (RT s) = <[ i := d ]> l ->
  let res := handle_reads f i (map RData chunks ++ r :: rest) p s in
  fst res = rest /\
  devices (RT (snd res)) = delete i l /\
  exists o, out (env (snd res)) = o ++ [EpollDel f; Close f].
Proof.
  intros Hr Hidx Hf. revert p s d Hf.
  assert (Hi : (i < length l)%nat).
  { destruct (index_where_Some _ _ _ Hidx) as (x & Hx & _). exact (lookup_lt_Some _ _ _ Hx). }
  induction chunks as [| evs more IH]; intros p s d Hf Hl; cbv zeta.
  - assert (Hfound : dev_index_by_fd f (devices (RT s)) = Some i).
    { rewrite Hl. apply index_where_insert; [exact Hidx | now apply Z.eqb_eq]. }
    destruct (del_dev_fd_found f i s Hfound) as (Hd & Ho).
    assert (E : handle_reads f i ([] ++ r :: rest) p s = (rest, exec (del_dev_fd f) s))
      by (destruct Hr as [-> | ->]; apply run_seq_ret).
    simpl map. rewrite E. cbn [fst snd].
    split; [reflexivity|]. split.
    + rewrite Hd, Hl. apply delete_insert_same.
    + eexists. exact Ho.
  - simpl map. simpl app. rewrite handle_reads_data.
    destruct (handle_events_devices i evs p s l d Hl Hi) as (d1 & H1 & F1 & _).
    apply (IH _ _ d1); [congruence | exact H1].
Qed.

(** ** The registry *)

Lemma del_dev_found p i s :
  dev_index_by_path p (devices (RT s)) = Some i ->
  devices (RT (exec (del_dev p) s)) = delete i (devices (RT s)) /\
  out (env (exec (del_dev p) s))
    = out (env s) ++ [EpollDel (fd (devices (RT s) !!! i));
                      Close (fd (devices (RT s) !!! i))].
Proof.
  intros H. unfold del_dev. rewrite exec_bind_get_rt, H.
  split; [reflexivity|]. cbn. rewrite <- app_assoc. reflexivity.
Qed.

Lemma del_dev_absent p s :
  dev_index_by_path p (devices (RT s)) = None -> exec (del_dev p) s = s.
Proof. intros H. unfold del_dev. rewrite exec_bind_get_rt, H. reflexivity. Qed.

Lemma filter_none {A} (p : A -> bool) l :
  forallb (fun y => negb (p y)) l = true ->
  List.filter p l = [] /\ List.filter (fun y => negb (p y)) l = l.
Proof.
  induction l as [| y l IH]; intros H; [split; reflexivity|].
  simpl in H. apply andb_prop in H as [Hy H]. destruct (IH H) as [I1 I2].
  simpl. rewrite Hy. apply negb_true_iff in Hy. rewrite Hy, I1, I2. split; reflexivity.
Qed.

Lemma add_dev_new p o s :
  0 <= open_fd o -> epoll_add_ok o = true ->
  exists d, devices (RT (exec (add_dev p o) s)) = devices (RT s) ++ [d] /\
            fd d = open_fd o /\ path d = p /\ wf_dev d /\
            abs_seen d = replicate ABS_CNT false /\
            out (env (exec (add_dev p o) s)) = out (env s) ++ [EpollAdd (open_fd o)].
Proof.
  intros Hf He.
  exists (init_abs_info (AXIS_DZ_PCT s) (absinfo o) (with_fd_path (open_fd o) p Dev_new)).
  split; [now apply add_dev_registered|].
  destruct (init_abs_info_frame (AXIS_DZ_PCT s) (absinfo o)
              (with_fd_path (open_fd o) p Dev_new) (with_fd_path_wf _ _)) as (F & P & W).
  split; [exact F|]. split; [exact P|]. split; [exact W|]. split.
  - unfold init_abs_info.
    match goal with |- context [fold_left ?f ?l ?d0] =>
      destruct (fold_init_axis_frame (AXIS_DZ_PCT s) (absinfo o) l d0)
        as (_ & _ & _ & A4 & _) end.
    cbv zeta in A4. rewrite A4. reflexivity.
  - unfold add_dev. destruct (Z.ltb_spec (open_fd o) 0); [lia|].
    rewrite exec_bind, He. reflexivity.
Qed.

(** *** Devices stay as discovery left them *)

Lemma axis_dz_floor pct span : AXIS_DZ_MIN <= axis_dz pct span.
Proof.
  unfold axis_dz. destruct (0 <? span); [| unfold AXIS_DZ_MIN, AXIS_DZ_BADSPAN; lia].
  destruct (Z.ltb_spec (wrap32 (lround (dmul (double_of_Z span) pct))) AXIS_DZ_MIN); lia.
Qed.

Lemma init_abs_info_sound pct reply f nm :
  0 <= f -> is_event_name nm = true ->
  sound_dev (init_abs_info pct reply (with_fd_path f (INPUT_DIR +:+ "/" +:+ nm) Dev_new)).
Proof.
  intros Hf Hn.
  destruct (init_abs_info_frame pct reply
              (with_fd_path f (INPUT_DIR +:+ "/" +:+ nm) Dev_new) (with_fd_path_wf _ _))
    as (F & P & _).
  unfold sound_dev. rewrite F, P.
  split; [exact Hf|]. split; [exists nm; split; [exact Hn | reflexivity]|].
  intros c Hc. rewrite (init_abs_info_dz pct reply _ c Hc). unfold stored_dz.
  destruct (reply c) as [[mn mx] |].
  - destruct (is_hat_abs c); split; try discriminate; auto.
    right. apply axis_dz_floor.
  - split; auto.
Qed.

Lemma Forall_insert_found {A} (P : A -> Prop) l i x :
  Forall P l -> (forall y, l !! i = Some y -> P x) -> Forall P (<[ i := x ]> l).
Proof.
  intros H Hx. destruct (l !! i) as [y |] eqn:E.
  - apply Forall_insert; [exact H | exact (Hx y eq_refl)].
  - rewrite list_insert_ge; [exact H|]. now apply lookup_ge_None.
Qed.

Lemma set_dev_sound i x s :
  devs_sound s ->
  fd x = fd (devices (RT s) !!! i) -> path x = path (devices (RT s) !!! i) ->
  abs_dz x = abs_dz (devices (RT s) !!! i) ->
  devs_sound (exec (set_dev i x) s).
Proof.
  intros H F P Z. unfold devs_sound. cbn. apply Forall_insert_found; [exact H|].
  intros y Hy. rewrite (list_lookup_total_correct _ _ _ Hy) in F, P, Z.
  pose proof (proj1 (Forall_lookup _ _) H i y Hy) as (S1 & S2 & S3).
  unfold sound_dev. rewrite F, P, Z. split; [exact S1|]. split; [exact S2 | exact S3].
Qed.

Lemma on_activity_sound s : devs_sound s -> devs_sound (exec on_activity s).
Proof. unfold devs_sound. now rewrite on_activity_devices. Qed.

Lemma handle_event_sound i e p s : devs_sound s -> devs_sound (exec (handle_event i e p) s).
Proof.
  intros H. unfold handle_event.
  destruct p; [exact H|].
  destruct (type e =? EV_SYN); [exact H|].
  destruct ((type e =? EV_KEY) || (type e =? EV_REL)).
  { rewrite exec_seq_ret. now apply on_activity_sound. }
  destruct (type e =? EV_ABS); [| exact H].
  rewrite exec_bind.
  change (eval (get_dev i) s) with (devices (RT s) !!! i).
  change (exec (get_dev i) s) with s.
  destruct (negb (cell (abs_seen (devices (RT s) !!! i)) (code e))).
  { rewrite exec_seq_ret. apply set_dev_sound; [exact H | reflexivity ..]. }
  cbv zeta.
  destruct (is_hat_abs (code e)).
  - destruct (negb (_ =? 0)); [| exact H].
    rewrite exec_bind, exec_seq_ret.
    apply on_activity_sound, set_dev_sound; [exact H | reflexivity ..].
  - destruct (_ <=? abs32 _); [| exact H].
    rewrite exec_bind, exec_seq_ret.
    apply on_activity_sound, set_dev_sound; [exact H | reflexivity ..].
Qed.

Lemma handle_events_sound i evs p s :
  devs_sound s -> devs_sound (exec (handle_events i evs p) s).
Proof.
  revert p s. induction evs as [| e rest IH]; intros p s H; [exact H|].
  unfold exec. rewrite handle_events_cons. apply IH, handle_event_sound, H.
Qed.

Lemma erase_dev_sound idx s : devs_sound s -> devs_sound (exec (erase_dev idx) s).
Proof. intros H. unfold devs_sound. simpl. now apply Forall_delete. Qed.

Lemma del_dev_fd_sound f s : devs_sound s -> devs_sound (exec (del_dev_fd f) s).
Proof.
  intros H. unfold del_dev_fd. rewrite exec_bind_get_rt.
  destruct (dev_index_by_fd f (devices (RT s))); [now apply erase_dev_sound | exact H].
Qed.

Lemma del_dev_sound p s : devs_sound s -> devs_sound (exec (del_dev p) s).
Proof.
  intros H. unfold del_dev. rewrite exec_bind_get_rt.
  destruct (dev_index_by_path p (devices (RT s))); [now apply erase_dev_sound | exact H].
Qed.

Lemma add_dev_sound nm o s :
  is_event_name nm = true -> devs_sound s ->
  devs_sound (exec (add_dev (INPUT_DIR +:+ "/" +:+ nm) o) s).
Proof.
  intros Hn H. unfold add_dev. destruct (Z.ltb_spec (open_fd o) 0); [exact H|].
  rewrite exec_bind. destruct (negb (epoll_add_ok o)); [exact H|].
  unfold devs_sound. simpl. apply Forall_app. split; [exact H|].
  constructor; [| constructor]. now apply init_abs_info_sound.
Qed.

Lemma handle_reads_sound f i reads p s :
  devs_sound s -> devs_sound (exec (handle_reads f i reads p) s).
Proof.
  revert p s. induction reads as [| r rest IH]; intros p s H; [exact H|].
  destruct r as [evs | | |].
  - unfold exec. rewrite handle_reads_data. apply IH, handle_events_sound, H.
  - exact H.
  - simpl. rewrite exec_seq_ret. now apply del_dev_fd_sound.
  - simpl. rewrite exec_seq_ret. now apply del_dev_fd_sound.
Qed.

Lemma watch_record_sound r s : devs_sound s -> devs_sound (exec (watch_record r) s).
Proof.
  intros H. destruct r as [e o]. unfold watch_record.
  destruct (negb (len e =? 0)); [| exact H].
  destruct (is_event_name (name e)) eqn:En; [| exact H]. cbn [andb].
  rewrite exec_bind.
  assert (H1 : devs_sound
                 (exec (if negb (Z.land (mask e) IN_CREATE =? 0)
                        then add_dev (INPUT_DIR +:+ "/" +:+ name e) o else ret tt) s))
    by (destruct (negb (Z.land (mask e) IN_CREATE =? 0)); [now apply add_dev_sound | exact H]).
  destruct (negb (Z.land (mask e) IN_DELETE =? 0)); [now apply del_dev_sound | exact H1].
Qed.

Lemma reevaluate_devices s : devices (RT (exec reevaluate s)) = devices (RT s).
Proof.
  unfold reevaluate. cbv zeta.
  rewrite exec_bind, exec_bind_get_rt, exec_bind.
  match goal with |- context [exec schedule_timer ?x] =>
    destruct (schedule_timer_spec x) as (_ & _ & _ & D & _); rewrite D end.
  assert (E : forall to, devices (RT (exec (enter to) (exec effective_idle_ms s)))
                         = devices (RT s))
    by (intros to; now destruct (enter_spec to (exec effective_idle_ms s)) as (_ & _ & _ & D' & _)).
  destruct (state (RT (exec effective_idle_ms s)));
    repeat match goal with |- context [if ?c then _ else _] => destruct c end;
    rewrite ?E; reflexivity.
Qed.

Lemma dispatch_sound r s : devs_sound s -> devs_sound (exec (dispatch r) s).
Proof.
  intros H. destruct r as [| recs | f reads]; simpl.
  - unfold devs_sound. now rewrite reevaluate_devices.
  - revert s H. induction recs as [| r rest IH]; intros s H; [exact H|].
    simpl. rewrite exec_bind. apply IH, watch_record_sound, H.
  - rewrite exec_seq_ret. unfold handle_input. rewrite exec_bind_get_rt.
    destruct (dev_index_by_fd f (devices (RT s))); [now apply handle_reads_sound | exact H].
Qed.

Lemma scan_inputs_sound entries s :
  devs_sound s -> devs_sound (exec (scan_inputs entries) s).
Proof.
  revert s. induction entries as [| [nm o] rest IH]; intros s H; [exact H|].
  simpl. rewrite exec_bind. apply IH.
  destruct (starts_with_dot nm); [exact H|].
  destruct (is_event_name nm) eqn:En; [now apply add_dev_sound | exact H].
Qed.

Lemma reachable_sound s : reachable s -> devs_sound s.
Proof.
  intros (clk & b & rs & _ & ->). rewrite exec_bind.
  assert (H0 : devs_sound (exec (main_setup b) (Sys_init clk))).
  { unfold main_setup. rewrite !exec_bind.
    match goal with |- devs_sound (exec schedule_timer ?x) =>
      unfold devs_sound; destruct (schedule_timer_spec x) as (_ & _ & _ & D & _); rewrite D end.
    apply scan_inputs_sound. constructor. }
  revert H0. generalize (exec (main_setup b) (Sys_init clk)).
  induction rs as [| r rest IH]; intros s H; [exact H|].
  simpl. rewrite exec_bind. apply IH, dispatch_sound, H.
Qed.

(** ** The calls of one read batch *)

Lemma handle_event_trace i e s :
  let r := handle_event i e false s in
  (fst r = false /\ registry_step s (snd r)) \/
  (fst r = true /\ exists s1, registry_step s s1 /\ snd r = exec on_activity s1).
Proof.
  cbv zeta. unfold handle_event.
  destruct (type e =? EV_SYN); [left; split; [reflexivity | apply registry_step_refl]|].
  destruct ((type e =? EV_KEY) || (type e =? EV_REL)).
  { right. split.
    - apply (eval_seq_ret on_activity true s).
    - exists s. split; [apply registry_step_refl|]. apply (exec_seq_ret on_activity true s). }
  destruct (type e =? EV_ABS); [| left; split; [reflexivity | apply registry_step_refl]].
  change (fst (?m s)) with (eval m s). change (snd (?m s)) with (exec m s).
  rewrite !exec_bind, !eval_bind.
  change (eval (get_dev i) s) with (devices (RT s) !!! i).
  change (exec (get_dev i) s) with s.
  set (dv := devices (RT s) !!! i).
  destruct (negb (cell (abs_seen dv) (code e))).
  { left. rewrite eval_seq_ret, exec_seq_ret.
    split; [reflexivity | apply set_dev_registry_step]. }
  cbv zeta.
  destruct (is_hat_abs (code e)).
  - destruct (negb (_ =? 0)).
    + right. rewrite eval_bind, eval_seq_ret, exec_bind, exec_seq_ret.
      split; [reflexivity|]. eexists. split; [apply set_dev_registry_step | reflexivity].
    + left. split; [reflexivity | apply registry_step_refl].
  - destruct (_ <=? abs32 _).
    + right. rewrite eval_bind, eval_seq_ret, exec_bind, exec_seq_ret.
      split; [reflexivity|]. eexists. split; [apply set_dev_registry_step | reflexivity].
    + left. split; [reflexivity | apply registry_step_refl].
Qed.

Lemma handle_events_trace i evs s :
  let r := handle_events i evs false s in
  (fst r = false /\ registry_step s (snd r)) \/
  (fst r = true /\ exists s1, registry_step s s1 /\ snd r = exec on_activity s1).
Proof.
  revert s. induction evs as [| e rest IH]; intros s.
  - left. split; [reflexivity | apply registry_step_refl].
  - cbv zeta. rewrite handle_events_cons.
    destruct (handle_event_trace i e s) as [(E1 & D1) | (E1 & s1 & D1 & X1)]; rewrite E1.
    + destruct (IH (snd (handle_event i e false s))) as [(E2 & D2) | (E2 & s2 & D2 & X2)].
      * left. split; [assumption | eapply registry_step_trans; eassumption].
      * right. split; [assumption|]. exists s2.
        split; [eapply registry_step_trans; eassumption | assumption].
    + rewrite handle_events_pulsed. right. split; [reflexivity|].
      exists s1. split; assumption.
Qed.

Lemma handle_reads_trace f i reads pulsed s :
  let s' := exec (handle_reads f i reads pulsed) s in
  if pulsed then registry_step s s' else batch_trace s s'.
Proof.
  revert pulsed s. induction reads as [| r rest IH]; intros pulsed s; cbv zeta.
  - destruct pulsed; [| left]; apply registry_step_refl.
  - destruct r as [evs | | |].
    + unfold exec. rewrite handle_reads_data. fold (exec (handle_reads f i rest
        (fst (handle_events i evs pulsed s))) (snd (handle_events i evs pulsed s))).
      destruct pulsed.
      * rewrite handle_events_pulsed. apply (IH true s).
      * destruct (handle_events_trace i evs s) as [(E1 & D1) | (E1 & s1 & D1 & X1)]; rewrite E1.
        -- destruct (IH false (snd (handle_events i evs false s))) as [D2 | (s2 & D2 & D3)].
           ++ left. eapply registry_step_trans; eassumption.
           ++ right. exists s2. split; [eapply registry_step_trans; eassumption | assumption].
        -- right. exists s1. split; [assumption|]. rewrite <- X1.
           apply (IH true (snd (handle_events i evs false s))).
    + destruct pulsed; [| left]; apply registry_step_refl.
    + simpl. rewrite exec_seq_ret. destruct pulsed; [| left]; apply del_dev_fd_registry_step.
    + simpl. rewrite exec_seq_ret. destruct pulsed; [| left]; apply del_dev_fd_registry_step.
Qed.

Lemma handle_input_trace f reads s : batch_trace s (exec (handle_input f reads) s).
Proof.
  unfold handle_input. rewrite exec_bind_get_rt.
  destruct (dev_index_by_fd f (devices (RT s))) as [i |].
  - apply (handle_reads_trace f i reads false s).
  - left. apply registry_step_refl.
Qed.

(** ** Invariants of the loop, in general *)

Section Steps.

Variable P : Sys -> Prop.
Hypothesis P_start : forall clk b, clock_ok clk -> P (exec (main_setup b) (Sys_init clk)).
Hypothesis P_registry : forall s s', Inv s -> P s -> registry_step s s' -> P s'.
Hypothesis P_pulse : forall s, Inv s -> P s -> P (exec on_activity s).
Hypothesis P_timer : forall s, Inv s -> P s -> P (exec reevaluate s).

Lemma dispatch_steps r s : Inv s -> P s -> P (exec (dispatch r) s).
Proof.
  intros HI HP. destruct r as [| recs | f reads]; simpl.
  - now apply P_timer.
  - exact (P_registry _ _ HI HP (watch_records_registry_step recs s)).
  - rewrite exec_seq_ret.
    destruct (handle_input_trace f reads s) as [D | (s1 & D1 & D2)].
    + exact (P_registry _ _ HI HP D).
    + pose proof (Inv_dev_only _ _ HI (proj1 D1)) as HI1.
      pose proof (P_registry _ _ HI HP D1) as HP1.
      refine (P_registry _ _ _ (P_pulse _ HI1 HP1) D2).
      apply on_activity_Inv, HI1.
Qed.

Lemma reachable_steps s : reachable s -> P s.
Proof.
  intros (clk & b & rs & Hc & ->). rewrite exec_bind.
  pose proof (main_setup_Inv clk b Hc) as HI. pose proof (P_start clk b Hc) as HP.
  revert HI HP. generalize (exec (main_setup b) (Sys_init clk)).
  induction rs as [| r rest IH]; intros s HI HP; [exact HP|].
  simpl. rewrite exec_bind. apply IH; [apply dispatch_Inv, HI | now apply dispatch_steps].
Qed.

End Steps.

(** ** The history of the pulses *)

Lemma pulses_spaced_registry s s' :
  Inv s -> pulses_spaced s -> registry_step s s' -> pulses_spaced s'.
Proof.
  intros _ H ((_ & (_ & El & _) & _ & Ep & _) & _).
  unfold pulses_spaced. rewrite El, Ep. exact H.
Qed.

Lemma pulses_spaced_pulse s : Inv s -> pulses_spaced s -> pulses_spaced (exec on_activity s).
Proof.
  intros HInv (H1 & H2). pose proof HInv as ((Hr & _) & _ & _ & Hp & Ha & _).
  pose proof (Hr (ticks (env s))) as R0.
  destruct (sub64 (clock (env s) (ticks (env s))) (last_pulse_ms (RT s)) <? DEBOUNCE_MS) eqn:E.
  - rewrite (on_activity_rejected s E). unfold pulses_spaced, tick_reject.
    cbn [RT env pulses]. split.
    + intros i t Hi. apply lookup_snoc_Some in Hi as [(_ & Hi) | (_ & Hi)];
        [exact (H1 i t Hi) | discriminate].
    + intros i j ti tj Hij Hi Hj.
      apply lookup_snoc_Some in Hi as [(_ & Hi) | (_ & Hi)]; [| discriminate].
      apply lookup_snoc_Some in Hj as [(_ & Hj) | (_ & Hj)]; [| discriminate].
      exact (H2 i j ti tj Hij Hi Hj).
  - destruct (on_activity_accepted s E) as (_ & A2 & _ & _ & _ & _ & _ & _ & A9).
    unfold sub64 in E. rewrite wrap64_small in E by (unfold in_int64; lia).
    apply Z.ltb_ge in E.
    unfold pulses_spaced. rewrite A2, A9. split.
    + intros i t Hi. apply lookup_snoc_Some in Hi as [(_ & Hi) | (_ & Hi)].
      * specialize (H1 i t Hi). lia.
      * injection Hi as <-. lia.
    + intros i j ti tj Hij Hi Hj.
      apply lookup_snoc_Some in Hi as [(Li & Hi) | (Li & Hi)];
        apply lookup_snoc_Some in Hj as [(Lj & Hj) | (Lj & Hj)]; try lia.
      * exact (H2 i j ti tj Hij Hi Hj).
      * injection Hj as <-. specialize (H1 i ti Hi). lia.
Qed.

Lemma pulses_spaced_timer s : Inv s -> pulses_spaced s -> pulses_spaced (exec reevaluate s).
Proof.
  intros HInv H. destruct (reevaluate_spec s HInv) as (_ & _ & Ep & _).
  destruct (reevaluate_table s HInv) as (_ & _ & El & _).
  unfold pulses_spaced. rewrite El, Ep. exact H.
Qed.

Lemma main_setup_pulses b clk : pulses (env (exec (main_setup b) (Sys_init clk))) = [].
Proof.
  unfold main_setup. rewrite !exec_bind.
  match goal with |- pulses (env (exec schedule_timer ?x)) = _ =>
    destruct (schedule_timer_spec x) as (_ & _ & _ & _ & Ep); rewrite Ep end.
  match goal with |- pulses (env (exec (scan_inputs ?es) ?x)) = _ =>
    destruct (scan_inputs_dev_only es x) as (_ & _ & _ & Ep' & _); rewrite Ep' end.
  reflexivity.
Qed.

Lemma reachable_spaced s : reachable s -> pulses_spaced s.
Proof.
  apply (reachable_steps pulses_spaced).
  - intros clk b _. unfold pulses_spaced. rewrite main_setup_pulses.
    split; [intros i t Hi | intros i j ti tj _ Hi _]; discriminate.
  - exact pulses_spaced_registry.
  - exact pulses_spaced_pulse.
  - exact pulses_spaced_timer.
Qed.

(** ** The calls of one turn *)

Lemma state_calls_registry k :
  forallb registry_call k = true -> List.filter state_call k = [].
Proof.
  induction k as [| e k IH]; intros H; [reflexivity|].
  simpl in H. apply andb_prop in H as [He Hk].
  destruct e; try discriminate; simpl; exact (IH Hk).
Qed.

Lemma state_calls_enter m to : List.filter state_call (enter_calls m to) = enter_calls m to.
Proof. unfold enter_calls. destruct (String.eqb m EmptyString); reflexivity. Qed.

Lemma on_activity_trace s :
  Inv s ->
  exists k, out (env (exec on_activity s)) = out (env s) ++ k /\
            List.filter state_call k
              = if State_eqb (state (RT (exec on_activity s))) (state (RT s)) then []
                else enter_calls (HOOKS_MIRROR s) (state (RT (exec on_activity s))).
Proof.
  intros HInv. pose proof HInv as ((Hr & _) & _ & _ & Hp & Ha & _).
  pose proof (Hr (ticks (env s))) as R0.
  destruct (sub64 (clock (env s) (ticks (env s))) (last_pulse_ms (RT s)) <? DEBOUNCE_MS) eqn:E.
  - rewrite (on_activity_rejected s E). exists []. cbn [tick_reject RT env out].
    rewrite State_eqb_refl. split; [symmetry; apply app_nil_r | reflexivity].
  - destruct (on_activity_accepted s E) as (A1 & _).
    unfold sub64 in E. rewrite wrap64_small in E by (unfold in_int64; lia).
    apply Z.ltb_ge in E. unfold DEBOUNCE_MS in E.
    destruct (on_activity_calls s HInv E) as (sec & nsec & Ho & _).
    eexists. split; [exact Ho|]. rewrite A1, List.filter_app. cbn [List.filter state_call].
    rewrite app_nil_r.
    destruct (state (RT s)); cbn [State_eqb]; [reflexivity | apply state_calls_enter ..].
Qed.

Lemma reevaluate_trace s :
  Inv s ->
  exists k, out (env (exec reevaluate s)) = out (env s) ++ k /\
            List.filter state_call k
              = if State_eqb (state (RT (exec reevaluate s))) (state (RT s)) then []
                else enter_calls (HOOKS_MIRROR s) (state (RT (exec reevaluate s))).
Proof.
  intros HInv. destruct (reevaluate_table s HInv) as (Es & _ & _ & sec & nsec & Ho & _).
  eexists. split; [exact Ho|]. rewrite Es, List.filter_app. cbn [List.filter state_call].
  rewrite app_nil_r.
  destruct (State_eqb _ (state (RT s))); [reflexivity | apply state_calls_enter].
Qed.

(** ** The dead-zone fraction *)

Lemma clamp_pct_in_range v : pct_in_range (clamp_pct v).
Proof.
  unfold clamp_pct, pct_in_range. cbv zeta.
  set (v1 := if dltb d_1_0 v then ddiv v d_100_0 else v). clearbody v1.
  destruct (dltb v1 d_0_0) eqn:E1.
  - change (dltb d_0_90 d_0_0) with false. cbv iota. split; reflexivity.
  - destruct (dltb d_0_90 v1) eqn:E2; [split; reflexivity | split; assumption].
Qed.

Lemma cfg_line_pct strtod c line :
  pct_in_range (cfg_axis_dz_pct c) -> pct_in_range (cfg_axis_dz_pct (cfg_line strtod c line)).
Proof.
  intros H. unfold cfg_line.
  destruct (skip_blanks (cstr line)) as [| a r]; [exact H|].
  destruct ((char_code a =? 10) || (char_code a =? 35) || (char_code a =? 91)); [exact H|].
  destruct (split_eq (String a r)) as [[k v] |]; [| exact H].
  unfold cfg_key_value.
  destruct (String.eqb (rtrim k) "idle");
    [destruct (60 <=? _); exact H|].
  destruct (String.eqb (rtrim k) "extended");
    [destruct (60 <=? _); exact H|].
  destruct (String.eqb (rtrim k) "hooks_mirror");
    [destruct (rtrim (skip_blanks v)); exact H|].
  destruct (String.eqb (rtrim k) "ABS_Deadzone"); [| exact H].
  destruct (strtod (rtrim (skip_blanks v))); [apply clamp_pct_in_range | exact H].
Qed.

Lemma read_config_pct strtod file :
  pct_in_range (cfg_axis_dz_pct (read_config_or_defaults strtod file)).
Proof.
  assert (H0 : pct_in_range (cfg_axis_dz_pct cfg_defaults)) by (split; reflexivity).
  destruct file as [content |]; [| exact H0].
  unfold read_config_or_defaults, enforce_minimums. cbn [cfg_axis_dz_pct].
  revert H0. generalize cfg_defaults.
  induction (fgets_lines 255 EmptyString content) as [| l ls IH]; intros c H; [exact H|].
  simpl. apply IH, cfg_line_pct, H.
Qed.

Lemma schedule_timer_globals s :
  AXIS_DZ_PCT (exec schedule_timer s) = AXIS_DZ_PCT s /\
  HOOKS_MIRROR (exec schedule_timer s) = HOOKS_MIRROR s.
Proof.
  unfold schedule_timer. rewrite exec_bind_get_rt.
  destruct (state (RT s)).
  1,2: rewrite exec_bind;
       match goal with |- context [exec (arm_timer_ms ?ms) ?s1] =>
         destruct (arm_timer_ms_emit ms s1) as [e ->] end; split; reflexivity.
  destruct (arm_timer_ms_emit 0 s) as [e ->]. split; reflexivity.
Qed.

Lemma on_activity_globals s :
  AXIS_DZ_PCT (exec on_activity s) = AXIS_DZ_PCT s /\
  HOOKS_MIRROR (exec on_activity s) = HOOKS_MIRROR s.
Proof.
  destruct (sub64 (clock (env s) (ticks (env s))) (last_pulse_ms (RT s)) <? DEBOUNCE_MS) eqn:E.
  - rewrite (on_activity_rejected s E). split; reflexivity.
  - rewrite (on_activity_body s E).
    match goal with |- context [exec schedule_timer ?x] =>
      destruct (schedule_timer_globals x) as [-> ->] end.
    match goal with |- context [exec (enter ?to) ?x] =>
      destruct (enter_globals to x) as [G1 G2]; rewrite G1, G2 end.
    split; reflexivity.
Qed.

Lemma reevaluate_globals s :
  Inv s ->
  AXIS_DZ_PCT (exec reevaluate s) = AXIS_DZ_PCT s /\
  HOOKS_MIRROR (exec reevaluate s) = HOOKS_MIRROR s.
Proof.
  intros HInv. rewrite (reevaluate_body s HInv).
  match goal with |- context [exec schedule_timer ?x] =>
    destruct (schedule_timer_globals x) as [-> ->] end.
  match goal with |- context [exec (enter ?to) ?x] =>
    destruct (enter_globals to x) as [G1 G2]; rewrite G1, G2 end.
  split; reflexivity.
Qed.

Lemma main_setup_globals b clk :
  AXIS_DZ_PCT (exec (main_setup b) (Sys_init clk))
    = cfg_axis_dz_pct (read_config_or_defaults (boot_strtod b) (boot_config b)) /\
  HOOKS_MIRROR (exec (main_setup b) (Sys_init clk))
    = cfg_hooks_mirror (read_config_or_defaults (boot_strtod b) (boot_config b)).
Proof.
  unfold main_setup. rewrite !exec_bind.
  match goal with |- context [exec schedule_timer ?x] =>
    destruct (schedule_timer_globals x) as [-> ->] end.
  match goal with |- context [exec (scan_inputs ?es) ?x] =>
    destruct (scan_inputs_dev_only es x) as (_ & _ & _ & _ & -> & ->) end.
  split; reflexivity.
Qed.

Lemma reachable_pct s : reachable s -> pct_in_range (AXIS_DZ_PCT s).
Proof.
  apply (reachable_steps (fun s => pct_in_range (AXIS_DZ_PCT s))).
  - intros clk b _. rewrite (proj1 (main_setup_globals b clk)). apply read_config_pct.
  - intros s0 s' _ H ((_ & _ & _ & _ & -> & _) & _). exact H.
  - intros s0 _ H. now rewrite (proj1 (on_activity_globals s0)).
  - intros s0 HI H. now rewrite (proj1 (reevaluate_globals s0 HI)).
Qed.

(** ** The order of the hooks *)

Lemma ascii_compare_refl a : Ascii.compare a a = Eq.
Proof. unfold Ascii.compare. apply N.compare_refl. Qed.

Lemma string_compare_refl s : String.compare s s = Eq.
Proof. induction s as [| a s IH]; [reflexivity|]. simpl. now rewrite ascii_compare_refl. Qed.

Lemma string_compare_lt_trans s1 s2 s3 :
  String.compare s1 s2 = Lt -> String.compare s2 s3 = Lt -> String.compare s1 s3 = Lt.
Proof.
  revert s2 s3. induction s1 as [| a1 s1 IH]; intros [| a2 s2] [| a3 s3]; simpl;
    try discriminate; try reflexivity.
  unfold Ascii.compare.
  destruct (N.compare_spec (N_of_ascii a1) (N_of_ascii a2)) as [E12 | L12 | G12];
    try discriminate;
    destruct (N.compare_spec (N_of_ascii a2) (N_of_ascii a3)) as [E23 | L23 | G23];
    try discriminate;
    destruct (N.compare_spec (N_of_ascii a1) (N_of_ascii a3)) as [E13 | L13 | G13];
    try reflexivity; try (exfalso; lia).
  apply IH.
Qed.

Lemma string_leb_iff a b : String.leb a b = true <-> String.compare a b <> Gt.
Proof. unfold String.leb. destruct (String.compare a b); split; congruence. Qed.

#[global] Instance string_le_total : Total string_le.
Proof. intros a b. apply String.leb_total. Qed.

#[global] Instance string_le_trans : Transitive string_le.
Proof.
  intros a b c Hab Hbc. unfold string_le in *. rewrite string_leb_iff in *.
  destruct (String.compare a b) eqn:E1; [| | congruence].
  - apply String.compare_eq_iff in E1. now subst.
  - destruct (String.compare b c) eqn:E2; [| | congruence].
    + apply String.compare_eq_iff in E2. subst. now rewrite E1.
    + now rewrite (string_compare_lt_trans a b c E1 E2).
Qed.

Lemma StronglySorted_list_filter {A} (R : relation A) (p : A -> bool) l :
  StronglySorted R l -> StronglySorted R (List.filter p l).
Proof.
  induction 1 as [| x l Hs IH Hx]; [constructor|].
  simpl. destruct (p x); [| exact IH]. constructor; [exact IH|].
  apply List.Forall_forall. intros y Hy. apply List.filter_In in Hy as [Hy _].
  exact (proj1 (List.Forall_forall _ _) Hx y Hy).
Qed.

Lemma Permutation_list_filter {A} (p : A -> bool) l l' :
  l ≡ₚ l' -> List.filter p l ≡ₚ List.filter p l'.
Proof.
  induction 1 as [| x l l' _ IH | x y l | l l' l'' _ IH1 _ IH2]; simpl.
  - reflexivity.
  - destruct (p x); [now constructor | exact IH].
  - destruct (p x), (p y); try reflexivity. constructor.
  - now transitivity (List.filter p l').
Qed.

Lemma list_filter_filter_andb {A} (p q : A -> bool) l :
  List.filter q (List.filter p l) = List.filter (fun x => p x && q x) l.
Proof.
  induction l as [| x l IH]; [reflexivity|].
  simpl. destruct (p x); simpl; [destruct (q x) |]; now rewrite IH.
Qed.

(** ** The lines of the config file *)

Lemma append_cons a r x : String a r +:+ x = String a (r +:+ x).
Proof. reflexivity. Qed.

Lemma append_assoc (a b c : string) : (a +:+ b) +:+ c = a +:+ b +:+ c.
Proof. induction a as [| x a IH]; [reflexivity|]. rewrite !append_cons. now rewrite IH. Qed.

Lemma string_forall_app p a b :
  string_forall p (a +:+ b) = string_forall p a && string_forall p b.
Proof.
  induction a as [| c a IH]; [reflexivity|].
  simpl. rewrite IH. apply andb_assoc.
Qed.

Lemma string_forall_impl (p q : ascii -> bool) s :
  (forall a, p a = true -> q a = true) -> string_forall p s = true -> string_forall q s = true.
Proof.
  intros Hpq. induction s as [| c s IH]; [reflexivity|].
  simpl. intros H. apply andb_prop in H as [H1 H2]. now rewrite (Hpq c H1), (IH H2).
Qed.

Lemma is_blank_trailing a : is_blank a = true -> is_trailing a = true.
Proof.
  unfold is_blank, is_trailing. intros H. apply orb_prop in H as [-> | ->];
    [reflexivity | now rewrite orb_true_r].
Qed.

Lemma is_trailing_codes a :
  is_trailing a = true ->
  (char_code a =? 0) = false /\ (char_code a =? 61) = false /\
  (char_code a =? 35) = false /\ (char_code a =? 91) = false.
Proof.
  unfold is_trailing. intros H.
  repeat (apply orb_prop in H as [H | H]); apply Z.eqb_eq in H; rewrite H;
    repeat split; reflexivity.
Qed.

Lemma cstr_app a b : cstr a = a -> cstr (a +:+ b) = a +:+ cstr b.
Proof.
  induction a as [| c a IH]; [reflexivity|].
  simpl. destruct (char_code c =? 0); [discriminate|].
  intros [= H]. now rewrite (IH H).
Qed.

Lemma cstr_no_nul s :
  string_forall (fun a => negb (char_code a =? 0)) s = true -> cstr s = s.
Proof.
  induction s as [| c s IH]; [reflexivity|].
  simpl. intros H. apply andb_prop in H as [H1 H2].
  apply negb_true_iff in H1. now rewrite H1, (IH H2).
Qed.

Lemma cstr_trailing b : string_forall is_trailing b = true -> cstr b = b.
Proof.
  intros H. apply cstr_no_nul. revert H. apply string_forall_impl.
  intros a Ha. now rewrite (proj1 (is_trailing_codes a Ha)).
Qed.

Lemma cstr_key k : string_forall key_char k = true -> cstr k = k.
Proof.
  intros H. apply cstr_no_nul. revert H. apply string_forall_impl.
  intros a Ha. unfold key_char in Ha.
  apply andb_prop in Ha as [Ha _]. apply andb_prop in Ha as [Ha _]. exact Ha.
Qed.

Lemma skip_blanks_app b r : string_forall is_blank b = true -> skip_blanks (b +:+ r) = skip_blanks r.
Proof.
  induction b as [| c b IH]; [reflexivity|].
  simpl. intros H. apply andb_prop in H as [H1 H2]. now rewrite H1, (IH H2).
Qed.

Lemma skip_blanks_length s : (String.length (skip_blanks s) <= String.length s)%nat.
Proof.
  induction s as [| c s IH]; [simpl; lia|].
  simpl. destruct (is_blank c); simpl; lia.
Qed.

Lemma skip_blanks_fixed c s : skip_blanks (String c s) = String c s -> is_blank c = false.
Proof.
  simpl. destruct (is_blank c); [| reflexivity].
  intros H. pose proof (skip_blanks_length s) as L. rewrite H in L. simpl in L. lia.
Qed.

Lemma skip_blanks_forall p s :
  string_forall p s = true -> string_forall p (skip_blanks s) = true.
Proof.
  induction s as [| c s IH]; [reflexivity|].
  intros H. simpl. destruct (is_blank c); [| exact H].
  simpl in H. apply andb_prop in H as [_ H]. exact (IH H).
Qed.

Lemma rtrim_trailing b : string_forall is_trailing b = true -> rtrim b = EmptyString.
Proof.
  induction b as [| c b IH]; [reflexivity|].
  simpl. intros H. apply andb_prop in H as [H1 H2]. now rewrite (IH H2), H1.
Qed.

Lemma rtrim_app_trailing x b :
  string_forall is_trailing b = true -> rtrim (x +:+ b) = rtrim x.
Proof.
  intros H. induction x as [| c x IH]; [now apply rtrim_trailing|].
  simpl. now rewrite IH.
Qed.

Lemma rtrim_key k : string_forall key_char k = true -> rtrim k = k.
Proof.
  induction k as [| c k IH]; [reflexivity|].
  simpl. intros H. apply andb_prop in H as [H1 H2]. rewrite (IH H2).
  destruct k; [| reflexivity].
  unfold key_char in H1. apply andb_prop in H1 as [_ H1]. apply negb_true_iff in H1.
  now rewrite H1.
Qed.

Lemma split_eq_app x t :
  string_forall (fun a => negb (char_code a =? 61)) x = true ->
  split_eq (x +:+ String "="%char t) = Some (x, t).
Proof.
  induction x as [| c x IH]; [reflexivity|].
  simpl. intros H. apply andb_prop in H as [H1 H2].
  apply negb_true_iff in H1. now rewrite H1, (IH H2).
Qed.

(** *** The lines that [fgets] returns *)

Lemma fgets_lines_short room cur l rest :
  string_forall not_newline l = true -> (String.length l < room)%nat ->
  fgets_lines room cur (l +:+ String "010"%char rest)
    = (cur +:+ l +:+ String "010"%char EmptyString) :: fgets_lines 255 EmptyString rest.
Proof.
  revert room cur. induction l as [| a l IH]; intros room cur Hn Hl.
  - reflexivity.
  - simpl in Hn. apply andb_prop in Hn as [Ha Hn].
    unfold not_newline in Ha. apply negb_true_iff in Ha.
    simpl in Hl. rewrite append_cons. cbn [fgets_lines]. rewrite Ha.
    destruct (Nat.leb_spec room 1) as [L | L]; [lia|]. cbn [orb].
    rewrite IH by (try assumption; lia).
    rewrite append_assoc. reflexivity.
Qed.

Lemma fgets_lines_long room cur l rest :
  string_forall not_newline l = true -> String.length l = room -> (0 < room)%nat ->
  fgets_lines room cur (l +:+ rest) = (cur +:+ l) :: fgets_lines 255 EmptyString rest.
Proof.
  revert room cur. induction l as [| a l IH]; intros room cur Hn Hl Hr.
  - simpl in Hl. lia.
  - simpl in Hn. apply andb_prop in Hn as [Ha Hn].
    unfold not_newline in Ha. apply negb_true_iff in Ha.
    simpl in Hl. rewrite append_cons. cbn [fgets_lines]. rewrite Ha. cbn [orb].
    destruct (Nat.leb_spec room 1) as [L | L].
    + assert (l = EmptyString) by (destruct l; [reflexivity | simpl in Hl; lia]).
      subst l. reflexivity.
    + rewrite IH by (try assumption; lia).
      rewrite append_assoc. reflexivity.
Qed.

(** ** The calls that tell of a state *)

Lemma enter_calls_ok m st : Forall (state_call_ok m) (enter_calls m st).
Proof.
  unfold enter_calls.
  assert (Hw : state_call_ok m (WriteState (state_digit st)))
    by (destruct st; [right | left | left]; reflexivity).
  assert (Hr : state_call_ok m
                 (RunFolder (HOOKS_ROOT +:+ "/" +:+ state_name st +:+ ".d") (state_name st))).
  { exists st, HOOKS_ROOT. split; [reflexivity|]. split; [reflexivity|].
    split; [left; reflexivity|].
    unfold main_layout. apply in_or_app. left. destruct st; cbn; auto. }
  destruct (String.eqb m EmptyString) eqn:E.
  { apply Forall_cons_2; [exact Hw|]. apply Forall_cons_2; [exact Hr | apply Forall_nil_2]. }
  apply Forall_cons_2; [exact Hw|]. apply Forall_cons_2; [exact Hr|].
  apply Forall_cons_2; [| apply Forall_nil_2].
  exists st, m. split; [reflexivity|]. split; [reflexivity|].
  split; [right; split; [reflexivity|]; intros ->; discriminate|].
  unfold main_layout. rewrite E. apply in_or_app. right.
  destruct st; cbn; auto.
Qed.

Lemma calls_ok_grow s s' k :
  calls_ok s -> out (env s') = out (env s) ++ k -> HOOKS_MIRROR s' = HOOKS_MIRROR s ->
  (List.filter state_call k = [] \/
   exists st, List.filter state_call k = enter_calls (HOOKS_MIRROR s) st) ->
  calls_ok s'.
Proof.
  intros H Ho Hm Hk. unfold calls_ok. rewrite Ho, Hm.
  apply Forall_app. split; [exact H|].
  apply List.Forall_forall. intros e He.
  destruct (state_call e) eqn:Ec; [| destruct e; try discriminate; exact I].
  assert (Hin : In e (List.filter state_call k)) by (apply List.filter_In; split; assumption).
  destruct Hk as [Hk | (st & Hk)]; rewrite Hk in Hin; [destruct Hin|].
  exact (proj1 (List.Forall_forall _ _) (enter_calls_ok _ st) e Hin).
Qed.

Lemma calls_ok_registry s s' : Inv s -> calls_ok s -> registry_step s s' -> calls_ok s'.
Proof.
  intros _ H ((_ & _ & _ & _ & _ & Hm) & k & Ho & Hk).
  apply (calls_ok_grow s s' k H Ho Hm). left. now apply state_calls_registry.
Qed.

Lemma calls_ok_pulse s : Inv s -> calls_ok s -> calls_ok (exec on_activity s).
Proof.
  intros HInv H. destruct (on_activity_trace s HInv) as (k & Ho & Hk).
  apply (calls_ok_grow s _ k H Ho (proj2 (on_activity_globals s))).
  rewrite Hk. destruct (State_eqb _ _); [left; reflexivity | right; eexists; reflexivity].
Qed.

Lemma calls_ok_timer s : Inv s -> calls_ok s -> calls_ok (exec reevaluate s).
Proof.
  intros HInv H. destruct (reevaluate_trace s HInv) as (k & Ho & Hk).
  apply (calls_ok_grow s _ k H Ho (proj2 (reevaluate_globals s HInv))).
  rewrite Hk. destruct (State_eqb _ _); [left; reflexivity | right; eexists; reflexivity].
Qed.

(** What the setup of [main] leaves. *)
Lemma main_setup_summary clk b :
  clock_ok clk ->
  let c := read_config_or_defaults (boot_strtod b) (boot_config b) in
  let s := exec (main_setup b) (Sys_init clk) in
  state (RT s) = ACTIVE /\
  last_activity_ms (RT s) = clk O /\ last_pulse_ms (RT s) = 0 /\
  idle_s (RT s) = cfg_idle_s c /\ extended_s (RT s) = cfg_extended_s c /\
  exists k sec nsec,
    out (env s)
      = [WriteState 1; EpollAdd (boot_tfd b); EpollAdd (boot_ifd b)]
        ++ k ++ [ArmTimer sec nsec] /\
    forallb registry_call k = true /\
    sec * 1000 + nsec / 1000000
      = Z.max 1 (cfg_idle_s c * 1000 - (clk 1%nat - clk O)).
Proof.
  intros Hc. cbv zeta.
  destruct (read_config_range (boot_strtod b) (boot_config b)) as [Hi He].
  unfold main_setup.
  set (c := read_config_or_defaults (boot_strtod b) (boot_config b)) in *.
  clearbody c. rewrite !exec_bind.
  match goal with |- context [exec schedule_timer (exec (scan_inputs ?es) ?x)] =>
    set (s1 := x); pose proof (scan_inputs_registry_step es s1) as Hstep end.
  set (s2 := exec (scan_inputs (boot_entries b)) s1) in *.
  destruct Hstep as ((Es & (M1 & M2 & M3 & M4 & M5) & Et & _) & k & Ho & Hk).
  destruct (schedule_timer_spec s2) as (S3 & (N1 & N2 & N3 & N4 & N5) & _).
  assert (Hb : in_bounds s2).
  { unfold in_bounds. rewrite M1, M3, M4, M5, Et.
    destruct Hc as [Hr Hm]. pose proof (Hr O). pose proof (Hm O 1%nat ltac:(lia)).
    cbn.
    change (eval now_ms (exec (load_config c) (Sys_init clk))) with (clk O).
    split; [split; assumption|]. split; [exact Hi|]. split; [exact He|]. lia. }
  destruct (schedule_timer_due s2 Hb) as (sec & nsec & Ho3 & Ht & _).
  rewrite S3, N1, N2, N3, N4, Es, M1, M2, M3, M4.
  split; [reflexivity|]. split; [reflexivity|]. split; [reflexivity|].
  split; [reflexivity|]. split; [reflexivity|].
  exists k, sec, nsec. split; [rewrite Ho3, Ho; reflexivity|]. split; [exact Hk|].
  unfold timer_ms in Ht. cbn [fst snd] in Ht. rewrite Ht, Es.
  unfold elapsed_ms. rewrite M1, M3, M5, Et. reflexivity.
Qed.

Lemma reachable_calls_ok s : reachable s -> calls_ok s.
Proof.
  apply (reachable_steps calls_ok).
  - intros clk b Hc.
    destruct (main_setup_summary clk b Hc) as (_ & _ & _ & _ & _ & k & sec & nsec & Ho & Hk & _).
    unfold calls_ok. rewrite Ho.
    apply Forall_app. split.
    { apply Forall_cons_2; [right; reflexivity|].
      apply Forall_cons_2; [exact I|]. apply Forall_cons_2; [exact I | apply Forall_nil_2]. }
    apply Forall_app. split; [| apply Forall_cons_2; [exact I | apply Forall_nil_2]].
    apply List.Forall_forall. intros e He.
    pose proof (proj1 (forallb_forall _ _) Hk e He) as Hr.
    destruct e; try discriminate; exact I.
  - exact calls_ok_registry.
  - exact calls_ok_pulse.
  - exact calls_ok_timer.
Qed.

(** ** Two turns of the timer *)

Lemma reevaluate_ticks s :
  Inv s ->
  (S (ticks (env s)) <= ticks (env (exec reevaluate s)) <= S (S (ticks (env s))))%nat.
Proof.
  intros HInv. rewrite (reevaluate_body s HInv).
  match goal with |- context [exec schedule_timer ?x] =>
    destruct (schedule_timer_spec x) as (_ & _ & Ht & _) end.
  match goal with |- context [exec (enter ?to) ?x] =>
    destruct (enter_spec to x) as (_ & _ & Et & _); rewrite Et in Ht end.
  exact Ht.
Qed.

(** ** The first report of a new device *)

Lemma handle_event_unseen i e s dv :
  devices (RT s) !! i = Some dv -> type e = EV_ABS ->
  cell (abs_seen dv) (code e) = false ->
  handle_event i e false s = (false, exec (set_dev i (dev_first_seen dv e)) s).
Proof.
  intros Hdv Ht Hs. unfold handle_event. rewrite Ht.
  change (EV_ABS =? EV_SYN) with false.
  change ((EV_ABS =? EV_KEY) || (EV_ABS =? EV_REL)) with false.
  change (EV_ABS =? EV_ABS) with true. cbv iota.
  unfold bind at 1.
  assert (Hg : get_dev i s = (dv, s)).
  { unfold get_dev. f_equal. apply list_lookup_total_correct, Hdv. }
  rewrite Hg, Hs. cbn [negb]. apply run_seq_ret.
Qed.

(** ** The clock in milliseconds *)

Lemma timespec_ms_value ts :
  timespec_ok ts ->
  timespec_ms ts = fst ts * 1000 + snd ts / 1000000 /\ 0 <= snd ts / 1000000 <= 999.
Proof.
  intros ((S1 & S2) & (N1 & N2)). unfold timespec_ms, add64, mul64.
  rewrite Z.quot_div_nonneg by lia.
  assert (Hq : 0 <= snd ts / 1000000 <= 999).
  { split; [apply Z.div_pos; lia|].
    apply Z.lt_succ_r. apply Z.div_lt_upper_bound; lia. }
  assert (H52 : 2 ^ 52 = 4503599627370496) by reflexivity.
  rewrite (wrap64_small (fst ts * 1000)) by (unfold in_int64; lia).
  rewrite wrap64_small by (unfold in_int64; lia).
  split; [reflexivity | exact Hq].
Qed.

Lemma timespec_ms_mono a b :
  timespec_ok a -> timespec_ok b -> timespec_le a b -> timespec_ms a <= timespec_ms b.
Proof.
  intros Ha Hb Hle.
  destruct (timespec_ms_value a Ha) as (-> & Qa).
  destruct (timespec_ms_value b Hb) as (-> & Qb).
  destruct Hle as [H | (H1 & H2)]; [lia|].
  rewrite H1. apply Z.add_le_mono_l. apply Z.div_le_mono; lia.
Qed.

(** * The descriptors of the registry are held *)

Lemma held_after_app h o k : held_after h (o ++ k) = held_after (held_after h o) k.
Proof.
  revert h. induction o as [| e o IH]; intros h; [reflexivity|].
  destruct e; simpl; apply IH.
Qed.

Lemma kernel_trace_from_app h o k :
  kernel_trace_from h (o ++ k)
    = kernel_trace_from h o && kernel_trace_from (held_after h o) k.
Proof.
  revert h. induction o as [| e o IH]; intros h; [reflexivity|].
  destruct e; simpl; rewrite ?IH, ?andb_assoc; reflexivity.
Qed.

Lemma quiet_calls h k :
  forallb (fun e => negb (fd_call e)) k = true ->
  held_after h k = h /\ kernel_trace_from h k = true.
Proof.
  induction k as [| e k IH]; intros H; [split; reflexivity|].
  simpl in H. apply andb_prop in H as [He Hk].
  destruct e; try discriminate; simpl; exact (IH Hk).
Qed.

Lemma kernel_trace_prefix o k : kernel_trace (o ++ k) -> kernel_trace o.
Proof.
  unfold kernel_trace. rewrite kernel_trace_from_app. intros H.
  now apply andb_prop in H as [H _].
Qed.

Lemma kernel_trace_added o f k :
  kernel_trace (o ++ EpollAdd f :: k) -> ~ In f (held_after [] o).
Proof.
  unfold kernel_trace. rewrite kernel_trace_from_app. intros H Hin.
  apply andb_prop in H as [_ H]. simpl in H. apply andb_prop in H as [H _].
  apply negb_true_iff in H.
  assert (E : existsb (Z.eqb f) (held_after [] o) = true)
    by (apply existsb_exists; exists f; split; [exact Hin | apply Z.eqb_refl]).
  congruence.
Qed.

Lemma in_filter_other (f g : Z) held :
  In g held -> g <> f -> In g (List.filter (fun x => negb (x =? f)) held).
Proof.
  intros Hin Hne. apply List.filter_In. split; [exact Hin|].
  apply negb_true_iff. now apply Z.eqb_neq.
Qed.

Lemma map_fd_insert i x (l : list Dev) :
  fd x = fd (l !!! i) -> map fd (<[ i := x ]> l) = map fd l.
Proof.
  revert i. induction l as [| y l IH]; intros i H; [reflexivity|].
  destruct i as [| i]; simpl in *.
  - now rewrite H.
  - f_equal. now apply IH.
Qed.

(** A step that keeps the descriptors of the registry and issues no call
    on a descriptor. *)
Lemma kernel_inv_kept s s' k :
  map fd (devices (RT s')) = map fd (devices (RT s)) ->
  out (env s') = out (env s) ++ k ->
  forallb (fun e => negb (fd_call e)) k = true ->
  kernel_inv s -> kernel_inv s'.
Proof.
  intros Hd Ho Hq HP Hk. unfold tracked_held. rewrite Hd, Ho, held_after_app.
  rewrite Ho in Hk. rewrite (proj1 (quiet_calls _ k Hq)).
  exact (HP (kernel_trace_prefix _ _ Hk)).
Qed.

Lemma set_dev_kernel i x s :
  fd x = fd (devices (RT s) !!! i) -> kernel_inv s -> kernel_inv (exec (set_dev i x) s).
Proof.
  intros Hx. apply (kernel_inv_kept s _ []); [| symmetry; apply app_nil_r | reflexivity].
  cbn. now apply map_fd_insert.
Qed.

Lemma schedule_timer_out s :
  exists sec nsec, out (env (exec schedule_timer s)) = out (env s) ++ [ArmTimer sec nsec].
Proof.
  unfold schedule_timer. rewrite exec_bind_get_rt.
  destruct (state (RT s)).
  1,2: rewrite exec_bind; unfold arm_timer_ms;
       match goal with |- context [if ?c then _ else _] => destruct c end;
       eexists _, _; reflexivity.
  eexists _, _. reflexivity.
Qed.

Lemma enter_calls_quiet m to :
  forallb (fun e => negb (fd_call e)) (enter_calls m to) = true.
Proof. unfold enter_calls. destruct (String.eqb m EmptyString); reflexivity. Qed.

Lemma enter_quiet to s :
  exists k, out (env (exec (enter to) s)) = out (env s) ++ k /\
            forallb (fun e => negb (fd_call e)) k = true.
Proof.
  rewrite enter_out. destruct (State_eqb to (state (RT s))).
  - exists []. split; reflexivity.
  - eexists. split; [reflexivity | apply enter_calls_quiet].
Qed.

Lemma on_activity_quiet s :
  exists k, out (env (exec on_activity s)) = out (env s) ++ k /\
            forallb (fun e => negb (fd_call e)) k = true.
Proof.
  destruct (sub64 (clock (env s) (ticks (env s))) (last_pulse_ms (RT s)) <? DEBOUNCE_MS) eqn:E.
  - rewrite (on_activity_rejected s E). exists []. split; [symmetry; apply app_nil_r | reflexivity].
  - rewrite (on_activity_body s E).
    match goal with |- context [exec schedule_timer ?x] =>
      destruct (schedule_timer_out x) as (sec & nsec & Ho) end.
    match goal with H : context [exec (enter ?to) ?x] |- _ =>
      destruct (enter_quiet to x) as (k & Hk & Hq) end.
    exists (k ++ [ArmTimer sec nsec]). split.
    + rewrite Ho, Hk, <- app_assoc. reflexivity.
    + rewrite forallb_app, Hq. reflexivity.
Qed.

Lemma reevaluate_quiet s :
  exists k, out (env (exec reevaluate s)) = out (env s) ++ k /\
            forallb (fun e => negb (fd_call e)) k = true.
Proof.
  unfold reevaluate. cbv zeta.
  rewrite exec_bind, exec_bind_get_rt, exec_bind.
  match goal with |- context [exec schedule_timer ?x] =>
    destruct (schedule_timer_out x) as (sec & nsec & Ho);
    assert (Hx : exists k, out (env x) = out (env s) ++ k /\
                           forallb (fun e => negb (fd_call e)) k = true)
  end.
  { assert (Hret : exists k, out (env (exec (ret tt) (exec effective_idle_ms s)))
                             = out (env s) ++ k /\
                             forallb (fun e => negb (fd_call e)) k = true)
      by (exists []; split; [symmetry; apply app_nil_r | reflexivity]).
    assert (Hent : forall to, exists k,
               out (env (exec (enter to) (exec effective_idle_ms s))) = out (env s) ++ k /\
               forallb (fun e => negb (fd_call e)) k = true)
      by (intros to; exact (enter_quiet to (exec effective_idle_ms s))).
    destruct (state (RT (exec effective_idle_ms s)));
      repeat match goal with |- context [if ?c then _ else _] => destruct c end;
      first [apply Hent | exact Hret]. }
  destruct Hx as (k & Hk & Hq).
  exists (k ++ [ArmTimer sec nsec]). split.
  - rewrite Ho, Hk, <- app_assoc. reflexivity.
  - rewrite forallb_app, Hq. reflexivity.
Qed.

Lemma on_activity_kernel s : kernel_inv s -> kernel_inv (exec on_activity s).
Proof.
  destruct (on_activity_quiet s) as (k & Ho & Hq).
  apply (kernel_inv_kept s _ k); [| exact Ho | exact Hq].
  now rewrite on_activity_devices.
Qed.

Lemma reevaluate_kernel s : kernel_inv s -> kernel_inv (exec reevaluate s).
Proof.
  destruct (reevaluate_quiet s) as (k & Ho & Hq).
  apply (kernel_inv_kept s _ k); [| exact Ho | exact Hq].
  now rewrite reevaluate_devices.
Qed.

Lemma add_dev_kernel p o s : kernel_inv s -> kernel_inv (exec (add_dev p o) s).
Proof.
  intros HP.
  destruct (Z.ltb_spec (open_fd o) 0) as [Hneg | Hf].
  { unfold add_dev. destruct (Z.ltb_spec (open_fd o) 0); [exact HP | lia]. }
  destruct (epoll_add_ok o) eqn:He.
  - destruct (add_dev_new p o s Hf He) as (d & Hd & Fd & _ & _ & _ & Ho).
    intros Hk. rewrite Ho in Hk.
    pose proof (kernel_trace_added _ _ _ Hk) as Hfresh.
    destruct (HP (kernel_trace_prefix _ _ Hk)) as (Hnd & Hheld).
    unfold tracked_held. rewrite Hd, Ho, held_after_app, map_app. cbn [map held_after]. rewrite Fd.
    split.
    + apply NoDup_app. split; [exact Hnd|]. split; [| apply NoDup_singleton].
      intros x Hx Hx'. apply list_elem_of_singleton in Hx'. subst x.
      apply list_elem_of_In in Hx. exact (Hfresh (Hheld _ Hx)).
    + intros f Hin. apply in_app_or in Hin as [Hin | [<- | []]];
        [right; exact (Hheld f Hin) | left; reflexivity].
  - assert (Hd : devices (RT (exec (add_dev p o) s)) = devices (RT s) /\
                 out (env (exec (add_dev p o) s))
                   = out (env s) ++ [EpollAdd (open_fd o); Close (open_fd o)]).
    { unfold add_dev. destruct (Z.ltb_spec (open_fd o) 0); [lia|].
      rewrite exec_bind, He. cbn. rewrite <- app_assoc. split; reflexivity. }
    destruct Hd as (Hd & Ho). intros Hk. rewrite Ho in Hk.
    pose proof (kernel_trace_added _ _ _ Hk) as Hfresh.
    destruct (HP (kernel_trace_prefix _ _ Hk)) as (Hnd & Hheld).
    unfold tracked_held. rewrite Hd, Ho, held_after_app. cbn [held_after List.filter].
    rewrite Z.eqb_refl. cbn [negb].
    split; [exact Hnd|]. intros f Hin. apply in_filter_other; [exact (Hheld f Hin)|].
    intros ->. exact (Hfresh (Hheld _ Hin)).
Qed.

(** Erasing the entry at a position of the registry. *)
Lemma erase_kernel s s' i x :
  devices (RT s) !! i = Some x ->
  devices (RT s') = delete i (devices (RT s)) ->
  out (env s') = out (env s) ++ [EpollDel (fd x); Close (fd x)] ->
  kernel_inv s -> kernel_inv s'.
Proof.
  intros Hx Hd Ho HP Hk. rewrite Ho in Hk.
  destruct (HP (kernel_trace_prefix _ _ Hk)) as (Hnd & Hheld).
  pose proof (lookup_lt_Some _ _ _ Hx) as Hi.
  assert (Hl : devices (RT s)
               = take i (devices (RT s)) ++ x :: drop (S i) (devices (RT s)))
    by (symmetry; now apply take_drop_middle).
  unfold tracked_held. rewrite Hd, Ho, held_after_app, delete_take_drop.
  cbn [held_after].
  rewrite Hl in Hnd, Hheld. rewrite map_app in Hnd, Hheld. cbn [map] in Hnd, Hheld.
  rewrite map_app.
  apply NoDup_app in Hnd as (NA & Hdisj & NB). apply NoDup_cons in NB as (HxB & NB).
  split.
  - apply NoDup_app. split; [exact NA|]. split; [| exact NB].
    intros y Hy Hy'. apply (Hdisj y Hy). now apply list_elem_of_further.
  - intros f Hin. apply in_filter_other.
    + apply Hheld. apply in_app_or in Hin as [Hin | Hin]; apply in_or_app;
        [left | right; right]; exact Hin.
    + intros ->. apply in_app_or in Hin as [Hin | Hin]; apply list_elem_of_In in Hin.
      * apply (Hdisj _ Hin). apply list_elem_of_here.
      * exact (HxB Hin).
Qed.

Lemma del_dev_fd_kernel f s : kernel_inv s -> kernel_inv (exec (del_dev_fd f) s).
Proof.
  intros HP. destruct (dev_index_by_fd f (devices (RT s))) as [i |] eqn:E.
  - destruct (del_dev_fd_found f i s E) as (Hd & Ho).
    destruct (index_where_Some _ _ _ E) as (x & Hx & Hp & _). apply Z.eqb_eq in Hp.
    apply (erase_kernel s _ i x Hx Hd); [now rewrite Hp | exact HP].
  - unfold del_dev_fd. rewrite exec_bind_get_rt, E. exact HP.
Qed.

Lemma del_dev_kernel p s : kernel_inv s -> kernel_inv (exec (del_dev p) s).
Proof.
  intros HP. destruct (dev_index_by_path p (devices (RT s))) as [i |] eqn:E.
  - destruct (del_dev_found p i s E) as (Hd & Ho).
    destruct (index_where_Some _ _ _ E) as (x & Hx & _).
    rewrite (list_lookup_total_correct _ _ _ Hx) in Ho.
    exact (erase_kernel s _ i x Hx Hd Ho HP).
  - now rewrite (del_dev_absent p s E).
Qed.

Lemma handle_event_kernel i e p s :
  kernel_inv s -> kernel_inv (exec (handle_event i e p) s).
Proof.
  intros H. unfold handle_event.
  destruct p; [exact H|].
  destruct (type e =? EV_SYN); [exact H|].
  destruct ((type e =? EV_KEY) || (type e =? EV_REL)).
  { rewrite exec_seq_ret. now apply on_activity_kernel. }
  destruct (type e =? EV_ABS); [| exact H].
  rewrite exec_bind.
  change (eval (get_dev i) s) with (devices (RT s) !!! i).
  change (exec (get_dev i) s) with s.
  destruct (negb (cell (abs_seen (devices (RT s) !!! i)) (code e))).
  { rewrite exec_seq_ret. apply set_dev_kernel; [reflexivity | exact H]. }
  cbv zeta.
  destruct (is_hat_abs (code e)).
  - destruct (negb (_ =? 0)); [| exact H].
    rewrite exec_bind, exec_seq_ret.
    apply on_activity_kernel, set_dev_kernel; [reflexivity | exact H].
  - destruct (_ <=? abs32 _); [| exact H].
    rewrite exec_bind, exec_seq_ret.
    apply on_activity_kernel, set_dev_kernel; [reflexivity | exact H].
Qed.

Lemma handle_events_kernel i evs p s :
  kernel_inv s -> kernel_inv (exec (handle_events i evs p) s).
Proof.
  revert p s. induction evs as [| e rest IH]; intros p s H; [exact H|].
  unfold exec. rewrite handle_events_cons. apply IH, handle_event_kernel, H.
Qed.

Lemma handle_reads_kernel f i reads p s :
  kernel_inv s -> kernel_inv (exec (handle_reads f i reads p) s).
Proof.
  revert p s. induction reads as [| r rest IH]; intros p s H; [exact H|].
  destruct r as [evs | | |].
  - unfold exec. rewrite handle_reads_data. apply IH, handle_events_kernel, H.
  - exact H.
  - simpl. rewrite exec_seq_ret. now apply del_dev_fd_kernel.
  - simpl. rewrite exec_seq_ret. now apply del_dev_fd_kernel.
Qed.

Lemma watch_record_kernel r s : kernel_inv s -> kernel_inv (exec (watch_record r) s).
Proof.
  intros H. destruct r as [e o]. unfold watch_record.
  destruct (negb (len e =? 0) && is_event_name (name e)); [| exact H].
  rewrite exec_bind.
  assert (H1 : kernel_inv
                 (exec (if negb (Z.land (mask e) IN_CREATE =? 0)
                        then add_dev (INPUT_DIR +:+ "/" +:+ name e) o else ret tt) s))
    by (destruct (negb (Z.land (mask e) IN_CREATE =? 0)); [now apply add_dev_kernel | exact H]).
  destruct (negb (Z.land (mask e) IN_DELETE =? 0)); [now apply del_dev_kernel | exact H1].
Qed.

Lemma dispatch_kernel r s : kernel_inv s -> kernel_inv (exec (dispatch r) s).
Proof.
  intros H. destruct r as [| recs | f reads]; simpl.
  - now apply reevaluate_kernel.
  - revert s H. induction recs as [| r rest IH]; intros s H; [exact H|].
    simpl. rewrite exec_bind. apply IH, watch_record_kernel, H.
  - rewrite exec_seq_ret. unfold handle_input. rewrite exec_bind_get_rt.
    destruct (dev_index_by_fd f (devices (RT s))); [now apply handle_reads_kernel | exact H].
Qed.

Lemma scan_inputs_kernel entries s :
  kernel_inv s -> kernel_inv (exec (scan_inputs entries) s).
Proof.
  revert s. induction entries as [| [nm o] rest IH]; intros s H; [exact H|].
  simpl. rewrite exec_bind. apply IH.
  destruct (starts_with_dot nm); [exact H|].
  destruct (negb (is_event_name nm)); [exact H | now apply add_dev_kernel].
Qed.

Lemma main_setup_kernel clk b : kernel_inv (exec (main_setup b) (Sys_init clk)).
Proof.
  unfold main_setup. rewrite !exec_bind.
  match goal with |- kernel_inv (exec schedule_timer ?x) =>
    destruct (schedule_timer_out x) as (sec & nsec & Ho);
    apply (kernel_inv_kept x _ [ArmTimer sec nsec]); [| exact Ho | reflexivity |]
  end.
  { match goal with |- context [exec schedule_timer ?x] =>
      destruct (schedule_timer_spec x) as (_ & _ & _ & D & _); now rewrite D end. }
  apply scan_inputs_kernel. intros _. split; [constructor | intros f []].
Qed.

(** In every run a kernel can produce, no descriptor is in the registry
    twice and none of the registry has been closed. *)
Lemma reachable_kernel s : reachable s -> kernel_inv s.
Proof.
  intros (clk & b & rs & _ & ->). rewrite exec_bind.
  pose proof (main_setup_kernel clk b) as H0.
  revert H0. generalize (exec (main_setup b) (Sys_init clk)).
  induction rs as [| r rest IH]; intros s H; [exact H|].
  simpl. rewrite exec_bind. apply IH, dispatch_kernel, H.
Qed.

(** ** Sample runs, continued *)

Lemma demo_seen_reachable : reachable demo_seen.
Proof.
  exists demo_clock, demo_boot,
    [DeviceReady 6 [RData [demo_abs 0 0]]; DeviceReady 7 [RData [demo_abs 0 0]]].
  split; [apply demo_clock_ok|].
  unfold demo_seen, demo_started.
  cbn [event_loop dispatch]. rewrite !exec_bind, !exec_ret. reflexivity.
Qed.

Lemma fast_clock_ok : clock_ok fast_clock.
Proof.
  unfold clock_ok, fast_clock. split.
  - intros n. split; [lia|].
    apply Z.le_lt_trans with 1000000000000; [apply Z.le_min_r | reflexivity].
  - intros n m H. apply Z.min_le_compat_r. lia.
Qed.

Lemma demo_late_reachable : reachable demo_late.
Proof.
  exists fast_clock, demo_boot, []. split; [apply fast_clock_ok|].
  unfold demo_late. rewrite exec_bind. exact (eq_sym (exec_ret tt _)).
Qed.

Lemma demo_two_keys_reachable : reachable demo_two_keys.
Proof.
  exists demo_clock, demo_boot,
    [DeviceReady 6 [RData [demo_key]]; DeviceReady 6 [RData [demo_key]]].
  split; [apply demo_clock_ok|]. unfold demo_two_keys. reflexivity.
Qed.

(** * The claims *)

(** C1.  From a reachable state other than ACTIVE, the re-evaluation the
    timer triggers never ends in ACTIVE; and a turn of the loop that does end
    in ACTIVE is a turn on a device descriptor in which [on_activity]
    accepted a pulse, at the clock reading the turn started with. *)
Theorem back_to_active_only_by_pulse (s : Sys) (r : Ready) :
  reachable s -> state (RT s) <> ACTIVE ->
  state (RT (exec reevaluate s)) <> ACTIVE /\
  (state (RT (exec (dispatch r) s)) = ACTIVE ->
     (exists f reads, r = DeviceReady f reads) /\
     pulses (env (exec (dispatch r) s))
       = pulses (env s) ++ [(clock (env s) (ticks (env s)), true)] /\
     last_pulse_ms (RT (exec (dispatch r) s)) = clock (env s) (ticks (env s))).
Proof.
  intros Hreach Hst. pose proof (reachable_Inv s Hreach) as HInv.
  destruct (reevaluate_spec s HInv) as (_ & Hre & _).
  split; [exact (Hre Hst)|].
  destruct r as [| recs | f reads]; simpl; intros Hact.
  - exfalso. exact (Hre Hst Hact).
  - exfalso. destruct (watch_records_dev_only recs s) as (E & _). congruence.
  - rewrite exec_seq_ret in *.
    destruct (handle_input_shape f reads s) as [D | (s1 & D1 & D2)].
    + exfalso. destruct D as (E & _). congruence.
    + split; [exists f, reads; reflexivity|].
      pose proof (Inv_dev_only s s1 HInv D1) as HInv1.
      destruct D1 as (E1 & (_ & _ & _ & _ & Ec1) & Et1 & Ep1 & _).
      destruct D2 as (E2 & (_ & El2 & _) & _ & Ep2 & _).
      destruct (on_activity_Inv s1 HInv1)
        as (_ & _ & _ & [(_ & Ha & _) | (_ & _ & Hl & _ & Hp)]).
      * exfalso. congruence.
      * rewrite Ep2, El2, Hp, Hl, Ep1, Ec1, Et1. split; reflexivity.
Qed.

(** The sample machine, IDLE after the first expiry of the timer: a further
    expiry leaves it out of ACTIVE, and a key event on the stick brings it
    back, the pulse mark taking the clock reading. *)
Lemma back_to_active_only_by_pulse_witness :
  reachable demo_idle /\ state (RT demo_idle) <> ACTIVE /\
  state (RT (exec reevaluate demo_idle)) <> ACTIVE /\
  last_pulse_ms (RT (exec (dispatch (DeviceReady 6 [RData [demo_key]])) demo_idle))
    = clock (env demo_idle) (ticks (env demo_idle)).
Proof.
  assert (H : state (RT demo_idle) <> ACTIVE) by (vm_compute; discriminate).
  split; [apply demo_idle_reachable|]. split; [exact H|].
  destruct (back_to_active_only_by_pulse demo_idle (DeviceReady 6 [RData [demo_key]])
              demo_idle_reachable H) as [H1 H2].
  split; [exact H1|].
  assert (Ha : state (RT (exec (dispatch (DeviceReady 6 [RData [demo_key]])) demo_idle))
               = ACTIVE) by (vm_compute; reflexivity).
  exact (proj2 (proj2 (H2 Ha))).
Defined.

(** C2.  A call of [on_activity] lets the pulse through only when 3000 ms or
    more have passed since the last accepted pulse, and then both clock marks
    take the reading; a pulse the debounce rejects leaves [RT], the globals
    and the list of issued calls (state file, hooks, timer) as they were.  So
    of two pulses less than 3000 ms apart, the first accepted, the second
    changes nothing. *)
Theorem debounce_gate (s : Sys) :
  let now := clock (env s) (ticks (env s)) in
  let s' := exec on_activity s in
  let now' := clock (env s') (ticks (env s')) in
  let s'' := exec on_activity s' in
  in_int64 (now - last_pulse_ms (RT s)) ->
  (now - last_pulse_ms (RT s) < 3000 ->
     RT s' = RT s /\ AXIS_DZ_PCT s' = AXIS_DZ_PCT s /\
     HOOKS_MIRROR s' = HOOKS_MIRROR s /\ out (env s') = out (env s) /\
     pulses (env s') = pulses (env s) ++ [(now, false)]) /\
  (3000 <= now - last_pulse_ms (RT s) ->
     last_pulse_ms (RT s') = now /\ last_activity_ms (RT s') = now /\
     state (RT s') = ACTIVE /\
     pulses (env s') = pulses (env s) ++ [(now, true)]) /\
  (pulses (env s') = pulses (env s) ++ [(now, true)] ->
     3000 <= now - last_pulse_ms (RT s)) /\
  (3000 <= now - last_pulse_ms (RT s) ->
   in_int64 (now' - now) -> now' - now < 3000 ->
     RT s'' = RT s' /\ out (env s'') = out (env s') /\
     pulses (env s'') = pulses (env s') ++ [(now', false)]).
Proof.
  cbv zeta. intros Hr.
  assert (Esub : sub64 (clock (env s) (ticks (env s))) (last_pulse_ms (RT s))
                 = clock (env s) (ticks (env s)) - last_pulse_ms (RT s))
    by (apply wrap64_small, Hr).
  destruct (sub64 (clock (env s) (ticks (env s))) (last_pulse_ms (RT s)) <? DEBOUNCE_MS) eqn:E.
  - rewrite (on_activity_rejected s E). rewrite Esub in E.
    apply Z.ltb_lt in E. unfold DEBOUNCE_MS in E.
    split; [intros _; repeat split; reflexivity|]. split; [lia|].
    split; [| lia]. cbn [env pulses tick_reject].
    intros H. apply app_inv_head in H. discriminate.
  - destruct (on_activity_accepted s E) as (A1 & A2 & A3 & A4 & A5 & A6 & A7 & A8 & A9).
    rewrite Esub in E. apply Z.ltb_ge in E. unfold DEBOUNCE_MS in E.
    split; [lia|]. split; [intros _; repeat split; assumption|].
    split; [intros _; exact E|]. intros _ Hr' Hlt.
    assert (E' : (sub64 (clock (env (exec on_activity s)) (ticks (env (exec on_activity s))))
                    (last_pulse_ms (RT (exec on_activity s))) <? DEBOUNCE_MS) = true).
    { rewrite A2. unfold sub64. rewrite (wrap64_small _ Hr').
      apply Z.ltb_lt. unfold DEBOUNCE_MS. exact Hlt. }
    rewrite (on_activity_rejected _ E'). repeat split; reflexivity.
Qed.

(** The sample machine after its setup, under the slow clock: a first pulse
    is accepted 5002 ms after boot, and a second one 2 ms later changes
    nothing. *)
Lemma debounce_gate_witness :
  in_int64 (clock (env demo_slow) (ticks (env demo_slow)) - last_pulse_ms (RT demo_slow)) /\
  3000 <= clock (env demo_slow) (ticks (env demo_slow)) - last_pulse_ms (RT demo_slow) /\
  last_pulse_ms (RT (exec on_activity demo_slow))
    = clock (env demo_slow) (ticks (env demo_slow)) /\
  RT (exec on_activity (exec on_activity demo_slow)) = RT (exec on_activity demo_slow).
Proof.
  assert (H : in_int64 (clock (env demo_slow) (ticks (env demo_slow))
                        - last_pulse_ms (RT demo_slow)))
    by (vm_compute; split; discriminate).
  assert (H3 : 3000 <= clock (env demo_slow) (ticks (env demo_slow))
                       - last_pulse_ms (RT demo_slow))
    by (vm_compute; discriminate).
  split; [exact H|]. split; [exact H3|].
  destruct (debounce_gate demo_slow H) as (_ & G2 & _ & G4).
  split; [exact (proj1 (G2 H3))|].
  refine (proj1 (G4 H3 _ _)).
  - vm_compute. split; discriminate.
  - vm_compute. reflexivity.
Defined.

(** C3 as stated fails.  On the sample stick, axis 0 recorded at 0 with a
    dead-zone of 9830: an event of value 6000 on that axis leaves the
    recorded value at 0, and so does an event of value 20000 that comes after
    a key event in the same batch. *)
Lemma unqualified_value_is_not_recorded :
  type (demo_abs 0 6000) = EV_ABS /\
  cell (abs_dz demo_dev) 0 = 9830 /\
  cell (abs_last demo_dev) 0 = 0 /\
  cell (abs_last (devices (RT (exec (handle_event 0 (demo_abs 0 6000) false) demo_seen))
                  !!! 0%nat)) (code (demo_abs 0 6000))
    <> value (demo_abs 0 6000) /\
  cell (abs_last (devices (RT (exec (handle_input 6 [RData [demo_key; demo_abs 0 20000]])
                                    demo_seen)) !!! 0%nat)) (code (demo_abs 0 20000))
    <> value (demo_abs 0 20000).
Proof.
  split; [reflexivity|]. split; [vm_compute; reflexivity|].
  split; [vm_compute; reflexivity|].
  split; vm_compute; discriminate.
Qed.

(** C3, as the code has it.  An absolute-axis event makes the classifier
    record its value for the axis exactly when no pulse was made earlier in
    the batch and the event is the first one seen on the axis or counts as
    activity; in every other case (a delta below the dead-zone, an unchanged
    hat, an event after the pulse of the batch) the recorded value stays. *)
Theorem axis_value_recorded_when_it_counts
    (s : Sys) (i : nat) (dv : Dev) (e : input_event) (pulsed : bool) :
  devices (RT s) !! i = Some dv -> wf_dev dv ->
  type e = EV_ABS -> 0 <= code e <= ABS_MAX ->
  axis_delta dv e <= 2147483647 ->
  cell (abs_last (devices (RT (exec (handle_event i e pulsed) s)) !!! i)) (code e)
    = if abs_records pulsed dv e then value e else cell (abs_last dv) (code e).
Proof.
  intros Hdv (Hl & _) Ht Hc Hd.
  pose proof (lookup_lt_Some _ _ _ Hdv) as Hi.
  pose proof (code_in_array _ _ Hl Hc) as Hcl.
  destruct pulsed.
  { unfold exec. rewrite handle_event_pulsed. simpl.
    now rewrite (list_lookup_total_correct _ _ _ Hdv). }
  unfold exec, abs_records. rewrite (handle_event_abs i e s dv Hdv Ht Hd).
  destruct (negb (cell (abs_seen dv) (code e))) eqn:Es; simpl.
  - rewrite (list_lookup_total_insert_eq _ _ _ Hi). simpl.
    now apply cell_set_cell_eq.
  - destruct (abs_qualifies dv e); simpl.
    + destruct (on_activity_pulses (exec (set_dev i (dev_recorded dv e)) s)) as (Hds & _).
      fold (exec on_activity (exec (set_dev i (dev_recorded dv e)) s)).
      rewrite Hds, (devices_set_dev i _ s _ eq_refl Hi). simpl.
      now apply cell_set_cell_eq.
    + now rewrite (list_lookup_total_correct _ _ _ Hdv).
Qed.

(** The sample stick, axis 0 recorded at 0: an event of value 12000. *)
Lemma axis_value_recorded_when_it_counts_witness :
  devices (RT demo_seen) !! 0%nat = Some demo_dev /\
  cell (abs_last (devices (RT (exec (handle_event 0 (demo_abs 0 12000) false) demo_seen))
                  !!! 0%nat)) (code (demo_abs 0 12000))
    = if abs_records false demo_dev (demo_abs 0 12000)
      then value (demo_abs 0 12000)
      else cell (abs_last demo_dev) (code (demo_abs 0 12000)).
Proof.
  assert (H1 : devices (RT demo_seen) !! 0%nat = Some demo_dev) by (vm_compute; reflexivity).
  split; [exact H1|].
  apply (axis_value_recorded_when_it_counts demo_seen 0 demo_dev (demo_abs 0 12000) false H1).
  - vm_compute. repeat split; reflexivity.
  - reflexivity.
  - vm_compute. split; discriminate.
  - vm_compute. discriminate.
Defined.

(** C4.  The loader does not clamp the timeouts.  A config that sets idle
    (or extended) to 50000 s leaves the timeout at its default of 900 s
    (3600 s), where the description gives 12 h; one that sets it to 30 s
    leaves the default too, where the description gives 60 s.
    [parse_pos_int] answers -1 for 50000, on the line whose comment says
    that it clamps to 12 h, and the caller drops what is below 60. *)
Theorem out_of_range_timeout_is_not_clamped :
  strtol "50000" = 50000 /\ parse_pos_int "50000" = -1 /\
  described_timeout 50000 = 43200 /\
  cfg_idle_s (read_config_or_defaults no_strtod (Some ("idle=50000" +:+ newline))) = 900 /\
  cfg_extended_s
    (read_config_or_defaults no_strtod (Some ("extended=50000" +:+ newline))) = 3600 /\
  strtol "30" = 30 /\ parse_pos_int "30" = 30 /\
  described_timeout 30 = 60 /\
  cfg_idle_s (read_config_or_defaults no_strtod (Some ("idle=30" +:+ newline))) = 900 /\
  cfg_extended_s
    (read_config_or_defaults no_strtod (Some ("extended=30" +:+ newline))) = 3600.
Proof. vm_compute. repeat split; reflexivity. Qed.

(** What the loader does with the two timeouts, for every config file.
    Both end within 60 s and 12 h.  A line that sets idle (or extended) to
    a value within that range sets the timeout to it, as described; a line
    that sets it to a value below 60 s or above 12 h leaves the timeout at
    the value it had, where the description clamps. *)
Theorem timeouts_in_range_or_ignored (strtod : string -> option double) :
  (forall file, timeouts_in_range (read_config_or_defaults strtod file)) /\
  (forall c val,
     cfg_idle_s (cfg_line strtod c ("idle=" +:+ val))
       = if (60 <=? strtol (rtrim (skip_blanks (cstr val))))
            && (strtol (rtrim (skip_blanks (cstr val))) <=? 43200)
         then strtol (rtrim (skip_blanks (cstr val)))
         else cfg_idle_s c) /\
  (forall c val,
     cfg_extended_s (cfg_line strtod c ("extended=" +:+ val))
       = if (60 <=? strtol (rtrim (skip_blanks (cstr val))))
            && (strtol (rtrim (skip_blanks (cstr val))) <=? 43200)
         then strtol (rtrim (skip_blanks (cstr val)))
         else cfg_extended_s c).
Proof.
  split; [apply read_config_range|].
  split; intros c val.
  - rewrite cfg_line_idle. unfold cfg_key_value. simpl String.eqb. cbv iota zeta.
    rewrite <- accepted_timeout.
    destruct (Z.leb_spec 60 (parse_pos_int (rtrim (skip_blanks (cstr val))))) as [H | H];
      [| reflexivity].
    simpl. rewrite parse_pos_int_value in *.
    destruct ((0 <=? strtol (rtrim (skip_blanks (cstr val))))
              && (strtol (rtrim (skip_blanks (cstr val))) <=? 43200)); [reflexivity | lia].
  - rewrite cfg_line_extended. unfold cfg_key_value. simpl String.eqb. cbv iota zeta.
    rewrite <- accepted_timeout.
    destruct (Z.leb_spec 60 (parse_pos_int (rtrim (skip_blanks (cstr val))))) as [H | H];
      [| reflexivity].
    simpl. rewrite parse_pos_int_value in *.
    destruct ((0 <=? strtol (rtrim (skip_blanks (cstr val))))
              && (strtol (rtrim (skip_blanks (cstr val))) <=? 43200)); [reflexivity | lia].
Qed.

(** C5.  Entering the state the machine is in changes nothing: the state
    variable is not written, the state file is not written, no hook folder is
    run; the whole system, the list of issued calls included, is the same. *)
Theorem enter_current_state_is_noop (s : Sys) :
  enter (state (RT s)) s = (tt, s).
Proof.
  unfold enter, bind, get_rt. now rewrite State_eqb_refl.
Qed.

(** C6 as stated fails.  On the sample stick (dead-zone 9830 on axis 0,
    recorded at 0), two further batches of one event each, of values 6000 and
    12000: the first makes no pulse and the second makes one, though it is
    6000 away from the value observed before it, which is below the
    dead-zone.  On the device without calibration the stored width of axis 0
    is 0, and an event 10 away from the recorded value makes no pulse.  In a
    batch that starts with a key event, an axis event 20000 away from the
    recorded value is not looked at: the batch makes the one pulse of the
    key. *)
Lemma pulse_though_last_observation_is_near :
  is_hat_abs 0 = false /\
  cell (abs_dz demo_dev) 0 = 9830 /\
  pulses (env demo_seen) = [] /\ pulses (env demo_second) = [] /\
  length (pulses (env demo_third)) = 1%nat /\
  Z.abs (12000 - 6000) < 9830 /\
  cell (abs_dz (devices (RT demo_seen) !!! 1%nat)) 0 = 0 /\
  cell (abs_last (devices (RT demo_seen) !!! 1%nat)) 0 = 0 /\
  pulses (env (exec (handle_input 7 [RData [demo_abs 0 10]]) demo_seen)) = [] /\
  length (pulses (env (exec (handle_input 6 [RData [demo_key; demo_abs 0 20000]])
                            demo_seen))) = 1%nat.
Proof. vm_compute. repeat split; reflexivity. Qed.

(** C6, as the code has it.  On an axis that is not a hat, for an event
    handled before any pulse of its batch: the first observation records the
    value, marks the axis seen and makes no pulse; a later observation makes
    a pulse exactly when its distance from the recorded value (the baseline,
    or the value of the last observation that counted) reaches the width in
    force, and changes nothing otherwise. *)
Theorem dead_zone_from_recorded_value
    (s : Sys) (i : nat) (dv : Dev) (e : input_event) :
  devices (RT s) !! i = Some dv -> wf_dev dv ->
  type e = EV_ABS -> 0 <= code e <= ABS_MAX -> is_hat_abs (code e) = false ->
  axis_delta dv e <= 2147483647 ->
  let r := handle_event i e false s in
  let dv' := devices (RT (snd r)) !!! i in
  (cell (abs_seen dv) (code e) = false ->
     fst r = false /\ pulses (env (snd r)) = pulses (env s) /\
     cell (abs_last dv') (code e) = value e /\
     cell (abs_seen dv') (code e) = true) /\
  (cell (abs_seen dv) (code e) = true ->
     (effective_dz dv (code e) <= Z.abs (value e - cell (abs_last dv) (code e)) ->
        fst r = true /\
        exists b, pulses (env (snd r))
                  = pulses (env s) ++ [(clock (env s) (ticks (env s)), b)]) /\
     (Z.abs (value e - cell (abs_last dv) (code e)) < effective_dz dv (code e) ->
        r = (false, s))).
Proof.
  intros Hdv (Hl & Hs & _) Ht Hc Hh Hd. cbv zeta.
  pose proof (lookup_lt_Some _ _ _ Hdv) as Hi.
  rewrite (handle_event_abs i e s dv Hdv Ht Hd).
  unfold abs_qualifies. rewrite Hh. fold (axis_delta dv e).
  split; intros Hseen; rewrite Hseen; simpl.
  - split; [reflexivity|]. split; [reflexivity|].
    rewrite (list_lookup_total_insert_eq _ _ _ Hi). simpl.
    split; apply cell_set_cell_eq.
    + exact (code_in_array _ _ Hl Hc).
    + rewrite Hs. unfold ABS_CNT, ABS_MAX in *. lia.
  - split; intros Hcmp.
    + destruct (Z.leb_spec (effective_dz dv (code e)) (axis_delta dv e)); [| lia].
      split; [reflexivity|]. simpl.
      destruct (on_activity_pulses (exec (set_dev i (dev_recorded dv e)) s)) as (_ & b & Hp).
      exists b. exact Hp.
    + destruct (Z.leb_spec (effective_dz dv (code e)) (axis_delta dv e)); [lia | reflexivity].
Qed.

(** The sample stick, axis 0 recorded at 0 with a dead-zone of 9830: an
    event of value 12000 counts. *)
Lemma dead_zone_from_recorded_value_witness :
  devices (RT demo_seen) !! 0%nat = Some demo_dev /\
  fst (handle_event 0 (demo_abs 0 12000) false demo_seen) = true.
Proof.
  assert (H1 : devices (RT demo_seen) !! 0%nat = Some demo_dev) by (vm_compute; reflexivity).
  split; [exact H1|].
  refine (proj1 (proj1 (proj2 (dead_zone_from_recorded_value demo_seen 0 demo_dev
                   (demo_abs 0 12000) H1 _ _ _ _ _) _) _)).
  - vm_compute. repeat split; reflexivity.
  - reflexivity.
  - vm_compute. split; discriminate.
  - reflexivity.
  - vm_compute. discriminate.
  - vm_compute. reflexivity.
  - vm_compute. discriminate.
Defined.

(** C7.  One call of [handle_input] makes at most one pulse, whatever the
    reads return; and when the device is tracked and the reads return data
    until one returns EAGAIN, every chunk of data before it is read. *)
Theorem one_pulse_per_batch (f : Z) (s : Sys) :
  (forall reads, exists k,
      (length k <= 1)%nat /\
      pulses (env (exec (handle_input f reads) s)) = pulses (env s) ++ k) /\
  (forall chunks rest,
      dev_index_by_fd f (devices (RT s)) <> None ->
      eval (handle_input f (map RData chunks ++ RAgain :: rest)) s = rest).
Proof.
  split.
  - intros reads.
    destruct (handle_input_shape f reads s) as [D | (s1 & D1 & D2)].
    + exists []. destruct D as (_ & _ & _ & Hp & _). rewrite Hp, app_nil_r.
      split; [simpl; lia | reflexivity].
    + destruct D1 as (_ & _ & _ & Ep1 & _). destruct D2 as (_ & _ & _ & Ep2 & _).
      destruct (on_activity_pulses s1) as (_ & b & Hp).
      eexists. split; [| rewrite Ep2, Hp, Ep1; reflexivity]. simpl. lia.
  - intros chunks rest Hd. unfold handle_input.
    rewrite eval_bind, eval_get_rt, exec_get_rt.
    destruct (dev_index_by_fd f (devices (RT s))) as [i |]; [| congruence].
    apply handle_reads_drains.
Qed.

(** Two chunks of key events and then EAGAIN on the sample stick: all is
    read. *)
Lemma one_pulse_per_batch_witness :
  dev_index_by_fd 6 (devices (RT demo_started)) <> None /\
  eval (handle_input 6 (map RData [[demo_key; demo_key]; [demo_key]] ++ RAgain :: []))
       demo_started = [].
Proof.
  assert (H : dev_index_by_fd 6 (devices (RT demo_started)) <> None)
    by (vm_compute; discriminate).
  split; [exact H|].
  exact (proj2 (one_pulse_per_batch 6 demo_started) [[demo_key; demo_key]; [demo_key]] [] H).
Defined.

(** C8.  The calibration of an axis that reports the whole range of [int],
    with the dead-zone fraction configured at 0.9: the rounded share of the
    span is 3865470566, the conversion to [int] wraps it below zero, and the
    dead-zone stored is the floor 64. *)
Theorem full_range_axis_dead_zone_wraps :
  clamp_pct d_0_90 = d_0_90 /\
  full_range_reply 0 = Some (-2147483648, 2147483647) /\
  is_hat_abs 0 = false /\
  lround (dmul (double_of_Z (2147483647 - -2147483648)) d_0_90) = 3865470566 /\
  described_dz d_0_90 (2147483647 - -2147483648) = 3865470566 /\
  cell (abs_dz (init_abs_info d_0_90 full_range_reply Dev_new)) 0 = 64.
Proof. vm_compute. repeat split; reflexivity. Qed.

(** C9.  In a reachable state both timeouts are 60 s or more, and when the
    state is not ACTIVE every pulse is accepted: [on_activity] called there
    accepts, and every pulse that a turn of the loop started there makes is
    logged as accepted.  A pulse the debounce rejects is therefore made in
    state ACTIVE only. *)
Theorem no_debounce_loss_when_idle (s : Sys) (r : Ready) :
  reachable s ->
  (60 <= idle_s (RT s) /\ 60 <= extended_s (RT s)) /\
  (state (RT s) <> ACTIVE ->
     pulses (env (exec on_activity s))
       = pulses (env s) ++ [(clock (env s) (ticks (env s)), true)]) /\
  exists k, pulses (env (exec (dispatch r) s)) = pulses (env s) ++ k /\
            (state (RT s) <> ACTIVE -> Forall (fun p => snd p = true) k).
Proof.
  intros Hreach. pose proof (reachable_Inv s Hreach) as HInv.
  split; [destruct HInv as (_ & Hi & He & _); lia|].
  split.
  { intros Hst.
    destruct (on_activity_Inv s HInv) as (_ & _ & _ & [(_ & Ha & _) | (_ & _ & _ & _ & Hp)]);
      [congruence | exact Hp]. }
  destruct r as [| recs | f reads]; simpl.
  - exists []. destruct (reevaluate_spec s HInv) as (_ & _ & Hp & _).
    rewrite Hp, app_nil_r. split; [reflexivity | constructor].
  - exists []. destruct (watch_records_dev_only recs s) as (_ & _ & _ & Hp & _).
    rewrite Hp, app_nil_r. split; [reflexivity | constructor].
  - rewrite exec_seq_ret.
    destruct (handle_input_shape f reads s) as [D | (s1 & D1 & D2)].
    + exists []. destruct D as (_ & _ & _ & Hp & _).
      rewrite Hp, app_nil_r. split; [reflexivity | constructor].
    + pose proof (Inv_dev_only s s1 HInv D1) as HInv1.
      destruct D1 as (E1 & _ & _ & Ep1 & _). destruct D2 as (_ & _ & _ & Ep2 & _).
      destruct (on_activity_Inv s1 HInv1)
        as (_ & _ & _ & [(_ & Ha & _ & Hp) | (_ & _ & _ & _ & Hp)]);
        eexists; (split; [rewrite Ep2, Hp, Ep1; reflexivity|]); intros Hst.
      * congruence.
      * repeat constructor.
Qed.

(** The sample machine, IDLE: a pulse is accepted. *)
Lemma no_debounce_loss_when_idle_witness :
  reachable demo_idle /\ state (RT demo_idle) <> ACTIVE /\
  pulses (env (exec on_activity demo_idle))
    = pulses (env demo_idle) ++ [(clock (env demo_idle) (ticks (env demo_idle)), true)].
Proof.
  assert (H : state (RT demo_idle) <> ACTIVE) by (vm_compute; discriminate).
  split; [apply demo_idle_reachable|]. split; [exact H|].
  exact (proj1 (proj2 (no_debounce_loss_when_idle demo_idle TimerReady
                         demo_idle_reachable)) H).
Defined.

(** C10 as stated fails.  The path of the sample stick is tracked; a second
    [add_dev] of it whose [open] succeeds with descriptor 8, and whose
    registration with epoll is refused, leaves the registry as it was. *)
Lemma add_dev_refused_by_epoll_adds_nothing :
  dev_index_by_path "/dev/input/event0" (devices (RT demo_started)) = Some 0%nat /\
  open_fd demo_refused = 8 /\
  devices (RT (exec (add_dev "/dev/input/event0" demo_refused) demo_started))
    = devices (RT demo_started).
Proof. vm_compute. repeat split; reflexivity. Qed.

(** C10, as the code has it.  [add_dev] checks no path.  When the path is
    tracked already and [open] succeeds, then: if epoll accepts the
    descriptor, a second entry is appended with the same path and the new
    descriptor, the entry tracked staying where it was, and the one call
    issued is the registration; and in every run under a kernel, which
    hands out no descriptor that the process still holds, the new
    descriptor differs from that of the entry tracked.  If epoll refuses
    the descriptor, it is closed and nothing is appended. *)
Theorem add_dev_appends_second_entry (s : Sys) (p : string) (o : OpenReply) (d0 : Dev) :
  In d0 (devices (RT s)) -> path d0 = p -> 0 <= open_fd o ->
  let s' := exec (add_dev p o) s in
  (epoll_add_ok o = true ->
     exists d1,
       devices (RT s') = devices (RT s) ++ [d1] /\
       path d1 = p /\ fd d1 = open_fd o /\
       In d0 (devices (RT s')) /\
       out (env s') = out (env s) ++ [EpollAdd (open_fd o)] /\
       (reachable s -> kernel_trace (out (env s')) -> fd d1 <> fd d0)) /\
  (epoll_add_ok o = false ->
     devices (RT s') = devices (RT s) /\
     out (env s') = out (env s) ++ [EpollAdd (open_fd o); Close (open_fd o)]).
Proof.
  intros Hin Hp Hf. cbv zeta. split; intros He.
  - destruct (add_dev_new p o s Hf He) as (d1 & Hd & Fd & Pd & _ & _ & Ho).
    exists d1. split; [exact Hd|]. split; [exact Pd|]. split; [exact Fd|].
    split; [rewrite Hd; apply in_or_app; left; exact Hin|].
    split; [exact Ho|].
    intros Hreach Hk E. rewrite Ho in Hk.
    apply (kernel_trace_added _ _ _ Hk).
    destruct (reachable_kernel s Hreach (kernel_trace_prefix _ _ Hk)) as (_ & Hheld).
    apply Hheld. rewrite <- Fd, E. now apply in_map.
  - unfold add_dev. destruct (Z.ltb_spec (open_fd o) 0); [lia|].
    rewrite exec_bind, He. cbn. rewrite <- app_assoc. split; reflexivity.
Qed.

(** A second [add_dev] of the sample stick, with descriptor 8, where the
    process holds 4 and 5 (timer and watch), 6 and 7 (the two devices). *)
Lemma add_dev_appends_second_entry_witness :
  kernel_trace (out (env (exec (add_dev "/dev/input/event0" demo_again) demo_started))) /\
  exists d1,
    devices (RT (exec (add_dev "/dev/input/event0" demo_again) demo_started))
      = devices (RT demo_started) ++ [d1] /\
    path d1 = "/dev/input/event0"%string /\ fd d1 = 8 /\
    fd d1 <> fd (devices (RT demo_started) !!! 0%nat) /\
    In (devices (RT demo_started) !!! 0%nat)
       (devices (RT (exec (add_dev "/dev/input/event0" demo_again) demo_started))).
Proof.
  assert (Hk : kernel_trace
                 (out (env (exec (add_dev "/dev/input/event0" demo_again) demo_started))))
    by (vm_compute; reflexivity).
  split; [exact Hk|].
  destruct (proj1 (add_dev_appends_second_entry demo_started "/dev/input/event0" demo_again
                     (devices (RT demo_started) !!! 0%nat)
                     ltac:(vm_compute; left; reflexivity) ltac:(vm_compute; reflexivity)
                     ltac:(vm_compute; discriminate)) eq_refl)
    as (d1 & Hd & Pd & Fd & Hin & _ & Hne).
  exists d1. split; [exact Hd|]. split; [exact Pd|]. split; [exact Fd|].
  split; [exact (Hne demo_started_reachable Hk) | exact Hin].
Defined.
(** * Further properties of the code *)

(** X1.  The turn of the timer moves the machine by the table, with the
    time since the last activity as the clock reads it at the start of the
    turn: ACTIVE becomes IDLE once the idle timeout has passed, IDLE becomes
    EXTENDED once both timeouts have passed, EXTENDED stays.  ACTIVE never
    becomes EXTENDED in one turn, however long the time passed.  The marks,
    the registry and the history of the pulses are left alone, and the last
    call of the turn sets the timer to what is left of the wait of the new
    state at the next clock reading. *)
Theorem timer_turn_follows_the_table (s : Sys) :
  reachable s ->
  let elapsed := clock (env s) (ticks (env s)) - last_activity_ms (RT s) in
  let s' := exec (dispatch TimerReady) s in
  state (RT s') =
    match state (RT s) with
    | ACTIVE => if idle_s (RT s) * 1000 <=? elapsed then IDLE else ACTIVE
    | IDLE => if idle_s (RT s) * 1000 + extended_s (RT s) * 1000 <=? elapsed
              then EXTENDED else IDLE
    | EXTENDED => EXTENDED
    end /\
  (state (RT s) = ACTIVE -> state (RT s') <> EXTENDED) /\
  last_activity_ms (RT s') = last_activity_ms (RT s) /\
  last_pulse_ms (RT s') = last_pulse_ms (RT s) /\
  devices (RT s') = devices (RT s) /\
  pulses (env s') = pulses (env s) /\
  exists o sec nsec,
    out (env s') = o ++ [ArmTimer sec nsec] /\
    timer_ms (sec, nsec)
      = due_ms (state (RT s')) (idle_s (RT s) * 1000) (extended_s (RT s) * 1000)
               (clock (env s) (S (ticks (env s))) - last_activity_ms (RT s)).
Proof.
  intros Hreach. cbv zeta. cbn [dispatch].
  pose proof (reachable_Inv s Hreach) as HInv.
  destruct (reevaluate_table s HInv) as (Es & El & Ep & sec & nsec & Ho & Ht).
  destruct (reevaluate_spec s HInv) as (_ & _ & Epl & _).
  rewrite Es. unfold after_timer, elapsed_ms.
  split; [reflexivity|].
  split; [intros ->; destruct (_ <=? _); discriminate|].
  split; [exact El|]. split; [exact Ep|]. split; [apply reevaluate_devices|].
  split; [exact Epl|].
  eexists _, sec, nsec. split; [rewrite Ho, app_assoc; reflexivity | exact Ht].
Qed.

(** The sample machine after its setup: at the next reading of the clock,
    2000 s after the activity mark, the idle timeout of 900 s has passed,
    and the turn of the timer makes it IDLE. *)
Lemma timer_turn_follows_the_table_witness :
  reachable demo_started /\
  state (RT (exec (dispatch TimerReady) demo_started)) = IDLE.
Proof.
  split; [apply demo_started_reachable|].
  pose proof (proj1 (timer_turn_follows_the_table demo_started demo_started_reachable)) as H.
  cbv zeta in H. rewrite H. vm_compute. reflexivity.
Defined.

(** X2.  Between two turns of the loop the state file holds the digit of
    the state of the machine: 1 in ACTIVE, 0 in IDLE and in EXTENDED. *)
Theorem state_file_holds_the_state (s : Sys) :
  reachable s ->
  state_file (out (env s))
    = Some (match state (RT s) with ACTIVE => 1 | _ => 0 end).
Proof.
  intros Hreach. destruct (reachable_live s Hreach) as (_ & Hf & _).
  rewrite Hf. unfold state_digit. destruct (state (RT s)); reflexivity.
Qed.

(** The sample machine, IDLE: the state file holds 0. *)
Lemma state_file_holds_the_state_witness :
  reachable demo_idle /\ state_file (out (env demo_idle)) = Some 0.
Proof.
  split; [apply demo_idle_reachable|].
  rewrite (state_file_holds_the_state demo_idle demo_idle_reachable).
  vm_compute. reflexivity.
Defined.

(** X3.  Between two turns of the loop the timer is set, and its setting
    is zero (the timer is stopped) exactly when the machine is in
    EXTENDED: in ACTIVE and in IDLE an expiry is always pending. *)
Theorem timer_pending_unless_extended (s : Sys) :
  reachable s ->
  exists t, timer_setting (out (env s)) = Some t /\
            (t = (0, 0) <-> state (RT s) = EXTENDED).
Proof. intros Hreach. exact (proj2 (proj2 (reachable_live s Hreach))). Qed.

(** The sample machine, IDLE: the timer is set, and not to zero. *)
Lemma timer_pending_unless_extended_witness :
  reachable demo_idle /\
  exists t, timer_setting (out (env demo_idle)) = Some t /\ t <> (0, 0).
Proof.
  split; [apply demo_idle_reachable|].
  destruct (timer_pending_unless_extended demo_idle demo_idle_reachable) as (t & Ht & Hz).
  exists t. split; [exact Ht|]. intros E. apply Hz in E. vm_compute in E. discriminate.
Defined.

(** X4.  [schedule_timer] sets the timer to what is left of the wait of
    the state, as the clock reads: the idle timeout less the time since the
    last activity in ACTIVE, both timeouts less that time in IDLE, one
    millisecond when nothing is left, and zero in EXTENDED.  The setting is
    a valid [timespec] of whole milliseconds, and it is the only call
    issued. *)
Theorem timer_is_set_to_what_is_left (s : Sys) :
  in_bounds s ->
  exists sec nsec,
    out (env (exec schedule_timer s)) = out (env s) ++ [ArmTimer sec nsec] /\
    sec * 1000 + nsec / 1000000
      = match state (RT s) with
        | ACTIVE => Z.max 1 (idle_s (RT s) * 1000 - elapsed_ms s)
        | IDLE => Z.max 1 (idle_s (RT s) * 1000 + extended_s (RT s) * 1000 - elapsed_ms s)
        | EXTENDED => 0
        end /\
    0 <= sec /\ 0 <= nsec < 1000000000 /\ nsec mod 1000000 = 0.
Proof.
  intros Hb. destruct (schedule_timer_due s Hb) as (sec & nsec & Ho & Ht & Hn & Hm & Hs).
  exists sec, nsec. split; [exact Ho|]. split; [exact Ht|].
  split; [exact Hs|]. split; [exact Hn | exact Hm].
Qed.

(** The sample machine after its setup, the clock reading 2000 s after
    the activity mark: the timer is set to one millisecond. *)
Lemma timer_is_set_to_what_is_left_witness :
  in_bounds demo_started /\
  exists sec nsec,
    out (env (exec schedule_timer demo_started))
      = out (env demo_started) ++ [ArmTimer sec nsec] /\
    sec * 1000 + nsec / 1000000 = 1.
Proof.
  assert (Hb : in_bounds demo_started)
    by exact (Inv_in_bounds _ (reachable_Inv _ demo_started_reachable)).
  split; [exact Hb|].
  destruct (timer_is_set_to_what_is_left demo_started Hb) as (sec & nsec & Ho & Ht & _).
  exists sec, nsec. split; [exact Ho|]. rewrite Ht. vm_compute. reflexivity.
Defined.

(** X5.  A pulse that the debounce lets through makes the machine ACTIVE
    and issues these calls and no other: when the machine was not ACTIVE,
    the write of 1 to the state file and the run of the folder active.d of
    the hooks root, and of the mirror when one is configured; then one
    setting of the timer, to the idle timeout less the time the clock
    gained since the pulse was read. *)
Theorem accepted_pulse_restarts_the_wait (s : Sys) :
  Inv s ->
  3000 <= clock (env s) (ticks (env s)) - last_pulse_ms (RT s) ->
  let s' := exec on_activity s in
  state (RT s') = ACTIVE /\
  last_activity_ms (RT s') = clock (env s) (ticks (env s)) /\
  exists sec nsec,
    out (env s')
      = out (env s)
        ++ (match state (RT s) with
            | ACTIVE => []
            | _ => enter_calls (HOOKS_MIRROR s) ACTIVE
            end)
        ++ [ArmTimer sec nsec] /\
    sec * 1000 + nsec / 1000000
      = Z.max 1 (idle_s (RT s) * 1000
                 - (clock (env s) (S (ticks (env s))) - clock (env s) (ticks (env s)))).
Proof.
  intros HInv Hacc. cbv zeta.
  destruct (on_activity_Inv s HInv) as (_ & _ & _ & [(Hlt & _) | (_ & Hs & _ & Hl & _)]);
    [lia|].
  split; [exact Hs|]. split; [exact Hl|].
  destruct (on_activity_calls s HInv Hacc) as (sec & nsec & Ho & Ht).
  exists sec, nsec. split; [| exact Ht].
  rewrite Ho. destruct (state (RT s)); reflexivity.
Qed.

(** The sample machine, IDLE: a pulse writes 1 to the state file and runs
    the folder active.d. *)
Lemma accepted_pulse_restarts_the_wait_witness :
  Inv demo_idle /\
  3000 <= clock (env demo_idle) (ticks (env demo_idle)) - last_pulse_ms (RT demo_idle) /\
  state (RT (exec on_activity demo_idle)) = ACTIVE /\
  state_file (out (env (exec on_activity demo_idle))) = Some 1.
Proof.
  assert (HI : Inv demo_idle) by exact (reachable_Inv _ demo_idle_reachable).
  assert (H3 : 3000 <= clock (env demo_idle) (ticks (env demo_idle))
                       - last_pulse_ms (RT demo_idle))
    by (vm_compute; discriminate).
  split; [exact HI|]. split; [exact H3|].
  destruct (accepted_pulse_restarts_the_wait demo_idle HI H3) as (Hs & _ & sec & nsec & Ho & _).
  split; [exact Hs|]. rewrite Ho.
  replace (state (RT demo_idle)) with IDLE by (vm_compute; reflexivity).
  rewrite !state_file_app. reflexivity.
Defined.

(** X6.  A turn on the directory watch changes the registry only: the
    state, the clock marks, the timeouts, the globals and the history of the
    pulses are as before, the clock is not read, and the calls issued are
    registrations with epoll, removals from it and [close], so that the
    state file and the timer are as they were. *)
Theorem hot_plug_turn_leaves_the_machine (s : Sys) (recs : list (inotify_event * OpenReply)) :
  let s' := exec (dispatch (WatchReady recs)) s in
  state (RT s') = state (RT s) /\
  last_activity_ms (RT s') = last_activity_ms (RT s) /\
  last_pulse_ms (RT s') = last_pulse_ms (RT s) /\
  idle_s (RT s') = idle_s (RT s) /\ extended_s (RT s') = extended_s (RT s) /\
  ticks (env s') = ticks (env s) /\ pulses (env s') = pulses (env s) /\
  AXIS_DZ_PCT s' = AXIS_DZ_PCT s /\ HOOKS_MIRROR s' = HOOKS_MIRROR s /\
  (exists k, out (env s') = out (env s) ++ k /\ forallb registry_call k = true) /\
  state_file (out (env s')) = state_file (out (env s)) /\
  timer_setting (out (env s')) = timer_setting (out (env s)).
Proof.
  cbv zeta. cbn [dispatch].
  destruct (watch_records_registry_step recs s)
    as ((Es & (M1 & M2 & M3 & M4 & _) & Et & Ep & G1 & G2) & k & Ho & Hk).
  destruct (registry_calls_silent k Hk) as [K1 K2].
  do 9 (split; [assumption|]).
  split; [exists k; split; assumption|].
  rewrite Ho, state_file_app, timer_setting_app, K1, K2. split; reflexivity.
Qed.

(** X7.  A read batch on a tracked device that holds a key event or a
    relative-motion event, in any chunk read before the first read that
    returns no data, calls [on_activity] exactly once, whatever else the
    batch holds: one entry is added to the history of the pulses, at the
    clock reading the turn started with. *)
Theorem key_or_motion_event_makes_the_pulse
    (f : Z) (i : nat) (s : Sys) (chunks : list (list input_event))
    (rest : list ReadResult) :
  dev_index_by_fd f (devices (RT s)) = Some i ->
  Exists (fun e => type e = EV_KEY \/ type e = EV_REL) (concat chunks) ->
  exists b,
    pulses (env (exec (handle_input f (map RData chunks ++ rest)) s))
      = pulses (env s) ++ [(clock (env s) (ticks (env s)), b)].
Proof.
  intros Hi Hk. unfold handle_input. rewrite exec_bind_get_rt, Hi.
  now apply handle_reads_key.
Qed.

(** The sample stick: an axis event, then a key event in a second chunk. *)
Lemma key_or_motion_event_makes_the_pulse_witness :
  dev_index_by_fd 6 (devices (RT demo_started)) = Some 0%nat /\
  exists b,
    pulses (env (exec (handle_input 6 (map RData [[demo_abs 0 5]; [demo_key]] ++ [RAgain]))
                      demo_started))
      = pulses (env demo_started)
        ++ [(clock (env demo_started) (ticks (env demo_started)), b)].
Proof.
  assert (H : dev_index_by_fd 6 (devices (RT demo_started)) = Some 0%nat)
    by (vm_compute; reflexivity).
  split; [exact H|].
  apply (key_or_motion_event_makes_the_pulse 6 0 demo_started
           [[demo_abs 0 5]; [demo_key]] [RAgain] H).
  simpl. apply Exists_cons_tl, Exists_cons_hd. left. reflexivity.
Defined.

(** X8.  A read batch whose events are all of other types than key,
    relative motion and absolute axis (synchronisation, miscellaneous, LED
    and so on) changes nothing at all: no pulse, no call, no write to the
    registry, and the clock is not read. *)
Theorem other_event_types_change_nothing
    (f : Z) (s : Sys) (chunks : list (list input_event)) (rest : list ReadResult) :
  Forall (fun e => type e <> EV_KEY /\ type e <> EV_REL /\ type e <> EV_ABS)
         (concat chunks) ->
  exec (handle_input f (map RData chunks ++ RAgain :: rest)) s = s.
Proof.
  intros H. unfold handle_input. rewrite exec_bind_get_rt.
  destruct (dev_index_by_fd f (devices (RT s))) as [i |]; [| reflexivity].
  unfold exec. now rewrite handle_reads_other.
Qed.

(** The sample stick: a scan code report and a synchronisation event. *)
Lemma other_event_types_change_nothing_witness :
  exec (handle_input 6 (map RData [[demo_msc; {| type := EV_SYN; code := 0; value := 0 |}]]
                        ++ RAgain :: []))
       demo_started
    = demo_started.
Proof.
  apply (other_event_types_change_nothing 6 demo_started).
  simpl. repeat constructor; discriminate.
Defined.

(** X9.  An event on a hat axis seen before makes a pulse exactly when its
    value differs from the recorded one, by however little and whatever
    dead-zone is stored for the axis; the value is then recorded.  An equal
    value changes nothing. *)
Theorem hat_pulses_iff_value_changed (s : Sys) (i : nat) (dv : Dev) (e : input_event) :
  devices (RT s) !! i = Some dv -> type e = EV_ABS ->
  is_hat_abs (code e) = true -> cell (abs_seen dv) (code e) = true ->
  Z.abs (value e - cell (abs_last dv) (code e)) <= 2147483647 ->
  (value e = cell (abs_last dv) (code e) -> handle_event i e false s = (false, s)) /\
  (value e <> cell (abs_last dv) (code e) ->
     handle_event i e false s
       = (true, exec on_activity (exec (set_dev i (dev_recorded dv e)) s))).
Proof.
  intros Hdv Ht Hh Hs Hd.
  rewrite (handle_event_abs i e s dv Hdv Ht Hd), Hs. cbn [negb].
  unfold abs_qualifies, axis_delta. rewrite Hh.
  split; intros Hv.
  - rewrite Hv, Z.sub_diag. reflexivity.
  - destruct (Z.eqb_spec (Z.abs (value e - cell (abs_last dv) (code e))) 0); [lia|].
    reflexivity.
Qed.

(** The hat of the sample stick, seen at 0: a move to 1 makes a pulse. *)
Lemma hat_pulses_iff_value_changed_witness :
  devices (RT demo_hat) !! 0%nat = Some (devices (RT demo_hat) !!! 0%nat) /\
  fst (handle_event 0 (demo_abs 16 1) false demo_hat) = true.
Proof.
  assert (H1 : devices (RT demo_hat) !! 0%nat = Some (devices (RT demo_hat) !!! 0%nat))
    by (vm_compute; reflexivity).
  split; [exact H1|].
  rewrite (proj2 (hat_pulses_iff_value_changed demo_hat 0 _ (demo_abs 16 1) H1
                    ltac:(reflexivity) ltac:(reflexivity) ltac:(vm_compute; reflexivity)
                    ltac:(vm_compute; discriminate))
                 ltac:(vm_compute; discriminate)).
  reflexivity.
Defined.

(** X10.  When a read on a tracked device fails with an error other than
    EAGAIN, or returns end of file, the batch ends there: the entry of the
    device is erased from the registry, every other entry staying as it
    was and in order; the last two calls are the removal of the descriptor
    from epoll and its [close]; and what the later reads would have
    returned is left unread. *)
Theorem lost_device_is_dropped
    (f : Z) (i : nat) (s : Sys) (chunks : list (list input_event))
    (r : ReadResult) (rest : list ReadResult) :
  dev_index_by_fd f (devices (RT s)) = Some i ->
  r = RError \/ r = REof ->
  let res := handle_input f (map RData chunks ++ r :: rest) s in
  fst res = rest /\
  devices (RT (snd res)) = delete i (devices (RT s)) /\
  exists o, out (env (snd res)) = o ++ [EpollDel f; Close f].
Proof.
  intros Hi Hr. cbv zeta.
  assert (E : handle_input f (map RData chunks ++ r :: rest) s
              = handle_reads f i (map RData chunks ++ r :: rest) false s)
    by (unfold handle_input, bind, get_rt; cbn [fst snd]; now rewrite Hi).
  rewrite E.
  destruct (index_where_Some _ _ _ Hi) as (x & Hx & Hp & _). apply Z.eqb_eq in Hp.
  apply (handle_reads_lost f i chunks r rest false s (devices (RT s)) x Hr Hi Hp).
  symmetry. now apply list_insert_id.
Qed.

(** The sample machine: the stick is unplugged after a last axis event. *)
Lemma lost_device_is_dropped_witness :
  dev_index_by_fd 6 (devices (RT demo_started)) = Some 0%nat /\
  devices (RT (exec (handle_input 6 (map RData [[demo_abs 0 5]] ++ REof :: [])) demo_started))
    = delete 0%nat (devices (RT demo_started)).
Proof.
  assert (H : dev_index_by_fd 6 (devices (RT demo_started)) = Some 0%nat)
    by (vm_compute; reflexivity).
  split; [exact H|].
  exact (proj1 (proj2 (lost_device_is_dropped 6 0 demo_started [[demo_abs 0 5]] REof []
                         H (or_intror eq_refl)))).
Defined.

(** X11.  In every state the monitor reaches, an event on an axis that is
    not a hat and was seen before, whose value is less than 64 away from
    the recorded one, makes no pulse and changes nothing, whatever the
    device reported at calibration and whatever fraction is configured: no
    stored dead-zone is below the floor. *)
Theorem small_axis_motion_is_ignored (s : Sys) (i : nat) (dv : Dev) (e : input_event) :
  reachable s -> devices (RT s) !! i = Some dv -> type e = EV_ABS ->
  0 <= code e <= ABS_MAX -> is_hat_abs (code e) = false ->
  cell (abs_seen dv) (code e) = true ->
  Z.abs (value e - cell (abs_last dv) (code e)) < AXIS_DZ_MIN ->
  handle_event i e false s = (false, s).
Proof.
  intros Hreach Hdv Ht Hc Hh Hs Hd.
  pose proof (proj1 (Forall_lookup _ _) (reachable_sound s Hreach) i dv Hdv)
    as (_ & _ & Hz).
  destruct (Hz (code e) Hc) as (_ & Hfloor).
  rewrite (handle_event_abs i e s dv Hdv Ht) by (unfold axis_delta, AXIS_DZ_MIN in *; lia).
  rewrite Hs. cbn [negb].
  unfold abs_qualifies, effective_dz, axis_delta. rewrite Hh.
  destruct (Z.leb_spec (cell (abs_dz dv) (code e)) 0) as [L | L];
    match goal with |- (if ?a <=? ?b then _ else _) = _ =>
      destruct (Z.leb_spec a b) as [Q | Q] end;
    try reflexivity; exfalso; unfold AXIS_DZ_MIN in *; lia.
Qed.

(** The device of the sample machine that has no calibration, axis 0
    recorded at 0 with a stored dead-zone of 0: a value of 10 is
    ignored. *)
Lemma small_axis_motion_is_ignored_witness :
  reachable demo_seen /\
  devices (RT demo_seen) !! 1%nat = Some (devices (RT demo_seen) !!! 1%nat) /\
  handle_event 1 (demo_abs 0 10) false demo_seen = (false, demo_seen).
Proof.
  assert (H1 : devices (RT demo_seen) !! 1%nat = Some (devices (RT demo_seen) !!! 1%nat))
    by (vm_compute; reflexivity).
  split; [apply demo_seen_reachable|]. split; [exact H1|].
  apply (small_axis_motion_is_ignored demo_seen 1 _ (demo_abs 0 10) demo_seen_reachable H1).
  - reflexivity.
  - vm_compute. split; discriminate.
  - reflexivity.
  - vm_compute. reflexivity.
  - vm_compute. reflexivity.
Defined.

(** X12.  In every state the monitor reaches, every entry of the registry
    is as discovery made it: its descriptor is an open one (not negative),
    its path is that of an event node of the input directory (the word
    event and digits), its five arrays have their [ABS_MAX+1] cells, the
    dead-zone of each hat is zero, and the dead-zone of every other axis is
    zero (nothing reported) or 64 at least. *)
Theorem tracked_devices_are_as_discovered (s : Sys) (d : Dev) :
  reachable s -> In d (devices (RT s)) ->
  0 <= fd d /\
  (exists nm, is_event_name nm = true /\ path d = INPUT_DIR +:+ "/" +:+ nm) /\
  wf_dev d /\
  forall c, 0 <= c <= ABS_MAX ->
    (is_hat_abs c = true -> cell (abs_dz d) c = 0) /\
    (cell (abs_dz d) c = 0 \/ 64 <= cell (abs_dz d) c).
Proof.
  intros Hreach Hin.
  pose proof (proj1 (List.Forall_forall _ _) (reachable_sound s Hreach) d Hin)
    as (S1 & S2 & S3).
  pose proof (proj1 (List.Forall_forall _ _) (reachable_devs_wf s Hreach) d Hin) as W.
  split; [exact S1|]. split; [exact S2|]. split; [exact W | exact S3].
Qed.

(** The stick of the sample machine. *)
Lemma tracked_devices_are_as_discovered_witness :
  reachable demo_seen /\ In demo_dev (devices (RT demo_seen)) /\ 0 <= fd demo_dev.
Proof.
  assert (H : In demo_dev (devices (RT demo_seen))) by (vm_compute; left; reflexivity).
  split; [apply demo_seen_reachable|]. split; [exact H|].
  exact (proj1 (tracked_devices_are_as_discovered demo_seen demo_dev demo_seen_reachable H)).
Defined.

(** X13.  [del_dev] removes the first entry that has the path, and that
    one only: the entries of other paths stay, in order; of the entries of
    the path all but the first stay; the descriptor of the removed entry is
    taken out of epoll and closed.  When no entry has the path nothing
    changes and no call is issued. *)
Theorem del_dev_removes_the_first_match (p : string) (s : Sys) :
  let s' := exec (del_dev p) s in
  without_path p (devices (RT s')) = without_path p (devices (RT s)) /\
  with_path p (devices (RT s')) = tail (with_path p (devices (RT s))) /\
  out (env s')
    = out (env s) ++ match with_path p (devices (RT s)) with
                     | [] => []
                     | d :: _ => [EpollDel (fd d); Close (fd d)]
                     end /\
  (with_path p (devices (RT s)) = [] -> s' = s).
Proof.
  cbv zeta. unfold with_path, without_path.
  destruct (dev_index_by_path p (devices (RT s))) as [i |] eqn:E.
  - destruct (del_dev_found p i s E) as (Hd & Ho). rewrite Hd, Ho.
    destruct (index_where_Some _ _ _ E) as (x & Hx & Hp & Hl & Hn).
    rewrite (list_lookup_total_correct _ _ _ Hx).
    rewrite delete_take_drop.
    remember (take i (devices (RT s))) as l1. remember (drop (S i) (devices (RT s))) as l2.
    rewrite Hl. destruct (filter_none _ l1 Hn) as (N1 & N2).
    rewrite !List.filter_app, N1, N2. cbn [List.filter]. rewrite Hp. cbn [negb app tail].
    split; [reflexivity|]. split; [reflexivity|]. split; [reflexivity | discriminate].
  - rewrite (del_dev_absent p s E).
    destruct (filter_none _ _ (proj1 (index_where_None _ _) E)) as (N1 & _).
    rewrite N1. cbn [tail]. rewrite app_nil_r. repeat split; reflexivity.
Qed.

(** X14.  An [add_dev] of a path that is not tracked, when it succeeds,
    followed by a [del_dev] of the same path, leaves the registry as it
    was: the descriptor is registered with epoll, removed from it and
    closed.  This is what a record of the directory watch with both the
    creation and the deletion bit does. *)
Theorem add_then_del_restores_the_registry (p : string) (o : OpenReply) (s : Sys) :
  dev_index_by_path p (devices (RT s)) = None ->
  0 <= open_fd o -> epoll_add_ok o = true ->
  let s' := exec (add_dev p o ;;; del_dev p) s in
  devices (RT s') = devices (RT s) /\
  out (env s')
    = out (env s) ++ [EpollAdd (open_fd o); EpollDel (open_fd o); Close (open_fd o)].
Proof.
  intros Hnone Hf He. cbv zeta. rewrite exec_bind.
  destruct (add_dev_new p o s Hf He) as (d & Hd & Fd & Pd & _ & _ & Ho).
  set (s1 := exec (add_dev p o) s) in *.
  assert (Hidx : dev_index_by_path p (devices (RT s1)) = Some (length (devices (RT s)))).
  { rewrite Hd. apply index_where_middle.
    - exact (proj1 (index_where_None _ _) Hnone).
    - rewrite Pd. apply String.eqb_refl. }
  destruct (del_dev_found p _ s1 Hidx) as (Hd2 & Ho2).
  rewrite Hd2, Ho2, Hd, Ho. split.
  - rewrite delete_middle. apply app_nil_r.
  - rewrite list_lookup_total_middle by reflexivity. rewrite Fd, <- app_assoc. reflexivity.
Qed.

(** A node that appears and is gone at once, on the sample machine. *)
Lemma add_then_del_restores_the_registry_witness :
  dev_index_by_path "/dev/input/event5" (devices (RT demo_started)) = None /\
  devices (RT (exec (add_dev "/dev/input/event5" demo_again ;;; del_dev "/dev/input/event5")
                    demo_started))
    = devices (RT demo_started).
Proof.
  assert (H : dev_index_by_path "/dev/input/event5" (devices (RT demo_started)) = None)
    by (vm_compute; reflexivity).
  split; [exact H|].
  exact (proj1 (add_then_del_restores_the_registry "/dev/input/event5" demo_again demo_started
                  H ltac:(vm_compute; discriminate) eq_refl)).
Defined.

(** X15.  [add_dev] never leaks a descriptor and never tracks a closed
    one.  When [open] fails nothing changes and no call is issued.  When
    epoll refuses the descriptor it is closed and the registry is as
    before.  Otherwise one entry is appended, with the descriptor and the
    path, whole arrays and no axis seen yet, and the descriptor is not
    closed. *)
Theorem add_dev_tracks_or_closes (p : string) (o : OpenReply) (s : Sys) :
  let s' := exec (add_dev p o) s in
  (open_fd o < 0 -> s' = s) /\
  (0 <= open_fd o -> epoll_add_ok o = false ->
     devices (RT s') = devices (RT s) /\
     out (env s') = out (env s) ++ [EpollAdd (open_fd o); Close (open_fd o)]) /\
  (0 <= open_fd o -> epoll_add_ok o = true ->
     exists d, devices (RT s') = devices (RT s) ++ [d] /\
               fd d = open_fd o /\ path d = p /\ wf_dev d /\
               abs_seen d = replicate ABS_CNT false /\
               out (env s') = out (env s) ++ [EpollAdd (open_fd o)]).
Proof.
  cbv zeta. split; [| split].
  - intros H. unfold add_dev. destruct (Z.ltb_spec (open_fd o) 0); [reflexivity | lia].
  - intros H He. unfold add_dev. destruct (Z.ltb_spec (open_fd o) 0); [lia|].
    rewrite exec_bind, He. cbn. rewrite <- app_assoc. split; reflexivity.
  - intros H He. now apply add_dev_new.
Qed.

(** X16.  In a turn of the loop the outside is told of a change of state
    exactly when there is one.  When the turn leaves the state as it was,
    it writes no state file and runs no hook folder.  When it changes the
    state, it writes the state file once, with the digit of the new state,
    and runs the folder of the new state once under the hooks root, and
    once under the mirror when one is configured, in this order. *)
Theorem hooks_run_exactly_on_a_change (s : Sys) (r : Ready) :
  reachable s ->
  let s' := exec (dispatch r) s in
  exists k,
    out (env s') = out (env s) ++ k /\
    List.filter state_call k
      = if State_eqb (state (RT s')) (state (RT s)) then []
        else enter_calls (HOOKS_MIRROR s) (state (RT s')).
Proof.
  intros Hreach. cbv zeta. pose proof (reachable_Inv s Hreach) as HInv.
  assert (Quiet : forall s', registry_step s s' ->
            exists k, out (env s') = out (env s) ++ k /\
                      List.filter state_call k
                        = if State_eqb (state (RT s')) (state (RT s)) then []
                          else enter_calls (HOOKS_MIRROR s) (state (RT s'))).
  { intros s' ((Es & _) & k & Ho & Hk). exists k. split; [exact Ho|].
    rewrite Es, State_eqb_refl. now apply state_calls_registry. }
  destruct r as [| recs | f reads]; simpl.
  - now apply reevaluate_trace.
  - apply Quiet, watch_records_registry_step.
  - rewrite exec_seq_ret.
    destruct (handle_input_trace f reads s) as [D | (s1 & D1 & D2)]; [now apply Quiet|].
    pose proof (Inv_dev_only _ _ HInv (proj1 D1)) as HI1.
    destruct (on_activity_trace s1 HI1) as (k2 & O2 & F2).
    destruct D1 as ((E1 & _ & _ & _ & _ & M1) & k1 & O1 & K1).
    destruct D2 as ((E3 & _) & k3 & O3 & K3).
    exists (k1 ++ k2 ++ k3). split.
    + rewrite O3, O2, O1, <- !app_assoc. reflexivity.
    + rewrite !List.filter_app, (state_calls_registry k1 K1), (state_calls_registry k3 K3),
        app_nil_r, F2, E3, E1, M1. reflexivity.
Qed.

(** The sample machine, IDLE: a key event on the stick writes 1 to the
    state file and runs the folder active.d of the hooks root. *)
Lemma hooks_run_exactly_on_a_change_witness :
  reachable demo_idle /\
  exists k,
    out (env (exec (dispatch (DeviceReady 6 [RData [demo_key]])) demo_idle))
      = out (env demo_idle) ++ k /\
    List.filter state_call k
      = [WriteState 1; RunFolder (HOOKS_ROOT +:+ "/active.d") "active"].
Proof.
  split; [apply demo_idle_reachable|].
  destruct (hooks_run_exactly_on_a_change demo_idle (DeviceReady 6 [RData [demo_key]])
              demo_idle_reachable) as (k & Ho & Hk).
  exists k. split; [exact Ho|]. rewrite Hk.
  replace (state (RT (exec (dispatch (DeviceReady 6 [RData [demo_key]])) demo_idle)))
    with ACTIVE by (vm_compute; reflexivity).
  replace (state (RT demo_idle)) with IDLE by (vm_compute; reflexivity).
  replace (HOOKS_MIRROR demo_idle) with EmptyString by (vm_compute; reflexivity).
  reflexivity.
Defined.

(** X17.  In every state the monitor reaches, the accepted pulses of its
    history are 3000 ms apart at least, none is read on the clock before
    3000 (the pulse mark starts at zero, so activity in the first three
    seconds of the clock is dropped), and none is after the pulse mark. *)
Theorem accepted_pulses_are_spaced (s : Sys) :
  reachable s ->
  (forall i j ti tj, (i < j)%nat ->
     pulses (env s) !! i = Some (ti, true) -> pulses (env s) !! j = Some (tj, true) ->
     3000 <= tj - ti) /\
  (forall i t, pulses (env s) !! i = Some (t, true) -> 3000 <= t <= last_pulse_ms (RT s)).
Proof.
  intros Hreach. destruct (reachable_spaced s Hreach) as (H1 & H2).
  split; [exact H2 | exact H1].
Qed.

(** The sample machine after two key events, read at 2000 s and at
    4000 s on the clock: both pulses are accepted, and they are 2000 s
    apart. *)
Lemma accepted_pulses_are_spaced_witness :
  reachable demo_two_keys /\
  pulses (env demo_two_keys) = [(2000000, true); (4000000, true)] /\
  3000 <= 4000000 - 2000000 /\
  3000 <= 4000000 <= last_pulse_ms (RT demo_two_keys).
Proof.
  assert (Hp : pulses (env demo_two_keys) = [(2000000, true); (4000000, true)])
    by (vm_compute; reflexivity).
  split; [apply demo_two_keys_reachable|]. split; [exact Hp|].
  destruct (accepted_pulses_are_spaced demo_two_keys demo_two_keys_reachable) as (H1 & H2).
  split.
  - apply (H1 0%nat 1%nat 2000000 4000000); [lia | rewrite Hp; reflexivity ..].
  - apply (H2 1%nat 4000000). rewrite Hp. reflexivity.
Defined.

(** X18.  Whatever the config file holds and whatever [strtod] converts,
    the dead-zone fraction the loader leaves is not below 0 and not above
    0.90; and so it is in every state the monitor reaches, as nothing
    writes it after the load. *)
Theorem dead_zone_fraction_stays_in_range :
  (forall strtod file,
     dltb (cfg_axis_dz_pct (read_config_or_defaults strtod file)) d_0_0 = false /\
     dltb d_0_90 (cfg_axis_dz_pct (read_config_or_defaults strtod file)) = false) /\
  (forall s, reachable s ->
     dltb (AXIS_DZ_PCT s) d_0_0 = false /\ dltb d_0_90 (AXIS_DZ_PCT s) = false).
Proof.
  split; [intros strtod file; apply read_config_pct | intros s Hs; now apply reachable_pct].
Qed.

(** X19.  [run_folder] runs, in the byte order of their names, the entries
    of the folder whose name does not start with a dot and that [stat]
    shows to be regular files their owner may execute, each as many times
    as [readdir] yields it, each with the argument; it runs nothing when
    the folder cannot be opened. *)
Theorem run_folder_runs_executables_in_order
    (dir arg : string) (names : list string) (st : string -> option Z) :
  let fs := {| dir_names := Some names; stat_mode := st |} in
  (exists fns,
     run_folder dir arg fs = map (fun fn => (dir +:+ "/" +:+ fn, arg)) fns /\
     StronglySorted string_le fns /\
     Permutation fns
       (List.filter (fun fn => negb (starts_with_dot fn) && runs fs dir fn) names)) /\
  run_folder dir arg {| dir_names := None; stat_mode := st |} = [].
Proof.
  cbv zeta. split; [| reflexivity].
  eexists. split; [reflexivity|]. split.
  - apply StronglySorted_list_filter, StronglySorted_merge_sort; apply _.
  - rewrite <- list_filter_filter_andb.
    apply Permutation_list_filter, merge_sort_Permutation.
Qed.

(** The sample folder: of its five entries the two scripts are run, the
    one named 10-mute first. *)
Lemma run_folder_sample :
  run_folder "/hooks/idle.d" "idle" demo_folder
    = [("/hooks/idle.d/10-mute", "idle"); ("/hooks/idle.d/20-dim", "idle")]%string.
Proof. vm_compute. reflexivity. Qed.

(** X20.  The machine leaves ACTIVE, and IDLE for EXTENDED, only in a turn
    of the timer, one step at a time: a turn on a device or on the
    directory watch leaves the state as it was or makes it ACTIVE. *)
Theorem idle_is_entered_by_the_timer_only (s : Sys) (r : Ready) :
  reachable s ->
  let s' := exec (dispatch r) s in
  state (RT s') <> state (RT s) -> state (RT s') <> ACTIVE ->
  r = TimerReady /\
  ((state (RT s) = ACTIVE /\ state (RT s') = IDLE) \/
   (state (RT s) = IDLE /\ state (RT s') = EXTENDED)).
Proof.
  intros Hreach. cbv zeta. pose proof (reachable_Inv s Hreach) as HInv.
  destruct r as [| recs | f reads]; cbn [dispatch]; intros Hne Hna.
  - split; [reflexivity|].
    destruct (reevaluate_table s HInv) as (Es & _). rewrite Es in *.
    unfold after_timer in *. destruct (state (RT s));
      repeat match goal with
             | H : context [if ?c then _ else _] |- _ => destruct c
             | |- context [if ?c then _ else _] => destruct c
             end; try congruence; auto.
  - exfalso. destruct (watch_records_dev_only recs s) as (E & _). congruence.
  - exfalso. rewrite exec_seq_ret in *.
    destruct (handle_input_shape f reads s) as [D | (s1 & D1 & D2)].
    + destruct D as (E & _). congruence.
    + pose proof (Inv_dev_only s s1 HInv D1) as HInv1.
      destruct D2 as (E2 & _).
      destruct (on_activity_Inv s1 HInv1)
        as (_ & _ & _ & [(_ & _ & Ha & _) | (_ & Ha & _)]); congruence.
Qed.

(** The sample machine after its setup: the turn of the timer makes it
    IDLE. *)
Lemma idle_is_entered_by_the_timer_only_witness :
  reachable demo_started /\
  state (RT (exec (dispatch TimerReady) demo_started)) <> state (RT demo_started) /\
  (state (RT demo_started) = ACTIVE /\
   state (RT (exec (dispatch TimerReady) demo_started)) = IDLE \/
   state (RT demo_started) = IDLE /\
   state (RT (exec (dispatch TimerReady) demo_started)) = EXTENDED).
Proof.
  assert (H1 : state (RT (exec (dispatch TimerReady) demo_started))
               <> state (RT demo_started)) by (vm_compute; discriminate).
  split; [apply demo_started_reachable|]. split; [exact H1|].
  refine (proj2 (idle_is_entered_by_the_timer_only demo_started TimerReady
                   demo_started_reachable H1 _)).
  vm_compute. discriminate.
Defined.

(** X21.  The setup of [main] leaves the machine ACTIVE, the activity mark
    at the first clock reading, the pulse mark at zero, the timeouts and
    the globals as loaded from the config, and no pulse in the history.
    The calls it issues are the write of 1 to the state file, the
    registration of the timer and of the directory watch with epoll, the
    calls of the registry for the devices found, and last the setting of
    the timer to the idle timeout less the time the clock gained; it runs
    no hook folder. *)
Theorem setup_starts_active_and_runs_no_hook (clk : nat -> Z) (b : Boot) :
  clock_ok clk ->
  let c := read_config_or_defaults (boot_strtod b) (boot_config b) in
  let s := exec (main_setup b) (Sys_init clk) in
  state (RT s) = ACTIVE /\
  last_activity_ms (RT s) = clk O /\ last_pulse_ms (RT s) = 0 /\
  idle_s (RT s) = cfg_idle_s c /\ extended_s (RT s) = cfg_extended_s c /\
  AXIS_DZ_PCT s = cfg_axis_dz_pct c /\ HOOKS_MIRROR s = cfg_hooks_mirror c /\
  pulses (env s) = [] /\
  exists k sec nsec,
    out (env s)
      = [WriteState 1; EpollAdd (boot_tfd b); EpollAdd (boot_ifd b)]
        ++ k ++ [ArmTimer sec nsec] /\
    forallb registry_call k = true /\
    sec * 1000 + nsec / 1000000
      = Z.max 1 (cfg_idle_s c * 1000 - (clk 1%nat - clk O)).
Proof.
  intros Hc. cbv zeta.
  destruct (main_setup_summary clk b Hc) as (H1 & H2 & H3 & H4 & H5 & H6).
  destruct (main_setup_globals b clk) as (G1 & G2).
  split; [exact H1|]. split; [exact H2|]. split; [exact H3|]. split; [exact H4|].
  split; [exact H5|]. split; [exact G1|]. split; [exact G2|].
  split; [apply main_setup_pulses | exact H6].
Qed.

(** The sample machine: no config file, the clock of the sample. *)
Lemma setup_starts_active_and_runs_no_hook_witness :
  clock_ok demo_clock /\ state (RT demo_started) = ACTIVE /\ idle_s (RT demo_started) = 900.
Proof.
  split; [apply demo_clock_ok|].
  destruct (setup_starts_active_and_runs_no_hook demo_clock demo_boot demo_clock_ok)
    as (H1 & _ & _ & H4 & _).
  split; [exact H1 | exact H4].
Defined.

(** X22.  The loader trims a config line to its key and its value.  A
    key, after any blanks, then any blanks, an equal sign, any blanks, a
    value that holds no NUL and neither starts with a blank nor ends with a
    blank, a carriage return or a newline, then any such characters: the
    line is handled as the key with the value, whatever surrounds them.  So
    blanks around the equal sign and a line end of CR LF do no harm. *)
Theorem config_line_is_trimmed
    (strtod : string -> option double) (c : Config) (b1 k b2 b3 v b4 : string) :
  key_like k = true ->
  string_forall is_blank b1 = true -> string_forall is_trailing b2 = true ->
  string_forall is_blank b3 = true -> string_forall is_trailing b4 = true ->
  cstr v = v -> skip_blanks v = v -> rtrim v = v ->
  cfg_line strtod c (b1 +:+ k +:+ b2 +:+ "=" +:+ b3 +:+ v +:+ b4)
    = cfg_key_value strtod k v c.
Proof.
  intros Hk H1 H2 H3 H4 Vc Vs Vr.
  unfold key_like in Hk. apply andb_prop in Hk as [Hk Hstart].
  destruct k as [| a r]; [discriminate|].
  assert (Ha : key_char a = true) by (simpl in Hk; now apply andb_prop in Hk as [Ha _]).
  unfold cfg_line.
  assert (E1 : cstr (b1 +:+ String a r +:+ b2 +:+ "=" +:+ b3 +:+ v +:+ b4)
               = b1 +:+ String a r +:+ b2 +:+ "=" +:+ b3 +:+ v +:+ b4).
  { rewrite cstr_app by (apply cstr_trailing; revert H1; apply string_forall_impl,
                           is_blank_trailing).
    rewrite cstr_app by now apply cstr_key.
    rewrite cstr_app by now apply cstr_trailing.
    rewrite (cstr_app "=") by reflexivity.
    rewrite cstr_app by (apply cstr_trailing; revert H3; apply string_forall_impl,
                           is_blank_trailing).
    rewrite cstr_app by exact Vc.
    now rewrite cstr_trailing. }
  rewrite E1, skip_blanks_app by exact H1.
  assert (Hnb : is_blank a = false).
  { unfold key_char in Ha. apply andb_prop in Ha as [_ Ha]. apply negb_true_iff in Ha.
    destruct (is_blank a) eqn:B; [| reflexivity].
    now rewrite (is_blank_trailing a B) in Ha. }
  rewrite append_cons. cbn [skip_blanks]. rewrite Hnb.
  assert (Hnl : (char_code a =? 10) = false).
  { unfold key_char, is_trailing in Ha. apply andb_prop in Ha as [_ Ha].
    apply negb_true_iff in Ha. destruct (char_code a =? 10); [| reflexivity].
    now rewrite orb_true_r in Ha. }
  apply negb_true_iff in Hstart. apply orb_false_elim in Hstart as [S1 S2].
  rewrite Hnl, S1, S2. cbn [orb].
  change (String a (r +:+ b2 +:+ "=" +:+ b3 +:+ v +:+ b4))
    with (String a r +:+ b2 +:+ "=" +:+ b3 +:+ v +:+ b4).
  assert (E2 : split_eq (String a r +:+ b2 +:+ "=" +:+ b3 +:+ v +:+ b4)
               = Some (String a r +:+ b2, b3 +:+ v +:+ b4)).
  { rewrite <- (split_eq_app (String a r +:+ b2) (b3 +:+ v +:+ b4)).
    - f_equal. rewrite append_assoc. reflexivity.
    - rewrite string_forall_app. apply andb_true_intro. split.
      + revert Hk. apply string_forall_impl. intros x Hx. unfold key_char in Hx.
        apply andb_prop in Hx as [Hx _]. apply andb_prop in Hx as [_ Hx]. exact Hx.
      + revert H2. apply string_forall_impl. intros x Hx.
        destruct (is_trailing_codes x Hx) as (_ & -> & _). reflexivity. }
  rewrite E2, (rtrim_app_trailing _ b2 H2), (rtrim_key _ Hk), (skip_blanks_app b3 _ H3).
  f_equal. destruct v as [| cv v'].
  - change (EmptyString +:+ b4) with b4. apply rtrim_trailing, skip_blanks_forall, H4.
  - pose proof (skip_blanks_fixed cv v' Vs) as Hb.
    rewrite append_cons. cbn [skip_blanks]. rewrite Hb.
    change (String cv (v' +:+ b4)) with (String cv v' +:+ b4).
    now rewrite rtrim_app_trailing.
Qed.

(** A line that sets the idle timeout, with blanks and a line end of CR
    LF. *)
Lemma config_line_is_trimmed_witness :
  cfg_idle_s
    (cfg_line no_strtod cfg_defaults
       (" " +:+ "idle" +:+ " " +:+ "=" +:+ " " +:+ "120"
        +:+ String " " (String "013" (String "010" EmptyString))))
    = 120.
Proof.
  rewrite (config_line_is_trimmed no_strtod cfg_defaults " " "idle" " " " " "120"
             (String " " (String "013" (String "010" EmptyString))));
    reflexivity.
Defined.

(** X23.  The loader reads the config file through a buffer of 256 bytes:
    a line of up to 254 characters before its newline is handled whole,
    and a line of 255 characters or more is cut after the 255th, what is
    left of it being handled as a line of its own. *)
Theorem long_config_line_is_cut (l rest : string) :
  string_forall not_newline l = true ->
  ((String.length l < 255)%nat ->
     fgets_lines 255 EmptyString (l +:+ String "010" rest)
       = (l +:+ String "010" EmptyString) :: fgets_lines 255 EmptyString rest) /\
  (String.length l = 255%nat ->
     fgets_lines 255 EmptyString (l +:+ rest) = l :: fgets_lines 255 EmptyString rest).
Proof.
  intros Hn. split; intros Hl.
  - exact (fgets_lines_short 255 EmptyString l rest Hn Hl).
  - apply (fgets_lines_long 255 EmptyString l rest Hn Hl). lia.
Qed.

(** Two lines of a config file. *)
Lemma long_config_line_is_cut_witness :
  fgets_lines 255 EmptyString ("idle=120" +:+ String "010" "extended=4000")
    = ["idle=120" +:+ String "010" EmptyString; "extended=4000"]%string.
Proof.
  rewrite (proj1 (long_config_line_is_cut "idle=120" "extended=4000" eq_refl))
    by (simpl; lia).
  reflexivity.
Defined.

(** X24.  In every state the monitor reaches, every call issued so far
    that tells the outside of a state is well formed: each write of the
    state file is of 0 or of 1, and each run of a hook folder is of the
    folder of a state, under the hooks root or under the configured mirror,
    with the name of that state as argument, in a directory the start of
    [main] made sure of. *)
Theorem hooks_run_from_the_layout (s : Sys) :
  reachable s ->
  (forall v, In (WriteState v) (out (env s)) -> v = 0 \/ v = 1) /\
  (forall dir arg, In (RunFolder dir arg) (out (env s)) ->
     exists st root,
       arg = state_name st /\ dir = root +:+ "/" +:+ state_name st +:+ ".d" /\
       (root = HOOKS_ROOT \/ (root = HOOKS_MIRROR s /\ HOOKS_MIRROR s <> EmptyString)) /\
       In dir (main_layout (HOOKS_MIRROR s))).
Proof.
  intros Hreach. pose proof (reachable_calls_ok s Hreach) as H.
  split.
  - intros v Hv. exact (proj1 (List.Forall_forall _ _) H _ Hv).
  - intros dir arg Hd. exact (proj1 (List.Forall_forall _ _) H _ Hd).
Qed.

(** The sample machine, IDLE: the folder run is idle.d of the hooks root. *)
Lemma hooks_run_from_the_layout_witness :
  reachable demo_idle /\
  In (RunFolder "/etc/idlewatcher/idle.d" "idle") (out (env demo_idle)) /\
  In "/etc/idlewatcher/idle.d"%string (main_layout (HOOKS_MIRROR demo_idle)).
Proof.
  assert (H : In (RunFolder "/etc/idlewatcher/idle.d" "idle") (out (env demo_idle)))
    by (vm_compute; repeat (first [left; reflexivity | right])).
  split; [apply demo_idle_reachable|]. split; [exact H|].
  destruct (proj2 (hooks_run_from_the_layout demo_idle demo_idle_reachable) _ _ H)
    as (st & root & _ & _ & _ & Hl).
  exact Hl.
Defined.

(** X25.  After a long time without activity the machine still passes
    through IDLE.  From ACTIVE in a reachable state, when both timeouts
    have passed already, the turn of the timer makes the machine IDLE,
    writes 0 to the state file, runs the idle hooks and sets the timer to
    one millisecond; the turn of the timer after that makes it EXTENDED,
    runs the extended hooks and stops the timer.  So the idle hooks always
    run before the extended hooks. *)
Theorem long_rest_passes_through_idle (s : Sys) :
  reachable s -> state (RT s) = ACTIVE ->
  (idle_s (RT s) + extended_s (RT s)) * 1000
    <= clock (env s) (ticks (env s)) - last_activity_ms (RT s) ->
  let s1 := exec (dispatch TimerReady) s in
  let s2 := exec (dispatch TimerReady) s1 in
  state (RT s1) = IDLE /\ state (RT s2) = EXTENDED /\
  exists sec1 nsec1 sec2 nsec2,
    out (env s2)
      = out (env s)
        ++ enter_calls (HOOKS_MIRROR s) IDLE ++ [ArmTimer sec1 nsec1]
        ++ enter_calls (HOOKS_MIRROR s) EXTENDED ++ [ArmTimer sec2 nsec2] /\
    sec1 * 1000 + nsec1 / 1000000 = 1 /\
    sec2 * 1000 + nsec2 / 1000000 = 0.
Proof.
  intros Hreach Hst Hlong. cbv zeta. cbn [dispatch].
  pose proof (reachable_Inv s Hreach) as HInv.
  pose proof HInv as (Hc & Hi & He & Hp & Ha & _).
  destruct (reevaluate_table s HInv) as (Es1 & El1 & _ & sec1 & nsec1 & Ho1 & Ht1).
  destruct (reevaluate_spec s HInv) as (HInv1 & _ & _ & _ & Ec1).
  pose proof (reevaluate_ticks s HInv) as Htk.
  destruct (reevaluate_globals s HInv) as (_ & Gm).
  assert (Hidle : after_timer (state (RT s)) (idle_s (RT s) * 1000)
                    (extended_s (RT s) * 1000) (elapsed_ms s) = IDLE).
  { rewrite Hst. unfold after_timer, elapsed_ms.
    destruct (Z.leb_spec (idle_s (RT s) * 1000)
                (clock (env s) (ticks (env s)) - last_activity_ms (RT s))); [reflexivity | lia]. }
  rewrite Hidle in *. rewrite Hst in Ho1. cbn [State_eqb due_ms] in Ho1, Ht1.
  set (s1 := exec reevaluate s) in *.
  assert (Hidx : idle_s (RT s1) = idle_s (RT s) /\ extended_s (RT s1) = extended_s (RT s)).
  { subst s1. rewrite (reevaluate_body s HInv).
    match goal with |- context [exec schedule_timer ?x] =>
      destruct (schedule_timer_spec x) as (_ & (_ & _ & I1 & I2 & _) & _); rewrite I1, I2 end.
    match goal with |- context [exec (enter ?to) ?x] =>
      destruct (enter_spec to x) as (_ & (_ & _ & J1 & J2 & _) & _); rewrite J1, J2 end.
    split; reflexivity. }
  destruct Hidx as (Ei1 & Ex1).
  destruct (reevaluate_table s1 HInv1) as (Es2 & _ & _ & sec2 & nsec2 & Ho2 & Ht2).
  pose proof (proj2 Hc (ticks (env s)) (ticks (env s1)) ltac:(lia)) as Hm1.
  pose proof (proj2 Hc (ticks (env s)) (S (ticks (env s))) ltac:(lia)) as Hm2.
  assert (Hext : after_timer (state (RT s1)) (idle_s (RT s1) * 1000)
                    (extended_s (RT s1) * 1000) (elapsed_ms s1) = EXTENDED).
  { rewrite Es1. unfold after_timer, elapsed_ms. rewrite Ei1, Ex1, El1, Ec1.
    destruct (Z.leb_spec (idle_s (RT s) * 1000 + extended_s (RT s) * 1000)
                (clock (env s) (ticks (env s1)) - last_activity_ms (RT s)));
      [reflexivity | lia]. }
  rewrite Hext in *. rewrite Es1 in Ho2. cbn [State_eqb due_ms] in Ho2, Ht2.
  split; [exact Es1|]. split; [exact Es2|].
  exists sec1, nsec1, sec2, nsec2. split; [| split].
  - rewrite Ho2, Ho1, Gm, <- !app_assoc. reflexivity.
  - unfold timer_ms in Ht1. cbn [fst snd] in Ht1. rewrite Ht1. lia.
  - exact Ht2.
Qed.

(** The sample machine under the fast clock: at the next reading, 20000 s
    after the activity mark, both timeouts, 900 s and 3600 s, have
    passed. *)
Lemma long_rest_passes_through_idle_witness :
  reachable demo_late /\ state (RT demo_late) = ACTIVE /\
  state (RT (exec (dispatch TimerReady) (exec (dispatch TimerReady) demo_late))) = EXTENDED.
Proof.
  assert (H1 : state (RT demo_late) = ACTIVE) by (vm_compute; reflexivity).
  split; [apply demo_late_reachable|]. split; [exact H1|].
  refine (proj1 (proj2 (long_rest_passes_through_idle demo_late demo_late_reachable H1 _))).
  vm_compute. discriminate.
Defined.

(** X26.  Plugging a device in does not wake the machine by the first
    report of its axes.  After an [add_dev] that succeeds, the first event
    on any absolute axis of the new device makes no pulse, whatever its
    value: it is recorded as the baseline of the axis. *)
Theorem first_report_of_a_new_device_is_silent
    (p : string) (o : OpenReply) (s : Sys) (e : input_event) :
  0 <= open_fd o -> epoll_add_ok o = true ->
  type e = EV_ABS -> 0 <= code e <= ABS_MAX ->
  let s1 := exec (add_dev p o) s in
  let i := length (devices (RT s)) in
  let r := handle_event i e false s1 in
  fst r = false /\
  pulses (env (snd r)) = pulses (env s) /\ out (env (snd r)) = out (env s1) /\
  state (RT (snd r)) = state (RT s) /\
  cell (abs_last (devices (RT (snd r)) !!! i)) (code e) = value e /\
  cell (abs_seen (devices (RT (snd r)) !!! i)) (code e) = true.
Proof.
  intros Hf He Ht Hc. cbv zeta.
  destruct (add_dev_new p o s Hf He) as (d & Hd & _ & _ & Hw & Hseen & _).
  destruct (add_dev_dev_only p o s) as (Es & _ & _ & Ep & _).
  set (s1 := exec (add_dev p o) s) in *.
  assert (Hdv : devices (RT s1) !! length (devices (RT s)) = Some d)
    by (rewrite Hd; now apply list_lookup_middle).
  assert (Hun : cell (abs_seen d) (code e) = false).
  { rewrite Hseen. unfold cell. apply lookup_total_replicate_2.
    unfold ABS_CNT, ABS_MAX in *. lia. }
  rewrite (handle_event_unseen _ e s1 d Hdv Ht Hun). cbn [fst snd].
  split; [reflexivity|]. split; [exact Ep|]. split; [reflexivity|]. split; [exact Es|].
  assert (Hi : (length (devices (RT s)) < length (devices (RT s1)))%nat)
    by (rewrite Hd, length_app; simpl; lia).
  rewrite (devices_set_dev _ _ s1 _ eq_refl Hi).
  destruct Hw as (W1 & W2 & _).
  unfold dev_first_seen. cbn [abs_last abs_seen with_seen with_last].
  split; apply cell_set_cell_eq; [rewrite W1 | rewrite W2];
    unfold ABS_CNT, ABS_MAX in *; lia.
Qed.

(** A second stick on the sample machine: its first report on axis 0, at
    the far end of the range, makes no pulse. *)
Lemma first_report_of_a_new_device_is_silent_witness :
  fst (handle_event (length (devices (RT demo_started))) (demo_abs 0 32767) false
         (exec (add_dev "/dev/input/event2" demo_again) demo_started))
    = false.
Proof.
  refine (proj1 (first_report_of_a_new_device_is_silent "/dev/input/event2" demo_again
                   demo_started (demo_abs 0 32767) _ eq_refl eq_refl _)).
  - vm_compute. discriminate.
  - vm_compute. split; discriminate.
Defined.

(** X27.  The milliseconds of [now_ms] follow the clock.  When the
    readings of the clock are [timespec] values as the kernel fills them
    (seconds below 2^52, nanoseconds below 10^9) and none is before the one
    it follows, the values [now_ms] computes from them are not negative,
    stay below 2^62 and never decrease: the arithmetic wraps nowhere, and
    the division of the nanoseconds loses no order. *)
Theorem now_ms_follows_the_clock (ts : nat -> Z * Z) :
  (forall n, timespec_ok (ts n)) ->
  (forall n, timespec_le (ts n) (ts (S n))) ->
  clock_ok (fun n => timespec_ms (ts n)).
Proof.
  intros Hok Hle. split.
  - intros n. destruct (timespec_ms_value (ts n) (Hok n)) as (-> & Q).
    destruct (Hok n) as ((S1 & S2) & _).
    assert (H52 : 2 ^ 52 = 4503599627370496) by reflexivity.
    assert (H62 : 2 ^ 62 = 4611686018427387904) by reflexivity.
    lia.
  - intros n m Hnm. induction Hnm as [| m _ IH]; [lia|].
    etransitivity; [exact IH|].
    apply timespec_ms_mono; [apply Hok | apply Hok | apply Hle].
Qed.

(** A clock that gains a quarter of a second from one reading to the
    next, up to a ceiling: its first reading is 5000 ms. *)
Lemma now_ms_follows_the_clock_witness :
  clock_ok (fun n => timespec_ms (demo_timespec n)) /\ timespec_ms (demo_timespec 0) = 5000.
Proof.
  split; [| reflexivity].
  apply (now_ms_follows_the_clock demo_timespec).
  - intros n. unfold timespec_ok, demo_timespec. cbn [fst snd].
    assert (H52 : 2 ^ 52 = 4503599627370496) by reflexivity.
    pose proof (Z.mod_pos_bound (Z.min (Z.of_nat n) 1000000) 4 ltac:(lia)).
    pose proof (Z.div_pos (Z.min (Z.of_nat n) 1000000) 4 ltac:(lia) ltac:(lia)).
    pose proof (Z.div_le_upper_bound (Z.min (Z.of_nat n) 1000000) 4 1000000
                  ltac:(lia) ltac:(lia)).
    lia.
  - intros n. unfold timespec_le, demo_timespec. cbn [fst snd].
    pose proof (Z.div_mod (Z.min (Z.of_nat n) 1000000) 4 ltac:(lia)).
    pose proof (Z.div_mod (Z.min (Z.of_nat (S n)) 1000000) 4 ltac:(lia)).
    pose proof (Z.mod_pos_bound (Z.min (Z.of_nat n) 1000000) 4 ltac:(lia)).
    pose proof (Z.mod_pos_bound (Z.min (Z.of_nat (S n)) 1000000) 4 ltac:(lia)).
    lia.
Defined.
